(** * Drag-resize handlers of the calendar: time grid and month view

    A shallow embedding of [TimeResize], the resize handler of the time
    grid, of [WeekResize], the resize handler of the month view, and of
    [WeekResizeGuide], the guide the latter makes, and the properties of
    the ranges they hand to the controller.

    Conventions of the embedding:
    - a [TZDate] is a mutable object: it lives in a store of cells, each
      holding epoch milliseconds, and is passed around by reference;
    - every handler is a computation over the state it can reach (its own
      fields, the drag handler's listener table, the controller's schedule
      collection, the date store) that also yields the events it fires;
    - an event is handed to its listeners in a walk through the listener
      array as it is at each call, so a listener that unsubscribes changes
      what the walk finds next; the events the month handler fires go to
      the listeners of its guide, and a listener that throws ends the
      handler that fired;
    - collaborators that are not part of these files (DOM utilities,
      configuration, the mouse-to-grid mappers, the guide element) are
      interfaces. *)

From Stdlib Require Import ZArith Lia Floats.
From stdpp Require Import base option list gmap strings.

Local Open Scope Z_scope.


(** ** Completions and the handler monad *)

Inductive JsError : Type :=
| TypeError (msg : string).

Inductive Completion (A : Type) : Type :=
| Normal (a : A)
| Throw (e : JsError).
Arguments Normal {A} a.
Arguments Throw {A} e.

(** A computation reads and updates a state [S], fires events of type [E]
    (oldest first) and either returns or throws. What was written and fired
    before a throw stays written and fired. *)
Definition M (S E A : Type) : Type := S → Completion A * S * list E.

Definition ret {S E A} (a : A) : M S E A := λ s, (Normal a, s, []).

Definition bind {S E A B} (m : M S E A) (k : A → M S E B) : M S E B :=
  λ s, match m s with
       | (Normal a, s1, out1) =>
           match k a s1 with
           | (c, s2, out2) => (c, s2, out1 ++ out2)
           end
       | (Throw e, s1, out1) => (Throw e, s1, out1)
       end.

Definition throw {S E A} (e : JsError) : M S E A := λ s, (Throw e, s, []).
Definition get {S E} : M S E S := λ s, (Normal s, s, []).
Definition gets {S E A} (f : S → A) : M S E A := λ s, (Normal (f s), s, []).
Definition modify {S E} (f : S → S) : M S E unit := λ s, (Normal tt, f s, []).
Definition emit {S E} (e : E) : M S E unit := λ s, (Normal tt, s, [e]).

Global Instance M_ret {S E} : MRet (M S E) := λ A, ret.
Global Instance M_bind {S E} : MBind (M S E) := λ A B k m, bind m k.

Definition completion {S E A} (r : Completion A * S * list E) : Completion A := r.1.1.
Definition final {S E A} (r : Completion A * S * list E) : S := r.1.2.
Definition fired {S E A} (r : Completion A * S * list E) : list E := r.2.

(** ** TZDate objects *)

(** A reference to a [TZDate] object: the index of its cell. *)
Definition ref : Type := nat.

(** [d.getTime()], [d.valueOf()], and what [<], [>], [-] see of a date. *)
Definition valueOf (h : list Z) (d : ref) : Z := default 0 (h !! d).

Module TZDate.
(** Modelled from the spec: common/timezone is not among the sources. The
    spec calls a schedule's start and end "timezone-aware instants"; the
    handlers use [new TZDate(x)] as a copy and the [add*] methods as
    in-place updates that return the receiver (their results are chained
    and assigned). Instants are epoch milliseconds on a timeline without
    clock shifts, so a minute is 60000 ms and a date is 86400000 ms. *)
Definition new (ms : Z) (h : list Z) : ref * list Z := (length h, h ++ [ms]).

Definition addMilliseconds (d : ref) (ms : Z) (h : list Z) : ref * list Z :=
  (d, <[d := valueOf h d + ms]> h).

Definition addMinutes (d : ref) (n : Z) : list Z → ref * list Z :=
  addMilliseconds d (n * 60000).

Definition addDate (d : ref) (n : Z) : list Z → ref * list Z :=
  addMilliseconds d (n * 86400000).
End TZDate.

Module datetime.
(** Modelled from the spec: common/datetime is not among the sources. The
    spec gives a "minimum 30-minute duration", a "start-of-day" and an
    "end-of-day" of "a day ending at 23:59"; [end] is the last whole
    second of the date's day, [start] its midnight. *)
Inductive unit_name : Type := day | hour | minutes | seconds.

Definition millisecondsFrom (type : unit_name) (value : Z) : Z :=
  match type with
  | day => value * 86400000
  | hour => value * 3600000
  | minutes => value * 60000
  | seconds => value * 1000
  end.

Definition MILLISECONDS_PER_DAY : Z := 86400000.

Definition start (ms : Z) : Z := ms - ms mod MILLISECONDS_PER_DAY.
Definition end_ (ms : Z) : Z := start ms + (MILLISECONDS_PER_DAY - 1000).
End datetime.

(** ** States that hold the date store *)

Class HasDates (S : Type) : Type := {
  dates : S → list Z;
  set_dates : list Z → S → S
}.

Section DateOps.
Context {S E : Type} `{HasDates S}.

Definition liftD {A} (f : list Z → A * list Z) : M S E A :=
  λ st, (Normal (f (dates st)).1, set_dates (f (dates st)).2 st, []).

Definition getTime (d : ref) : M S E Z := gets (λ st, valueOf (dates st) d).

(** [new TZDate(ms)] for a number, and [new TZDate(d)] for a date object *)
Definition newDate (ms : Z) : M S E ref := liftD (TZDate.new ms).
Definition copy (d : ref) : M S E ref := ms ← getTime d; newDate ms.

Definition addMilliseconds (d : ref) (ms : Z) : M S E ref :=
  liftD (TZDate.addMilliseconds d ms).
Definition addMinutes (d : ref) (n : Z) : M S E ref := liftD (TZDate.addMinutes d n).
Definition addDate (d : ref) (n : Z) : M S E ref := liftD (TZDate.addDate d n).

(** [datetime.end(d)]: a new date object *)
Definition datetime_end (d : ref) : M S E ref :=
  ms ← getTime d; newDate (datetime.end_ ms).

End DateOps.

(** A fired event: its name, its data, and the dates as the listeners see
    them at that moment. *)
Record Event (P : Type) : Type := {
  ev_name : string;
  ev_data : P;
  ev_dates : list Z
}.
Arguments ev_name {P} e.
Arguments ev_data {P} e.
Arguments ev_dates {P} e.

(** Modelled from the spec: [fire] of the emitter the handlers are mixed
    with (util.CustomEvents) is not among the sources. The spec has the
    handlers "emit" named events "carrying the payloads" to an "event
    sink", a controller outside. Here the call is recorded, with what it
    hands over, and returns: the listeners of the events of [TimeResize]
    and of [beforeUpdateSchedule] are outside of the sources and taken to
    return. The three events of [WeekResize] go to its guide as well, see
    [WeekResize.fire]. *)
Definition fire {S P : Type} `{HasDates S} (name : string) (data : P) : M S (Event P) unit :=
  λ st, (Normal tt, st, [{| ev_name := name; ev_data := data; ev_dates := dates st |}]).

(** ** Schedules and change requests *)

(** A schedule model. [getStarts()] and [getEnds()] hand out the schedule's
    own date objects. *)
Record Schedule : Type := {
  sch_id : string;
  sch_start : ref;
  sch_end : ref
}.

Definition getStarts (s : Schedule) : ref := sch_start s.
Definition getEnds (s : Schedule) : ref := sch_end s.

Global Instance Schedule_eq_dec : EqDecision Schedule.
Proof. solve_decision. Defined.

Module common.
Inductive propName : Type := p_start | p_end.

Global Instance propName_eq_dec : EqDecision propName.
Proof. solve_decision. Defined.

(** The [changes] member of a change request: the date fields a resize
    can ask to change. *)
Record Changes : Type := {
  c_start : option ref;
  c_end : option ref
}.

(** Modelled from the spec: common/common is not among the sources. The
    spec describes the result as "a changes object containing only the
    modified field": of the supplied data, the properties that are
    listed. *)
Definition getScheduleChanges (schedule : Schedule) (propNames : list propName)
    (data : Changes) : Changes :=
  {| c_start := if decide (p_start ∈ propNames) then c_start data else None;
     c_end := if decide (p_end ∈ propNames) then c_end data else None |}.
End common.

(** The payload of [beforeUpdateSchedule]. *)
Record BeforeUpdate : Type := {
  bu_schedule : Schedule;
  bu_changes : common.Changes;
  bu_start : ref;
  bu_end : ref
}.

(** ** The month view and what its events carry *)

Module Month.

Record MonthView : Type := {
  mv_index : N
}.

Section Data.
Context {Element : Type}.

(** The data of the events of the month variant: the mapper's result,
    extended at the drag start. *)
Record ScheduleData : Type := {
  x : Z;
  y : Z;
  date : ref;
  sd_target : option Element;
  model : option Schedule
}.

End Data.
End Month.

(** ** Collaborators *)

Record DOMRect : Type := {
  rect_top : float;
  rect_height : float
}.

Record MouseEvent : Type := {
  clientX : float;
  clientY : float
}.

(** The DOM queries of common/domutil, the class-name configuration and the
    conversions the handlers and the guide go through. They are interfaces
    here: every result below holds whatever they answer. *)
Class Host (Element : Type) : Type := {
  hasClass : Element → string → bool;
  closest : Element → string → option Element;
  getClass : Element → string;
  getData : Element → string → string;
  getBoundingClientRect : Element → DOMRect;
  classname : string → string;
  (** [str.match(config.time.getViewIDRegExp)]: [None] is [null] *)
  time_getViewIDRegExp : string → option (list string);
  (** [Number(str)], when it is an index *)
  Number : string → option N;
  (** whether two elements are the same node *)
  Element_eq_dec :: EqDecision Element;
  (** [domutil.find(selector, root, true)]: the elements under [root] that
      match [selector] *)
  find : string → Element → list Element;
  (** [monthView.container] *)
  container : Month.MonthView → Element;
  (** [model.cid()], as it is appended to a class name *)
  cid : Schedule → string;
  (** [util.browser.msie] *)
  msie : bool;
  (** the class of an element after [domutil.addClass] and after
      [domutil.removeClass] *)
  addClass : string → string → string;
  removeClass : string → string → string;
  (** [style.display] of the elements and the class of [document.body] as
      they are when an instance is made *)
  page_display : Element → string;
  page_body_class : string
}.

(** What a drag gesture source hands to its listeners. *)
Record DragEventData (Element : Type) : Type := {
  target : Element;
  originEvent : MouseEvent
}.
Arguments target {Element} d.
Arguments originEvent {Element} d.

(** The events of the drag handler. *)
Inductive DragEvent : Type := DragStart | Drag | DragEnd | Click.

Global Instance DragEvent_eq_dec : EqDecision DragEvent.
Proof. solve_decision. Defined.

Section Listeners.
Context {L : Type} `{EqDecision L}.

(** Modelled from the spec: the event emitter that the drag handler and
    the two handlers are mixed with (util.CustomEvents) is not among the
    sources. The spec has handlers that "subscribe" and "unsubscribe" and
    a gesture source that "emits" its events to them. A listener table
    keeps the entries in the order of subscription: [on] appends, [off]
    removes every entry for the given event and listener. *)
Definition on (subs : list (DragEvent * L)) (tbl : list (DragEvent * L)) :
    list (DragEvent * L) :=
  tbl ++ subs.

Definition off (subs : list (DragEvent * L)) (tbl : list (DragEvent * L)) :
    list (DragEvent * L) :=
  filter (λ entry, entry ∉ subs) tbl.

Definition listenersOf (ev : DragEvent) (tbl : list (DragEvent * L)) : list L :=
  (filter (λ entry, entry.1 = ev) tbl).*2.

End Listeners.

Section Walk.
Context {St Ev L : Type} (listeners : St → list L) (call : L → M St Ev unit).

(** Modelled from the spec: the emitter's [invoke] (util.CustomEvents) is
    not among the sources. The spec has the events emitted synchronously,
    "inside pointer-event callbacks". The listeners of the event are
    called by index in the array as it is at that moment: when a listener
    unsubscribes entries, the ones behind them move forward, and the walk
    goes on at the next index; it ends at the end of the array, or when a
    listener throws. [fuel] bounds the number of calls. *)
Fixpoint walk (fuel index : nat) : M St Ev unit :=
  match fuel with
  | O => mret tt
  | S fuel =>
      ls ← gets listeners;
      match ls !! index with
      | None => mret tt
      | Some l => call l;; walk fuel (S index)
      end
  end.

End Walk.

(** The calls a walk through [ls] can take when [start] is the only
    listener that subscribes, one listener per event and never itself:
    one call per listener, and one more per [start] for the listener it
    subscribes. *)
Definition calls_of {L : Type} `{EqDecision L} (start : L) (ls : list L) : nat :=
  length ls + length (filter (λ l, l = start) ls).

(** ** The time grid variant: [TimeResize] *)

Module TimeResize.

(** A column of the time grid; [getDate()] is the date it shows. *)
Record TimeView : Type := {
  tv_index : N;
  tv_date : Z
}.

Definition getDate (v : TimeView) : Z := tv_date v.

(** What the mouse-to-grid calculation of the mixin [timeCore] yields for
    a pointer position in a column. *)
Record GridPoint : Type := {
  g_mouseY : float;
  g_gridY : float;
  g_timeY : Z;
  g_nearestGridY : float;
  g_nearestGridTimeY : Z
}.

Class TimeCore : Type := {
  gridPoint : TimeView → MouseEvent → GridPoint
}.

(** Schedule data: the mapper's result, extended by the handlers. *)
Record ScheduleData : Type := {
  relatedView : TimeView;
  sd_originEvent : MouseEvent;
  mouseY : float;
  gridY : float;
  timeY : ref;
  nearestGridY : float;
  nearestGridTimeY : ref;
  targetModelID : string;
  schedule : option Schedule;
  range : option (ref * ref);
  nearestRange : option (ref * ref)
}.

Definition with_range (r : ref * ref) (d : ScheduleData) : ScheduleData :=
  {| relatedView := relatedView d; sd_originEvent := sd_originEvent d;
     mouseY := mouseY d; gridY := gridY d; timeY := timeY d;
     nearestGridY := nearestGridY d; nearestGridTimeY := nearestGridTimeY d;
     targetModelID := targetModelID d; schedule := schedule d;
     range := Some r; nearestRange := nearestRange d |}.

Definition with_nearestRange (r : ref * ref) (d : ScheduleData) : ScheduleData :=
  {| relatedView := relatedView d; sd_originEvent := sd_originEvent d;
     mouseY := mouseY d; gridY := gridY d; timeY := timeY d;
     nearestGridY := nearestGridY d; nearestGridTimeY := nearestGridTimeY d;
     targetModelID := targetModelID d; schedule := schedule d;
     range := range d; nearestRange := Some r |}.

Inductive Listener : Type :=
| cb_onDragStart | cb_onDrag | cb_onDragTop
| cb_onDragEnd | cb_onDragEndTop | cb_onClick.

Global Instance Listener_eq_dec : EqDecision Listener.
Proof. solve_decision. Defined.

(** Everything a [TimeResize] instance can reach. The two last fields are
    its own; [_getScheduleDataFunc] is the mapper bound to a column. *)
Record State : Type := {
  st_dates : list Z;
  schedules_items : gmap string Schedule;
  children_items : gmap N TimeView;
  dragHandler : list (DragEvent * Listener);
  _getScheduleDataFunc : option TimeView;
  _dragStart : option ScheduleData
}.

Definition set_st_dates (h : list Z) (st : State) : State :=
  {| st_dates := h; schedules_items := schedules_items st;
     children_items := children_items st; dragHandler := dragHandler st;
     _getScheduleDataFunc := _getScheduleDataFunc st; _dragStart := _dragStart st |}.

Definition set_dragHandler (f : list (DragEvent * Listener) → list (DragEvent * Listener))
    (st : State) : State :=
  {| st_dates := st_dates st; schedules_items := schedules_items st;
     children_items := children_items st; dragHandler := f (dragHandler st);
     _getScheduleDataFunc := _getScheduleDataFunc st; _dragStart := _dragStart st |}.

Definition set_getScheduleDataFunc (v : option TimeView) (st : State) : State :=
  {| st_dates := st_dates st; schedules_items := schedules_items st;
     children_items := children_items st; dragHandler := dragHandler st;
     _getScheduleDataFunc := v; _dragStart := _dragStart st |}.

Definition set_dragStart (v : option ScheduleData) (st : State) : State :=
  {| st_dates := st_dates st; schedules_items := schedules_items st;
     children_items := children_items st; dragHandler := dragHandler st;
     _getScheduleDataFunc := _getScheduleDataFunc st; _dragStart := v |}.

Global Instance State_dates : HasDates State :=
  {| dates := st_dates; set_dates := set_st_dates |}.

Inductive Payload : Type :=
| no_data
| schedule_data (d : ScheduleData)
| update (u : BeforeUpdate).

Abbreviation Handler := (M State (Event Payload)).

Section Handlers.
Context {Element : Type} `{Host Element} `{TimeCore}.

(** Modelled from the spec: the mixin [timeCore] ('./core') is not among
    the sources. The spec gives the mapper as a function [(pointerEvent,
    context) -> {mouseY, gridY, timeY, nearestGridY, nearestGridTimeY,
    relatedView, targetModelId}]; its two times are date objects of their
    own, and the context supplies the model id and (at drag start) the
    schedule. *)
Definition _retriveScheduleData (timeView : TimeView) (mouseEvent : MouseEvent)
    (extend_targetModelID : string) (extend_schedule : option Schedule) :
    Handler ScheduleData :=
  let p := gridPoint timeView mouseEvent in
  t ← newDate (g_timeY p);
  n ← newDate (g_nearestGridTimeY p);
  mret {| relatedView := timeView; sd_originEvent := mouseEvent;
          mouseY := g_mouseY p; gridY := g_gridY p; timeY := t;
          nearestGridY := g_nearestGridY p; nearestGridTimeY := n;
          targetModelID := extend_targetModelID; schedule := extend_schedule;
          range := None; nearestRange := None |}.

Definition checkExpectCondition (st : State) (target : Element) : option TimeView :=
  if negb (hasClass target (classname "time-resize-handle")) then None
  else
    match closest target (classname ".time-date") with
    | None => None
    | Some container =>
        match time_getViewIDRegExp (getClass container) with
        | None => None
        | Some matches =>
            if decide (length matches < 2)%nat then None
            else
              match Number (default "" (matches !! 1%nat)) with
              | None => None
              | Some i => children_items st !! i
              end
        end
    end.

Definition _onDragStart (dragStartEventData : DragEventData Element) : Handler unit :=
  let target := target dragStartEventData in
  timeView ← gets (λ st, checkExpectCondition st target);
  let blockElement := closest target (classname ".time-date-schedule-block") in
  let isDraggingTop :=
    match blockElement with
    | Some blockElement =>
        let blockElementBoundingClientRect := getBoundingClientRect blockElement in
        let blockElementTopY := rect_top blockElementBoundingClientRect in
        let blockElementBottomY :=
          (rect_top blockElementBoundingClientRect
           + rect_height blockElementBoundingClientRect)%float in
        let blockElementDraggingTopThreshold :=
          (blockElementTopY + ((blockElementBottomY - blockElementTopY) / 2))%float in
        let mouseStartY := clientY (originEvent dragStartEventData) in
        Some (mouseStartY <=? blockElementDraggingTopThreshold)%float
    | None => None
    end in
  match timeView, blockElement with
  | Some timeView, Some blockElement =>
      let targetModelID := getData blockElement "id" in
      modify (set_getScheduleDataFunc (Some timeView));;
      items ← gets schedules_items;
      scheduleData ← _retriveScheduleData timeView (originEvent dragStartEventData)
                       targetModelID (items !! targetModelID);
      modify (set_dragStart (Some scheduleData));;
      (if isDraggingTop is Some true
       then modify (set_dragHandler
                      (on [(Drag, cb_onDragTop); (DragEnd, cb_onDragEndTop); (Click, cb_onClick)]))
       else modify (set_dragHandler
                      (on [(Drag, cb_onDrag); (DragEnd, cb_onDragEnd); (Click, cb_onClick)])));;
      fire "timeResizeDragstart" (schedule_data scheduleData)
  | _, _ => mret tt
  end.

Definition _onDrag (dragEventData : DragEventData Element)
    (overrideEventName : option string) (revise : option (ScheduleData → ScheduleData)) :
    Handler unit :=
  getScheduleDataFunc ← gets _getScheduleDataFunc;
  startScheduleData ← gets _dragStart;
  match getScheduleDataFunc, startScheduleData with
  | Some getScheduleDataFunc, Some startScheduleData =>
      scheduleData ← _retriveScheduleData getScheduleDataFunc (originEvent dragEventData)
                       (targetModelID startScheduleData) None;
      let scheduleData := default id revise scheduleData in
      fire (default "timeResizeDrag" overrideEventName) (schedule_data scheduleData)
  | _, _ => mret tt
  end.

Definition _onDragTop (dragEventData : DragEventData Element)
    (overrideEventName : option string) (revise : option (ScheduleData → ScheduleData)) :
    Handler unit :=
  getScheduleDataFunc ← gets _getScheduleDataFunc;
  startScheduleData ← gets _dragStart;
  match getScheduleDataFunc, startScheduleData with
  | Some getScheduleDataFunc, Some startScheduleData =>
      scheduleData ← _retriveScheduleData getScheduleDataFunc (originEvent dragEventData)
                       (targetModelID startScheduleData) None;
      let scheduleData := default id revise scheduleData in
      fire (default "timeResizeDragTop" overrideEventName) (schedule_data scheduleData)
  | _, _ => mret tt
  end.

Definition _updateSchedule (scheduleData : ScheduleData) : Handler unit :=
  items ← gets schedules_items;
  let modelID := targetModelID scheduleData in
  match nearestRange scheduleData with
  | None => throw (TypeError "Cannot read properties of undefined")
  | Some (range0, range1) =>
      t1 ← getTime range1;
      t0 ← getTime range0;
      let timeDiff := t1 - t0 in
      let relatedView := relatedView scheduleData in
      match items !! modelID with
      | None => mret tt
      | Some schedule =>
          let timeDiff := timeDiff - datetime.millisecondsFrom datetime.minutes 30 in
          baseDate ← newDate (getDate relatedView);
          dateEnd ← datetime_end baseDate;
          newEnds ← copy (getEnds schedule);
          newEnds ← addMilliseconds newEnds timeDiff;
          a ← getTime newEnds;
          b ← getTime dateEnd;
          newEnds ← (if a >? b then copy dateEnd else mret newEnds);
          a ← getTime newEnds;
          b ← getTime (getStarts schedule);
          newEnds ← (if a - b <? datetime.millisecondsFrom datetime.minutes 30
                     then c ← copy (getStarts schedule); addMinutes c 30
                     else mret newEnds);
          a ← getTime newEnds;
          limit ← copy baseDate;
          limit ← addDate limit 1;
          b ← getTime limit;
          newEnds ← (if a >? b
                     then c ← copy baseDate; c ← addDate c 1; addMinutes c (-1)
                     else mret newEnds);
          let changes :=
            common.getScheduleChanges schedule [common.p_end]
              {| common.c_start := None; common.c_end := Some newEnds |} in
          fire "beforeUpdateSchedule"
            (update {| bu_schedule := schedule; bu_changes := changes;
                       bu_start := getStarts schedule; bu_end := newEnds |})
      end
  end.

Definition _updateScheduleTop (scheduleData : ScheduleData) : Handler unit :=
  items ← gets schedules_items;
  let modelID := targetModelID scheduleData in
  match nearestRange scheduleData with
  | None => throw (TypeError "Cannot read properties of undefined")
  | Some (range0, range1) =>
      t1 ← getTime range1;
      t0 ← getTime range0;
      let timeDiff := t1 - t0 in
      let relatedView := relatedView scheduleData in
      match items !! modelID with
      | None => mret tt
      | Some schedule =>
          let timeDiff := timeDiff - datetime.millisecondsFrom datetime.minutes 30 in
          baseDate ← newDate (getDate relatedView);
          newStarts ← copy (getStarts schedule);
          newStarts ← addMilliseconds newStarts timeDiff;
          a ← getTime newStarts;
          b ← getTime baseDate;
          newStarts ← (if a <? b then copy baseDate else mret newStarts);
          a ← getTime (getEnds schedule);
          b ← getTime newStarts;
          newStarts ← (if a - b <? datetime.millisecondsFrom datetime.minutes 30
                       then c ← copy (getEnds schedule); addMinutes c (-30)
                       else mret newStarts);
          a ← getTime newStarts;
          b ← getTime baseDate;
          newStarts ← (if a <? b then copy baseDate else mret newStarts);
          let changes :=
            common.getScheduleChanges schedule [common.p_start]
              {| common.c_start := Some newStarts; common.c_end := None |} in
          fire "beforeUpdateSchedule"
            (update {| bu_schedule := schedule; bu_changes := changes;
                       bu_start := newStarts; bu_end := getEnds schedule |})
      end
  end.

Definition _onDragEnd (dragEndEventData : DragEventData Element) : Handler unit :=
  getScheduleDataFunc ← gets _getScheduleDataFunc;
  dragStart ← gets _dragStart;
  modify (set_dragHandler
            (off [(Drag, cb_onDrag); (DragEnd, cb_onDragEnd); (Click, cb_onClick)]));;
  match getScheduleDataFunc, dragStart with
  | Some getScheduleDataFunc, Some dragStart =>
      scheduleData ← _retriveScheduleData getScheduleDataFunc (originEvent dragEndEventData)
                       (targetModelID dragStart) None;
      r ← copy (timeY scheduleData);
      r ← addMinutes r 30;
      let scheduleData := with_range (timeY dragStart, r) scheduleData in
      n ← addMinutes (nearestGridTimeY scheduleData) 30;
      let scheduleData := with_nearestRange (nearestGridTimeY dragStart, n) scheduleData in
      _updateSchedule scheduleData;;
      fire "timeResizeDragend" (schedule_data scheduleData);;
      modify (set_getScheduleDataFunc None);;
      modify (set_dragStart None)
  | _, _ => mret tt
  end.

Definition _onDragEndTop (dragEndEventData : DragEventData Element) : Handler unit :=
  getScheduleDataFunc ← gets _getScheduleDataFunc;
  dragStart ← gets _dragStart;
  modify (set_dragHandler
            (off [(Drag, cb_onDragTop); (DragEnd, cb_onDragEndTop); (Click, cb_onClick)]));;
  match getScheduleDataFunc, dragStart with
  | Some getScheduleDataFunc, Some dragStart =>
      scheduleData ← _retriveScheduleData getScheduleDataFunc (originEvent dragEndEventData)
                       (targetModelID dragStart) None;
      r ← copy (timeY scheduleData);
      r ← addMinutes r 30;
      let scheduleData := with_range (timeY dragStart, r) scheduleData in
      n ← addMinutes (nearestGridTimeY scheduleData) 30;
      let scheduleData := with_nearestRange (nearestGridTimeY dragStart, n) scheduleData in
      _updateScheduleTop scheduleData;;
      fire "timeResizeDragend" (schedule_data scheduleData);;
      modify (set_getScheduleDataFunc None);;
      modify (set_dragStart None)
  | _, _ => mret tt
  end.

Definition _onClick : Handler unit :=
  modify (set_dragHandler
            (off [(Drag, cb_onDrag); (DragEnd, cb_onDragEnd); (Click, cb_onClick)]));;
  modify (set_dragHandler
            (off [(Drag, cb_onDragTop); (DragEnd, cb_onDragEndTop); (Click, cb_onClick)]));;
  fire "timeResizeClick" no_data.

(** The drag handler calling a listener of this instance. *)
Definition invoke (l : Listener) (data : DragEventData Element) : Handler unit :=
  match l with
  | cb_onDragStart => _onDragStart data
  | cb_onDrag => _onDrag data None None
  | cb_onDragTop => _onDragTop data None None
  | cb_onDragEnd => _onDragEnd data
  | cb_onDragEndTop => _onDragEndTop data
  | cb_onClick => _onClick
  end.

(** Modelled from the spec: the drag handler ([Drag]) is not among the
    sources. The spec has a "pointer/drag gesture source" that "emits
    [dragStart], [drag], [dragEnd], [click]". The drag handler firing [ev]
    is the emitter's walk through the listeners of [ev] in the table as
    the listeners leave it, bounded by [calls_of]. *)
Definition dispatch (ev : DragEvent) (data : DragEventData Element) : Handler unit :=
  tbl ← gets dragHandler;
  walk (λ st, listenersOf ev (dragHandler st)) (λ l, invoke l data)
    (calls_of cb_onDragStart (listenersOf ev tbl)) 0.

(** A gesture is a sequence of drag handler events. Each is dispatched on
    the state its predecessor left, also when that one threw. *)
Fixpoint gesture (evs : list (DragEvent * DragEventData Element)) (st : State) :
    State * list (Event Payload) :=
  match evs with
  | [] => (st, [])
  | (ev, data) :: evs =>
      let r := dispatch ev data st in
      let r' := gesture evs (final r) in
      (r'.1, fired r ++ r'.2)
  end.

End Handlers.

(** The state right after [new TimeResize(...)]. *)
Definition init (items : gmap string Schedule) (children : gmap N TimeView)
    (h : list Z) : State :=
  {| st_dates := h; schedules_items := items; children_items := children;
     dragHandler := [(DragStart, cb_onDragStart)];
     _getScheduleDataFunc := None; _dragStart := None |}.

End TimeResize.

(** ** The guide of the month variant: [WeekResizeGuide] *)

Module WeekResizeGuide.

(** The guide element of a drag, [new MonthGuide(options, monthView)]
    ('./guide'), is a collaborator: it is known by what it was made from,
    and the calls of its methods are recorded in order. *)
Record MonthGuide : Type := {
  isResizeMode : bool;
  guide_monthView : option Month.MonthView
}.

Inductive Listener : Type := cb_onDragStart | cb_onDrag | cb_onDragEnd.

Section Handlers.
Context {Element : Type} `{Host Element}.

Inductive Call : Type :=
| guide_start (g : MonthGuide) (dragStartEvent : Month.ScheduleData (Element := Element))
| guide_update (g : MonthGuide) (x y : Z)
| guide_destroy (g : MonthGuide).

(** What a [WeekResizeGuide] instance can reach: the [style.display] of
    the elements, the class of [document.body], what is behind
    [this.WeekResize] ([false] once that is [null]: the custom events of
    the [WeekResize] instance as this guide subscribed them, and the month
    view of that instance), and its own two fields. *)
Record State : Type := {
  display : Element → string;
  body_class : string;
  the_WeekResize : bool;
  handlers : list (string * Listener);
  monthView : option Month.MonthView;
  elements : option (list Element);
  guide : option MonthGuide
}.

Definition set_display (el : Element) (v : string) (st : State) : State :=
  {| display := λ e, if decide (e = el) then v else display st e;
     body_class := body_class st;
     the_WeekResize := the_WeekResize st; handlers := handlers st;
     monthView := monthView st; elements := elements st; guide := guide st |}.

Definition set_body_class (f : string → string) (st : State) : State :=
  {| display := display st; body_class := f (body_class st);
     the_WeekResize := the_WeekResize st; handlers := handlers st;
     monthView := monthView st; elements := elements st; guide := guide st |}.

Definition set_the_WeekResize (v : bool) (st : State) : State :=
  {| display := display st; body_class := body_class st;
     the_WeekResize := v; handlers := handlers st;
     monthView := monthView st; elements := elements st; guide := guide st |}.

Definition set_handlers (v : list (string * Listener)) (st : State) : State :=
  {| display := display st; body_class := body_class st;
     the_WeekResize := the_WeekResize st; handlers := v;
     monthView := monthView st; elements := elements st; guide := guide st |}.

Definition set_monthView (v : option Month.MonthView) (st : State) : State :=
  {| display := display st; body_class := body_class st;
     the_WeekResize := the_WeekResize st; handlers := handlers st;
     monthView := v; elements := elements st; guide := guide st |}.

Definition set_elements (v : option (list Element)) (st : State) : State :=
  {| display := display st; body_class := body_class st;
     the_WeekResize := the_WeekResize st; handlers := handlers st;
     monthView := monthView st; elements := v; guide := guide st |}.

Definition set_guide (v : option MonthGuide) (st : State) : State :=
  {| display := display st; body_class := body_class st;
     the_WeekResize := the_WeekResize st; handlers := handlers st;
     monthView := monthView st; elements := elements st; guide := v |}.

Abbreviation Handler := (M State Call).

(** [util.forEach(arr, iteratee)] of an array: in order. *)
Fixpoint forEach {A : Type} (arr : list A) (iteratee : A → Handler unit) : Handler unit :=
  match arr with
  | [] => mret tt
  | a :: arr => iteratee a;; forEach arr iteratee
  end.

Definition _hideScheduleBlocks (modelID : string) : Handler unit :=
  w ← gets the_WeekResize;
  if negb w then throw (TypeError "Cannot read properties of null")
  else
    view ← gets monthView;
    match view with
    | None => throw (TypeError "Cannot read properties of null")
    | Some view =>
        let found :=
          find (classname (".weekday-schedule-block-" +:+ modelID)) (container view) in
        modify (set_elements (Some found));;
        forEach found (λ el, modify (set_display el "none"))
    end.

(** [util.forEach(null, ...)] goes through nothing. *)
Definition _showScheduleBlocks : Handler unit :=
  els ← gets elements;
  forEach (default [] els) (λ el, modify (set_display el "block")).

Definition _onDragStart (dragStartEvent : Month.ScheduleData (Element := Element)) :
    Handler unit :=
  w ← gets the_WeekResize;
  if negb w then throw (TypeError "Cannot read properties of null")
  else
    view ← gets monthView;
    let g := {| isResizeMode := true; guide_monthView := view |} in
    modify (set_guide (Some g));;
    emit (guide_start g dragStartEvent);;
    match Month.model dragStartEvent with
    | None => throw (TypeError "Cannot read properties of undefined")
    | Some model => _hideScheduleBlocks (cid model)
    end;;
    if negb msie
    then modify (set_body_class (λ c, addClass c (classname "resizing-x")))
    else mret tt.

Definition _onDrag (dragEvent : Month.ScheduleData (Element := Element)) : Handler unit :=
  g ← gets guide;
  match g with
  | None => throw (TypeError "Cannot read properties of null")
  | Some g => emit (guide_update g (Month.x dragEvent) (Month.y dragEvent))
  end.

Definition _onDragEnd : Handler unit :=
  _showScheduleBlocks;;
  g ← gets guide;
  match g with
  | None => throw (TypeError "Cannot read properties of null")
  | Some g =>
      emit (guide_destroy g);;
      modify (set_elements None);;
      modify (set_guide None);;
      if negb msie
      then modify (set_body_class (λ c, removeClass c (classname "resizing-x")))
      else mret tt
  end.

(** [this.WeekResize.off(this)] removes every listener of this guide. *)
Definition destroy : Handler unit :=
  w ← gets the_WeekResize;
  if negb w then throw (TypeError "Cannot read properties of null")
  else
    modify (set_handlers []);;
    g ← gets guide;
    match g with
    | None => throw (TypeError "Cannot read properties of null")
    | Some g =>
        emit (guide_destroy g);;
        modify (set_guide None);;
        modify (set_the_WeekResize false)
    end.

(** The [WeekResize] instance calling a listener of this guide with the
    data of the event it fires. [WeekResizeDragstart] and [WeekResizeDrag]
    are fired with data; without, the drag start listener fails on
    [dragStartEvent.model] at the latest, with its guide element made, and
    the drag listener on [this.guide] or on [dragEvent.x]. *)
Definition invoke (l : Listener) (data : option (Month.ScheduleData (Element := Element))) :
    Handler unit :=
  match l, data with
  | cb_onDragStart, Some dragStartEvent => _onDragStart dragStartEvent
  | cb_onDragStart, None =>
      w ← gets the_WeekResize;
      if negb w then throw (TypeError "Cannot read properties of null")
      else
        view ← gets monthView;
        modify (set_guide (Some {| isResizeMode := true; guide_monthView := view |}));;
        throw (TypeError "Cannot read properties of undefined")
  | cb_onDrag, Some dragEvent => _onDrag dragEvent
  | cb_onDrag, None => throw (TypeError "Cannot read properties of undefined")
  | cb_onDragEnd, _ => _onDragEnd
  end.

(** The listeners of this guide under the event [name]. *)
Definition listening (name : string) (st : State) : list Listener :=
  (filter (λ entry, entry.1 = name) (handlers st)).*2.

(** The state right after [new WeekResizeGuide(WeekResize)]. *)
Definition init (shown : Element → string) (body : string)
    (view : option Month.MonthView) : State :=
  {| display := shown; body_class := body; the_WeekResize := true;
     handlers := [("WeekResizeDragstart", cb_onDragStart); ("WeekResizeDrag", cb_onDrag);
                  ("WeekResizeDragend", cb_onDragEnd)];
     monthView := view; elements := None; guide := None |}.

(** The state after [style.display = v] on each of [els]. *)
Definition painted (els : list Element) (v : string) (st : State) : State :=
  foldl (λ s el, set_display el v s) st els.

(** The blocks of a model, as [_hideScheduleBlocks] finds them. *)
Definition blocks_of (view : Month.MonthView) (model : Schedule) : list Element :=
  find (classname (".weekday-schedule-block-" +:+ cid model)) (container view).

End Handlers.
End WeekResizeGuide.

(** ** The month variant: [WeekResize] *)

Module WeekResize.

Include Month.

(** What the mouse-to-cell calculation of [getMousePosData] yields:
    the cell under the pointer and its date. *)
Record CellPoint : Type := {
  p_x : Z;
  p_y : Z;
  p_date : Z
}.

(** The mapper answers nothing for a pointer outside of the weeks. *)
Class MonthCore : Type := {
  cellPoint : MonthView → MouseEvent → option CellPoint
}.

Inductive Listener : Type := cb_onDragStart | cb_onDrag | cb_onDragEnd.

Global Instance Listener_eq_dec : EqDecision Listener.
Proof. solve_decision. Defined.

Section Handlers.
Context {Element : Type} `{Host Element} `{MonthCore}.

(** The record of a dragging session, [this._cache]. *)
Record Cache : Type := {
  schedule : option Schedule;
  cache_target : Element;
  start : ref;
  end_ : option ref
}.

Definition with_end (e : ref) (c : Cache) : Cache :=
  {| schedule := schedule c; cache_target := cache_target c;
     start := start c; end_ := Some e |}.

(** Everything a [WeekResize] instance can reach; [getScheduleData] is the
    mapper bound to a month view, [now] what the clock reads, [guide] the
    guide the constructor made, with the listeners it subscribed to the
    events of this instance, and [guide_calls] the calls of guide elements
    so far, oldest first. *)
Record State : Type := {
  st_dates : list Z;
  schedules_items : gmap string Schedule;
  monthView : MonthView;
  now : Z;
  dragHandler : list (DragEvent * Listener);
  getScheduleData : option MonthView;
  _cache : option Cache;
  guide : WeekResizeGuide.State (Element := Element);
  guide_calls : list (WeekResizeGuide.Call (Element := Element))
}.

Definition set_st_dates (h : list Z) (st : State) : State :=
  {| st_dates := h; schedules_items := schedules_items st; monthView := monthView st;
     now := now st; dragHandler := dragHandler st;
     getScheduleData := getScheduleData st; _cache := _cache st;
     guide := guide st; guide_calls := guide_calls st |}.

Definition set_dragHandler (f : list (DragEvent * Listener) → list (DragEvent * Listener))
    (st : State) : State :=
  {| st_dates := st_dates st; schedules_items := schedules_items st;
     monthView := monthView st; now := now st; dragHandler := f (dragHandler st);
     getScheduleData := getScheduleData st; _cache := _cache st;
     guide := guide st; guide_calls := guide_calls st |}.

Definition set_getScheduleData (v : option MonthView) (st : State) : State :=
  {| st_dates := st_dates st; schedules_items := schedules_items st;
     monthView := monthView st; now := now st; dragHandler := dragHandler st;
     getScheduleData := v; _cache := _cache st;
     guide := guide st; guide_calls := guide_calls st |}.

Definition set_cache (v : option Cache) (st : State) : State :=
  {| st_dates := st_dates st; schedules_items := schedules_items st;
     monthView := monthView st; now := now st; dragHandler := dragHandler st;
     getScheduleData := getScheduleData st; _cache := v;
     guide := guide st; guide_calls := guide_calls st |}.

Definition set_guide (g : WeekResizeGuide.State (Element := Element))
    (calls : list (WeekResizeGuide.Call (Element := Element))) (st : State) : State :=
  {| st_dates := st_dates st; schedules_items := schedules_items st;
     monthView := monthView st; now := now st; dragHandler := dragHandler st;
     getScheduleData := getScheduleData st; _cache := _cache st;
     guide := g; guide_calls := calls |}.

Global Instance State_dates : HasDates State :=
  {| dates := st_dates; set_dates := set_st_dates |}.

Inductive Payload : Type :=
| week_data (d : option (ScheduleData (Element := Element)))
| update (u : BeforeUpdate).

Abbreviation Handler := (M State (Event Payload)).

(** Modelled from the spec: [getMousePosData] ('./core') is not among the
    sources. The spec has the release yield a "candidate end date"; the
    events fed with the result document it as [x], [y] and [date], and the
    handlers test it before use: the bound mapper yields the cell and its
    date, a date object of its own, or nothing. *)
Definition getMousePosData (view : MonthView) (mouseEvent : MouseEvent) :
    Handler (option (ScheduleData (Element := Element))) :=
  match cellPoint view mouseEvent with
  | None => mret None
  | Some p =>
      d ← newDate (p_date p);
      mret (Some {| x := p_x p; y := p_y p; date := d; sd_target := None; model := None |})
  end.

(** [new TZDate(scheduleCache.end)] of a cache without [end] is the current
    time; [_onDragEnd] sets [end] before the call. *)
Definition _updateSchedule (scheduleCache : Cache) : Handler unit :=
  e ← match end_ scheduleCache with
      | Some e => copy e
      | None => t ← gets now; newDate t
      end;
  newEnd ← datetime_end e;
  match schedule scheduleCache with
  | None => throw (TypeError "Cannot read properties of undefined")
  | Some schedule =>
      let changes :=
        common.getScheduleChanges schedule [common.p_end]
          {| common.c_start := None; common.c_end := Some newEnd |} in
      s ← copy (getStarts schedule);
      fire "beforeUpdateSchedule"
        (update {| bu_schedule := schedule; bu_changes := changes;
                   bu_start := s; bu_end := newEnd |})
  end.

(** A listener of the guide run by this instance: the guide finds the month
    view of the instance behind [this.WeekResize]; what it leaves and the
    calls it made are kept, also when it throws. *)
Definition on_guide
    (h : M (WeekResizeGuide.State (Element := Element))
           (WeekResizeGuide.Call (Element := Element)) unit) : Handler unit :=
  λ st,
    let r := h (WeekResizeGuide.set_monthView (Some (monthView st)) (guide st)) in
    (completion r, set_guide (final r) (guide_calls st ++ fired r) st, []).

(** [this.fire(name, data)] for the three events of a drag. The call is
    recorded with what it hands over; then the listeners the guide
    subscribed under [name] run, in a walk through them: they are the
    first listeners of the instance, subscribed by its constructor. A
    listener that throws ends the handler that fired, and the listeners
    subscribed later, outside of these sources, are not reached.
    ([beforeUpdateSchedule] has no listener in these sources.) *)
Definition fire (name : string) (data : option (ScheduleData (Element := Element))) :
    Handler unit :=
  fire name (week_data data);;
  ls ← gets (λ st, WeekResizeGuide.listening name (guide st));
  walk (λ st, WeekResizeGuide.listening name (guide st))
    (λ l, on_guide (WeekResizeGuide.invoke l data)) (length ls) 0.

Definition _onDragStart (dragStartEvent : DragEventData Element) : Handler unit :=
  let target := target dragStartEvent in
  if negb (hasClass target (classname "weekday-resize-handle")) then mret tt
  else
    match closest target (classname ".weekday-schedule-block") with
    | None => mret tt
    | Some target =>
        let modelID := getData target "id" in
        items ← gets schedules_items;
        let schedule := items !! modelID in
        modify (set_dragHandler (on [(Drag, cb_onDrag); (DragEnd, cb_onDragEnd)]));;
        view ← gets monthView;
        modify (set_getScheduleData (Some view));;
        scheduleData ← getMousePosData view (originEvent dragStartEvent);
        match scheduleData with
        | None => throw (TypeError "Cannot set properties of undefined")
        | Some scheduleData =>
            let scheduleData :=
              {| x := x scheduleData; y := y scheduleData; date := date scheduleData;
                 sd_target := Some target; model := schedule |} in
            s ← copy (date scheduleData);
            modify (set_cache (Some {| schedule := schedule; cache_target := target;
                                       start := s; end_ := None |}));;
            fire "WeekResizeDragstart" (Some scheduleData)
        end
    end.

Definition _onDrag (dragEvent : DragEventData Element) : Handler unit :=
  getScheduleData ← gets getScheduleData;
  match getScheduleData with
  | None => mret tt
  | Some view =>
      scheduleData ← getMousePosData view (originEvent dragEvent);
      match scheduleData with
      | None => mret tt
      | Some scheduleData => fire "WeekResizeDrag" (Some scheduleData)
      end
  end.

Definition _onDragEnd (dragEndEvent : DragEventData Element) : Handler unit :=
  cache ← gets _cache;
  modify (set_dragHandler (off [(Drag, cb_onDrag); (DragEnd, cb_onDragEnd)]));;
  getScheduleData ← gets getScheduleData;
  match getScheduleData with
  | None => mret tt
  | Some view =>
      scheduleData ← getMousePosData view (originEvent dragEndEvent);
      match scheduleData with
      | Some scheduleData =>
          match cache with
          | None => throw (TypeError "Cannot read properties of null")
          | Some cache =>
              match schedule cache with
              | None => throw (TypeError "Cannot read properties of undefined")
              | Some schedule =>
                  start ← copy (getStarts schedule);
                  end_ ← copy (date scheduleData);
                  let cache := with_end end_ cache in
                  modify (set_cache (Some cache));;
                  a ← getTime start;
                  b ← getTime end_;
                  if a <=? b then _updateSchedule cache else mret tt
              end
          end
      | None => mret tt
      end;;
      fire "WeekResizeDragend" scheduleData;;
      modify (set_getScheduleData None);;
      modify (set_cache None)
  end.

Definition invoke (l : Listener) (data : DragEventData Element) : Handler unit :=
  match l with
  | cb_onDragStart => _onDragStart data
  | cb_onDrag => _onDrag data
  | cb_onDragEnd => _onDragEnd data
  end.

(** Modelled from the spec: the drag handler ([Drag]) is not among the
    sources. The spec has a "pointer/drag gesture source" that "emits
    [dragStart], [drag], [dragEnd], [click]". The drag handler firing [ev]
    is the emitter's walk through the listeners of [ev] in the table as
    the listeners leave it, bounded by [calls_of]. *)
Definition dispatch (ev : DragEvent) (data : DragEventData Element) : Handler unit :=
  tbl ← gets dragHandler;
  walk (λ st, listenersOf ev (dragHandler st)) (λ l, invoke l data)
    (calls_of cb_onDragStart (listenersOf ev tbl)) 0.

Fixpoint gesture (evs : list (DragEvent * DragEventData Element)) (st : State) :
    State * list (Event Payload) :=
  match evs with
  | [] => (st, [])
  | (ev, data) :: evs =>
      let r := dispatch ev data st in
      let r' := gesture evs (final r) in
      (r'.1, fired r ++ r'.2)
  end.

(** The state right after [new WeekResize(...)]: the guide is made, and
    subscribes, before the drag start listener is subscribed. *)
Definition init (items : gmap string Schedule) (view : MonthView) (clock : Z)
    (h : list Z) : State :=
  {| st_dates := h; schedules_items := items; monthView := view; now := clock;
     dragHandler := [(DragStart, cb_onDragStart)];
     getScheduleData := None; _cache := None;
     guide := WeekResizeGuide.init page_display page_body_class (Some view);
     guide_calls := [] |}.

End Handlers.

End WeekResize.

(** ** Vocabulary of the statements *)

(** [wp m st Q]: running [m] on [st] ends in a completion, a state and
    events that satisfy [Q]. *)
Definition wp {S E A} (m : M S E A) (st : S) (Q : Completion A → S → list E → Prop) : Prop :=
  Q (completion (m st)) (final (m st)) (fired (m st)).

Definition MIN_DURATION : Z := datetime.millisecondsFrom datetime.minutes 30.

(** The instant [TimeResize._updateSchedule] leaves in [newEnds], from the
    instants it reads: the schedule's start [s] and end [e], the dragged
    difference and the column's date. *)
Definition clampedEnd (s e timeDiff base : Z) : Z :=
  let v := e + timeDiff in
  let v := if v >? datetime.end_ base then datetime.end_ base else v in
  let v := if v - s <? datetime.millisecondsFrom datetime.minutes 30
           then s + 30 * 60000 else v in
  if v >? base + 1 * 86400000 then base + 1 * 86400000 + -1 * 60000 else v.

(** The same for [newStarts] in [TimeResize._updateScheduleTop]. *)
Definition clampedStart (s e timeDiff base : Z) : Z :=
  let v := s + timeDiff in
  let v := if v <? base then base else v in
  let v := if e - v <? datetime.millisecondsFrom datetime.minutes 30
           then e + -30 * 60000 else v in
  if v <? base then base else v.

(** No reference of a schedule dangles. *)
Definition valid_schedule (h : list Z) (s : Schedule) : Prop :=
  (getStarts s < length h)%nat ∧ (getEnds s < length h)%nat.

(** What a handler must leave alone: the collection, and every date object
    that exists. *)
Definition untouched (h : list Z) (items : gmap string Schedule)
    (h' : list Z) (items' : gmap string Schedule) : Prop :=
  items' = items ∧ h `prefix_of` h'.

(** Among the events [out], with [upd] the payload of a change request:
    every change request satisfies [R], and an event of that name is
    one. *)
Definition requests_satisfy {P : Type} (upd : BeforeUpdate → P)
    (R : Event P → BeforeUpdate → Prop) (out : list (Event P)) : Prop :=
  (∀ e u, e ∈ out → ev_data e = upd u → R e u) ∧
  (∀ e, e ∈ out → ev_name e = "beforeUpdateSchedule" → ∃ u, ev_data e = upd u).

(** A change request that asks for a new end only, and one that asks for a
    new start only. *)
Definition end_only (u : BeforeUpdate) : Prop :=
  bu_changes u = {| common.c_start := None; common.c_end := Some (bu_end u) |}.

Definition start_only (u : BeforeUpdate) : Prop :=
  bu_changes u = {| common.c_start := Some (bu_start u); common.c_end := None |}.

(** ** What is said of the time grid variant *)

Module TimeResizeProps.
Import TimeResize.

Section Props.
Context {Element : Type} `{Host Element} `{TimeCore}.

(** What every change request of this handler looks like, on the state the
    handler started from. *)
Definition bottom_request (st : State) (e : Event Payload) (u : BeforeUpdate) : Prop :=
  ev_name e = "beforeUpdateSchedule" ∧ end_only u ∧
  bu_start u = getStarts (bu_schedule u) ∧
  ∃ view ds, _getScheduleDataFunc st = Some view ∧ _dragStart st = Some ds ∧
    schedules_items st !! targetModelID ds = Some (bu_schedule u) ∧
    valueOf (ev_dates e) (bu_end u) ≤ getDate view + 86400000.

Definition top_request (st : State) (e : Event Payload) (u : BeforeUpdate) : Prop :=
  ev_name e = "beforeUpdateSchedule" ∧ start_only u ∧
  bu_end u = getEnds (bu_schedule u) ∧
  ∃ view ds, _getScheduleDataFunc st = Some view ∧ _dragStart st = Some ds ∧
    schedules_items st !! targetModelID ds = Some (bu_schedule u) ∧
    getDate view ≤ valueOf (ev_dates e) (bu_start u).

(** The difference a drag end hands to the update, [range[1] - range[0]]
    less the baseline of 30 minutes, as it is read there: the mapper's
    nearest grid time, moved by 30 minutes, against the one kept from the
    drag start. *)
Definition dragged (data : DragEventData Element) (st : State) (view : TimeView)
    (ds : ScheduleData) : Z :=
  let p := gridPoint view (originEvent data) in
  g_nearestGridTimeY p + 30 * 60000
  - valueOf (dates st ++ [g_timeY p; g_nearestGridTimeY p + 30 * 60000;
                          g_timeY p + 30 * 60000]) (nearestGridTimeY ds)
  - datetime.millisecondsFrom datetime.minutes 30.

(** The handlers that only look: no request, nothing written. *)
Definition silent (st : State) (c : Completion unit) (st' : State)
    (out : list (Event Payload)) : Prop :=
  c = Normal tt ∧
  untouched (dates st) (schedules_items st) (dates st') (schedules_items st') ∧
  requests_satisfy update (λ _ _, False) out.

(** The change requests of any listener of the instance: only the two drag
    ends fire one. *)
Definition request_of (l : Listener) (st : State) (e : Event Payload) (u : BeforeUpdate) : Prop :=
  (l = cb_onDragEnd ∧ bottom_request st e u) ∨ (l = cb_onDragEndTop ∧ top_request st e u).

(** What stays true of a change request however the state moves on: it is
    for a schedule of the collection, and for one of its two dates. *)
Definition request_ok (items : gmap string Schedule) (e : Event Payload) (u : BeforeUpdate) : Prop :=
  ev_name e = "beforeUpdateSchedule" ∧
  (∃ id, items !! id = Some (bu_schedule u)) ∧
  ((end_only u ∧ bu_start u = getStarts (bu_schedule u)) ∨
   (start_only u ∧ bu_end u = getEnds (bu_schedule u))).

Definition harmless (st : State) (st' : State) (out : list (Event Payload)) : Prop :=
  untouched (dates st) (schedules_items st) (dates st') (schedules_items st') ∧
  requests_satisfy update (request_ok (schedules_items st)) out.

(** The change requests among the events fired. *)
Definition requests (out : list (Event Payload)) : list (Event Payload) :=
  filter (λ e, ev_name e = "beforeUpdateSchedule") out.

(** The vertical middle of a block, as [_onDragStart] computes it. *)
Definition topThreshold (rect : DOMRect) : float :=
  (rect_top rect + ((rect_top rect + rect_height rect) - rect_top rect) / 2)%float.

Definition top_listeners : list (DragEvent * Listener) :=
  [(Drag, cb_onDragTop); (DragEnd, cb_onDragEndTop); (Click, cb_onClick)].

Definition bottom_listeners : list (DragEvent * Listener) :=
  [(Drag, cb_onDrag); (DragEnd, cb_onDragEnd); (Click, cb_onClick)].

End Props.
End TimeResizeProps.

(** ** What is said of the month variant *)

Module WeekResizeProps.
Import WeekResize.

Section Props.
Context {Element : Type} `{Host Element} `{MonthCore}.

Definition requests (out : list (Event (Payload (Element := Element)))) :
    list (Event Payload) :=
  filter (λ e, ev_name e = "beforeUpdateSchedule") out.

(** What every change request of a drag end looks like. *)
Definition week_request (data : DragEventData Element) (st : State (Element := Element))
    (e : Event (Payload (Element := Element))) (u : BeforeUpdate) : Prop :=
  ev_name e = "beforeUpdateSchedule" ∧ end_only u ∧
  ∃ view cache p, getScheduleData st = Some view ∧ _cache st = Some cache ∧
    schedule cache = Some (bu_schedule u) ∧
    cellPoint view (originEvent data) = Some p ∧
    valueOf (ev_dates e) (bu_end u) = datetime.end_ (p_date p).

Definition silent (st : State (Element := Element)) (c : Completion unit)
    (st' : State (Element := Element)) (out : list (Event (Payload (Element := Element)))) :
    Prop :=
  untouched (dates st) (schedules_items st) (dates st') (schedules_items st') ∧
  requests_satisfy update (λ _ _, False) out.

(** The change requests of any listener of the instance: only the drag end
    fires one. *)
Definition request_of (l : Listener) (data : DragEventData Element)
    (st : State (Element := Element)) (e : Event (Payload (Element := Element)))
    (u : BeforeUpdate) : Prop :=
  l = cb_onDragEnd ∧ week_request data st e u.

(** What stays true of a change request however the state moves on. *)
Definition request_ok (e : Event (Payload (Element := Element))) (u : BeforeUpdate) : Prop :=
  ev_name e = "beforeUpdateSchedule" ∧ end_only u.

Definition harmless (st st' : State (Element := Element))
    (out : list (Event (Payload (Element := Element)))) : Prop :=
  untouched (dates st) (schedules_items st) (dates st') (schedules_items st') ∧
  requests_satisfy update request_ok out.

End Props.
End WeekResizeProps.

(** ** A sample calendar

    One column of a time grid that shows one pixel per minute, one month
    view whose cells are a pixel wide, and elements that are resize handles
    inside schedule block number 1. *)

Module Sample.

(** The integer a pixel coordinate stands for. *)
Definition Z_of_float (f : float) : Z :=
  match Prim2SF f with
  | S754_finite sign m e => (if sign then -1 else 1) * Z.shiftl (Z.pos m) e
  | _ => 0
  end.

Definition day0 : Z := 20000 * 86400000.
Definition at_ (h m : Z) : Z := day0 + h * 3600000 + m * 60000.

#[global] Instance host : Host nat := {|
  hasClass := λ _ _, true;
  closest := λ e _, Some e;
  getClass := λ _, "time-date view-0";
  getData := λ _ _, "1";
  getBoundingClientRect := λ _, {| rect_top := 540; rect_height := 60 |};
  classname := λ s, s;
  time_getViewIDRegExp := λ s, Some [s; "0"];
  Number := λ _, Some 0%N;
  Element_eq_dec := Nat.eq_dec;
  find := λ _ _, [1; 2]%nat;
  container := λ _, 0%nat;
  cid := sch_id;
  msie := false;
  addClass := λ _ cls, cls;
  removeClass := λ _ _, "";
  page_display := λ _, "";
  page_body_class := ""
|}.

#[global] Instance core : TimeResize.TimeCore := {|
  TimeResize.gridPoint := λ view ev,
    let t := TimeResize.tv_date view + Z_of_float (clientY ev) * 60000 in
    {| TimeResize.g_mouseY := clientY ev; TimeResize.g_gridY := clientY ev;
       TimeResize.g_timeY := t; TimeResize.g_nearestGridY := clientY ev;
       TimeResize.g_nearestGridTimeY := t |}
|}.

#[global] Instance month : WeekResize.MonthCore := {|
  WeekResize.cellPoint := λ view ev,
    Some {| WeekResize.p_x := Z_of_float (clientX ev); WeekResize.p_y := 0;
            WeekResize.p_date := day0 + Z_of_float (clientX ev) * 86400000 |}
|}.

Definition column : TimeResize.TimeView :=
  {| TimeResize.tv_index := 0; TimeResize.tv_date := day0 |}.

Definition meeting : Schedule := {| sch_id := "1"; sch_start := 0%nat; sch_end := 1%nat |}.

Definition pointer (px py : float) : DragEventData nat :=
  {| target := 7%nat; originEvent := {| clientX := px; clientY := py |} |}.

(** A schedule from [s] to [e] in the column, nothing else. *)
Definition grid (s e : Z) : TimeResize.State :=
  TimeResize.init {[ "1" := meeting ]} {[ 0%N := column ]} [s; e].

Definition month_view : WeekResize.MonthView := {| WeekResize.mv_index := 0 |}.

Definition weeks (s e : Z) : WeekResize.State (Element := nat) :=
  WeekResize.init {[ "1" := meeting ]} month_view 0 [s; e].

(** The month view of a calendar without schedules. *)
Definition empty_weeks : WeekResize.State (Element := nat) :=
  WeekResize.init ∅ month_view 0 [].

(** The handle of the block is pressed in its lower half, at the pixel of
    10:00, on a schedule from [s] to [e]. *)
Definition pressed_bottom (s e : Z) : TimeResize.State :=
  final (TimeResize.dispatch DragStart (pointer 0 600) (grid s e)).

(** It is pressed in its upper half, at the pixel of 09:20. *)
Definition pressed_top (s e : Z) : TimeResize.State :=
  final (TimeResize.dispatch DragStart (pointer 0 560) (grid s e)).

(** The handle of the block is pressed in the month view, over day 3. *)
Definition pressed_week (s e : Z) : WeekResize.State (Element := nat) :=
  final (WeekResize.dispatch DragStart (pointer 3 0) (weeks s e)).

Definition nothing : BeforeUpdate :=
  {| bu_schedule := meeting;
     bu_changes := {| common.c_start := None; common.c_end := None |};
     bu_start := 0%nat; bu_end := 0%nat |}.

(** The event a run fired first and the change request it carries. *)
Definition first_event (r : Completion unit * TimeResize.State * list (Event TimeResize.Payload)) :
    Event TimeResize.Payload :=
  default {| ev_name := ""; ev_data := TimeResize.no_data; ev_dates := [] |} (fired r !! 0%nat).

Definition first_request (r : Completion unit * TimeResize.State * list (Event TimeResize.Payload)) :
    BeforeUpdate :=
  match ev_data (first_event r) with
  | TimeResize.update u => u
  | _ => nothing
  end.

(** The start and the end the first request shows, in minutes of the
    sample day. *)
Definition minutes_shown (r : Completion unit * TimeResize.State * list (Event TimeResize.Payload)) :
    Z * Z :=
  ((valueOf (ev_dates (first_event r)) (bu_start (first_request r)) - day0) `div` 60000,
   (valueOf (ev_dates (first_event r)) (bu_end (first_request r)) - day0) `div` 60000).

(** The data kept from the drag start. *)
Definition session (st : TimeResize.State) : TimeResize.ScheduleData :=
  default
    {| TimeResize.relatedView := column; TimeResize.sd_originEvent := originEvent (pointer 0 0);
       TimeResize.mouseY := 0; TimeResize.gridY := 0; TimeResize.timeY := 0%nat;
       TimeResize.nearestGridY := 0; TimeResize.nearestGridTimeY := 0%nat;
       TimeResize.targetModelID := ""; TimeResize.schedule := None;
       TimeResize.range := None; TimeResize.nearestRange := None |}
    (TimeResize._dragStart st).

End Sample.

(** ** Vocabulary of the gestures *)

(** The time grid variant between a press and a release. *)
Module TimeResizeSession.
Import TimeResize TimeResizeProps.

Section Session.
Context {Element : Type} `{Host Element} `{TimeCore}.

(** The schedule data the mapper bound to [view] yields on the store [h]:
    its two times are the cells [length h] and [length h + 1]. *)
Definition mapped (view : TimeView) (mouseEvent : MouseEvent) (h : list Z)
    (id : string) (sch : option Schedule) : ScheduleData :=
  let p := gridPoint view mouseEvent in
  {| relatedView := view; sd_originEvent := mouseEvent;
     mouseY := g_mouseY p; gridY := g_gridY p; timeY := length h;
     nearestGridY := g_nearestGridY p; nearestGridTimeY := (length h + 1)%nat;
     targetModelID := id; schedule := sch; range := None; nearestRange := None |}.

Definition mapped_dates (view : TimeView) (mouseEvent : MouseEvent) (h : list Z) : list Z :=
  h ++ [g_timeY (gridPoint view mouseEvent); g_nearestGridTimeY (gridPoint view mouseEvent)].

(** The listeners a press on [block] subscribes. *)
Definition listeners_for (block : Element) (data : DragEventData Element) :
    list (DragEvent * Listener) :=
  if (clientY (originEvent data) <=? topThreshold (getBoundingClientRect block))%float
  then top_listeners else bottom_listeners.

(** The state a confirmed drag start leaves. *)
Definition pressed (view : TimeView) (block : Element) (data : DragEventData Element)
    (st : State) : State :=
  {| st_dates := mapped_dates view (originEvent data) (dates st);
     schedules_items := schedules_items st; children_items := children_items st;
     dragHandler := dragHandler st ++ listeners_for block data;
     _getScheduleDataFunc := Some view;
     _dragStart := Some (mapped view (originEvent data) (dates st) (getData block "id")
                           (schedules_items st !! getData block "id")) |}.

End Session.

(** What holds from the press to the release of one drag: the table, the
    session, the collection, and the date objects there were. *)
Definition dragging (tbl : list (DragEvent * Listener)) (view : TimeView) (ds : ScheduleData)
    (items : gmap string Schedule) (h0 : list Z) (st : State) : Prop :=
  dragHandler st = tbl ∧ _getScheduleDataFunc st = Some view ∧ _dragStart st = Some ds ∧
  schedules_items st = items ∧ h0 `prefix_of` dates st.

(** The entries a listener removes from the table when it runs. *)
Definition unsubscribes (l : Listener) : list (DragEvent * Listener) :=
  match l with
  | cb_onDragEnd => bottom_listeners
  | cb_onDragEndTop => top_listeners
  | cb_onClick => bottom_listeners ++ top_listeners
  | _ => []
  end.

Definition session_kept (st st' : State) : Prop :=
  _getScheduleDataFunc st' = _getScheduleDataFunc st ∧ _dragStart st' = _dragStart st.

Definition session_cleared (st' : State) : Prop :=
  _getScheduleDataFunc st' = None ∧ _dragStart st' = None.

End TimeResizeSession.

(** The month variant between a press and a release. *)
Module WeekResizeSession.
Import WeekResize WeekResizeProps.

Section Session.
Context {Element : Type} `{Host Element} `{MonthCore}.

Definition week_listeners : list (DragEvent * Listener) :=
  [(Drag, cb_onDrag); (DragEnd, cb_onDragEnd)].

(** What the mapper yields for a pointer over the cell [p], on the store
    [h]. *)
Definition celled (p : CellPoint) (h : list Z) : ScheduleData (Element := Element) :=
  {| x := p_x p; y := p_y p; date := length h; sd_target := None; model := None |}.

Definition week_dragging (view : MonthView) (cache : Cache (Element := Element))
    (items : gmap string Schedule) (h0 : list Z) (st : State (Element := Element)) : Prop :=
  dragHandler st = (DragStart, cb_onDragStart) :: week_listeners ∧
  getScheduleData st = Some view ∧ _cache st = Some cache ∧
  schedules_items st = items ∧ h0 `prefix_of` dates st.

(** The listener table of a month instance between drag handler events,
    and the mapper being bound while anything but the drag start listener
    is subscribed. *)
Definition week_consistent (st : State (Element := Element)) : Prop :=
  ∃ k : nat,
    dragHandler st = (DragStart, cb_onDragStart) :: concat (replicate k week_listeners) ∧
    (k ≠ 0%nat → is_Some (getScheduleData st)).

End Session.
End WeekResizeSession.

(** ** Vocabulary of the listener tables *)

(** The table of a time grid instance between drag handler events. *)
Module TimeResizeTable.
Import TimeResize TimeResizeProps.

(** The edge a press was for. *)
Inductive Edge : Type := upper | lower.

Global Instance Edge_eq_dec : EqDecision Edge.
Proof. solve_decision. Defined.

Definition drag_of (e : Edge) : Listener :=
  match e with upper => cb_onDragTop | lower => cb_onDrag end.

Definition dragEnd_of (e : Edge) : Listener :=
  match e with upper => cb_onDragEndTop | lower => cb_onDragEnd end.

(** The drag end listener that is subscribed together with a drag
    listener. *)
Definition partner (l : Listener) : Listener :=
  match l with
  | cb_onDrag => cb_onDragEnd
  | cb_onDragTop => cb_onDragEndTop
  | l => l
  end.

(** What a press has in the table: the drag and drag end listeners of its
    edge and, until a drag end or click listener has run, its click
    listener. *)
Definition entries (b : Edge * bool) : list (DragEvent * Listener) :=
  [(Drag, drag_of b.1); (DragEnd, dragEnd_of b.1)]
  ++ (if b.2 then [(Click, cb_onClick)] else []).

(** The drag start listener of the constructor, then what the presses
    have in the table. *)
Definition subscribed (presses : list (Edge * bool)) (st : State) : Prop :=
  dragHandler st = (DragStart, cb_onDragStart) :: concat (entries <$> presses).

(** The session fields are [null] together, and the session's column is
    one of the time grid's. *)
Definition session_ok (st : State) : Prop :=
  (_getScheduleDataFunc st = None ↔ _dragStart st = None) ∧
  (∀ v, _getScheduleDataFunc st = Some v → ∃ i, children_items st !! i = Some v).

(** A press that still has its click listener has its session. *)
Definition clicks_have_session (presses : list (Edge * bool)) (st : State) : Prop :=
  (∃ e, (e, true) ∈ presses) → is_Some (_getScheduleDataFunc st) ∧ is_Some (_dragStart st).

(** What every state between drag handler events satisfies. *)
Definition consistent (st : State) : Prop :=
  ∃ presses, subscribed presses st ∧ clicks_have_session presses st ∧ session_ok st.

Definition other (e : Edge) : Edge :=
  match e with upper => lower | lower => upper end.

(** What a drag handler event leaves of the presses. *)
Definition settled (ev : DragEvent) (presses presses' : list (Edge * bool)) : Prop :=
  match ev with
  | DragEnd =>
      (length presses' ≤ 1)%nat ∧ (∀ b, b ∈ presses' → b.2 = false) ∧
      ((length presses ≤ 1)%nat → presses' = [])
  | Click => (∃ e, (e, true) ∈ presses) → presses' = []
  | _ => True
  end.

(** What is left of the presses when the drag end listener of [e] has
    run. *)
Definition released (e : Edge) (presses : list (Edge * bool)) : list (Edge * bool) :=
  (λ b, (b.1, false)) <$> filter (λ b, b.1 ≠ e) presses.

(** The tables a drag end event can leave. *)
Definition leftover (tbl : list (DragEvent * Listener)) : Prop :=
  tbl = [(DragStart, cb_onDragStart)] ∨
  ∃ e, tbl = (DragStart, cb_onDragStart) :: entries (e, false).

End TimeResizeTable.

(** The guide of a month instance between drag handler events. *)
Module WeekResizeTable.
Import WeekResize.

Section Table.
Context {Element : Type} `{Host Element} `{MonthCore}.

(** The guide's listeners as its constructor subscribes them. *)
Definition guide_listeners : list (string * WeekResizeGuide.Listener) :=
  [("WeekResizeDragstart", WeekResizeGuide.cb_onDragStart);
   ("WeekResizeDrag", WeekResizeGuide.cb_onDrag);
   ("WeekResizeDragend", WeekResizeGuide.cb_onDragEnd)].

(** A guide that listens as its constructor left it. *)
Definition guide_attached (g : WeekResizeGuide.State (Element := Element)) : Prop :=
  WeekResizeGuide.handlers g = guide_listeners ∧ WeekResizeGuide.the_WeekResize g = true.

(** A guide that listens as its constructor left it, or not at all (its
    [destroy] has unsubscribed it). *)
Definition guide_ready (g : WeekResizeGuide.State (Element := Element)) : Prop :=
  guide_attached g ∨ WeekResizeGuide.handlers g = [].

(** A guide that, if it listens, has its guide element: the guide between
    the drag start of a known schedule and the drag end. *)
Definition guide_drawn (g : WeekResizeGuide.State (Element := Element)) : Prop :=
  (guide_attached g ∧ is_Some (WeekResizeGuide.guide g)) ∨ WeekResizeGuide.handlers g = [].

(** The event a call of [fire] records. *)
Definition fired_event (name : string) (data : option (ScheduleData (Element := Element)))
    (st : State (Element := Element)) : Event (Payload (Element := Element)) :=
  {| ev_name := name; ev_data := week_data data; ev_dates := dates st |}.

End Table.
End WeekResizeTable.

(** ** More of the sample calendar *)

Module Fixtures.
Import Sample.

(** A page on which nothing is a resize handle. *)
Definition bare : Host nat := {|
  hasClass := λ _ _, false;
  closest := λ _ _, None;
  getClass := λ _, "";
  getData := λ _ _, "";
  getBoundingClientRect := λ _, {| rect_top := 0; rect_height := 0 |};
  classname := λ s, s;
  time_getViewIDRegExp := λ _, None;
  Number := λ _, None;
  Element_eq_dec := Nat.eq_dec;
  find := λ _ _, [];
  container := λ _, 0%nat;
  cid := sch_id;
  msie := false;
  addClass := λ _ cls, cls;
  removeClass := λ _ _, "";
  page_display := λ _, "";
  page_body_class := ""
|}.

(** A month view with no cell under any pointer. *)
Definition nowhere : WeekResize.MonthCore := {| WeekResize.cellPoint := λ _ _, None |}.

(** A time grid that has lost its columns. *)
Definition no_columns : TimeResize.State :=
  TimeResize.init {[ "1" := meeting ]} ∅ [at_ 9 0; at_ 10 0].

(** The guide of the sample month view, as its constructor leaves it. *)
Definition guide_idle : WeekResizeGuide.State (Element := nat) :=
  WeekResizeGuide.init (λ _, "") "" (Some month_view).

(** What [WeekResizeDragstart] carries for the sample schedule, and for a
    block whose model is unknown. *)
Definition press_event : WeekResize.ScheduleData (Element := nat) :=
  {| WeekResize.x := 3; WeekResize.y := 0; WeekResize.date := 2%nat;
     WeekResize.sd_target := Some 7%nat; WeekResize.model := Some meeting |}.

Definition press_event_unknown : WeekResize.ScheduleData (Element := nat) :=
  {| WeekResize.x := 3; WeekResize.y := 0; WeekResize.date := 2%nat;
     WeekResize.sd_target := Some 7%nat; WeekResize.model := None |}.

(** The first event of a run of the month variant and its change
    request. *)
Definition week_first_event
    (r : Completion unit * WeekResize.State (Element := nat)
         * list (Event (WeekResize.Payload (Element := nat)))) :
    Event (WeekResize.Payload (Element := nat)) :=
  default {| ev_name := ""; ev_data := WeekResize.week_data None; ev_dates := [] |}
    (fired r !! 0%nat).

Definition week_first_request
    (r : Completion unit * WeekResize.State (Element := nat)
         * list (Event (WeekResize.Payload (Element := nat)))) : BeforeUpdate :=
  match ev_data (week_first_event r) with
  | WeekResize.update u => u
  | _ => nothing
  end.

End Fixtures.

(** * Reasoning *)

(** ** The date store *)

Section StoreLemmas.
Implicit Types (h l : list Z) (r k : nat) (w : Z).

Lemma valueOf_app_l h l r : (r < length h)%nat → valueOf (h ++ l) r = valueOf h r.
Proof. intros Hr. unfold valueOf. by rewrite lookup_app_l. Qed.

Lemma valueOf_app_r h l k : valueOf (h ++ l) (length h + k)%nat = valueOf l k.
Proof. unfold valueOf. by rewrite lookup_app_r, Nat.add_comm, Nat.add_sub by lia. Qed.

Lemma valueOf_app_r0 h l : valueOf (h ++ l) (length h) = valueOf l 0%nat.
Proof. rewrite <- (Nat.add_0_r (length h)) at 1. apply valueOf_app_r. Qed.

Lemma valueOf_here w l : valueOf (w :: l) 0%nat = w.
Proof. reflexivity. Qed.

Lemma valueOf_next w l k : valueOf (w :: l) (S k) = valueOf l k.
Proof. reflexivity. Qed.

Lemma insert_app_r_k h l k w : <[(length h + k)%nat := w]> (h ++ l) = h ++ <[k := w]> l.
Proof. apply insert_app_r. Qed.

Lemma insert_app_r0 h l w : <[length h := w]> (h ++ l) = h ++ <[0%nat := w]> l.
Proof. rewrite <- (Nat.add_0_r (length h)) at 1. apply insert_app_r. Qed.

Lemma valueOf_prefix h h' r : h `prefix_of` h' → (r < length h)%nat → valueOf h' r = valueOf h r.
Proof. intros [l ->] Hr. by apply valueOf_app_l. Qed.

End StoreLemmas.

Lemma untouched_refl h items : untouched h items h items.
Proof. by split. Qed.

Lemma untouched_trans h1 i1 h2 i2 h3 i3 :
  untouched h1 i1 h2 i2 → untouched h2 i2 h3 i3 → untouched h1 i1 h3 i3.
Proof. intros [-> ?] [-> ?]. split; [done|]. by etrans. Qed.

Lemma untouched_grow h items l : untouched h items (h ++ l) items.
Proof. split; [done|]. by apply prefix_app_r. Qed.

(** The start and the end of a schedule read the same afterwards. *)
Lemma untouched_schedule h items h' items' s :
  untouched h items h' items' → valid_schedule h s →
  valueOf h' (getStarts s) = valueOf h (getStarts s) ∧
  valueOf h' (getEnds s) = valueOf h (getEnds s).
Proof. intros [_ Hp] [Hs He]. split; by apply valueOf_prefix. Qed.

Section Requests.
Context {P : Type} (upd : BeforeUpdate → P).
Implicit Types (R : Event P → BeforeUpdate → Prop) (out : list (Event P)).

Lemma requests_satisfy_nil R : requests_satisfy upd R [].
Proof. split; [intros e u He | intros e He]; by apply elem_of_nil in He. Qed.

Lemma requests_satisfy_app R out1 out2 :
  requests_satisfy upd R out1 → requests_satisfy upd R out2 →
  requests_satisfy upd R (out1 ++ out2).
Proof.
  intros [Hr1 Hn1] [Hr2 Hn2]. split.
  - intros e u [He|He]%elem_of_app; eauto.
  - intros e [He|He]%elem_of_app; eauto.
Qed.

Lemma requests_satisfy_mono R R' out :
  (∀ e u, R e u → R' e u) → requests_satisfy upd R out → requests_satisfy upd R' out.
Proof. intros HR [Hr Hn]. split; eauto. Qed.

(** No event satisfies [R]: no change request was fired. *)
Lemma requests_satisfy_none R out e :
  requests_satisfy upd R out → (∀ e u, ¬ R e u) →
  e ∈ out → ev_name e ≠ "beforeUpdateSchedule".
Proof. intros [Hr Hn] Hno He Hname. destruct (Hn e He Hname) as [u Hu]. by eapply Hno, Hr. Qed.

End Requests.

(** ** Rules of [wp] *)

Section WP.
Context {S E : Type}.

Lemma wp_ret {A} (a : A) (st : S) (Q : Completion A → S → list E → Prop) :
  Q (Normal a) st [] → wp (mret a) st Q.
Proof. done. Qed.

Lemma wp_throw {A} e (st : S) (Q : Completion A → S → list E → Prop) :
  Q (Throw e) st [] → wp (throw e) st Q.
Proof. done. Qed.

Lemma wp_gets {A} (f : S → A) st (Q : Completion A → S → list E → Prop) :
  Q (Normal (f st)) st [] → wp (gets f) st Q.
Proof. done. Qed.

Lemma wp_modify (f : S → S) st (Q : Completion unit → S → list E → Prop) :
  Q (Normal tt) (f st) [] → wp (modify f) st Q.
Proof. done. Qed.

Lemma wp_bind {A B} (m : M S E A) (k : A → M S E B) st Q :
  wp m st (λ c s1 out1,
    match c with
    | Normal a => wp (k a) s1 (λ c' s2 out2, Q c' s2 (out1 ++ out2))
    | Throw e => Q (Throw e) s1 out1
    end) →
  wp (m ≫= k) st Q.
Proof.
  unfold wp, mbind, M_bind, bind, completion, final, fired.
  destruct (m st) as [[[a|e] s1] out1]; cbn; [|done].
  by destruct (k a s1) as [[c s2] out2].
Qed.

Lemma wp_mono {A} (m : M S E A) st (Q Q' : Completion A → S → list E → Prop) :
  (∀ c s out, Q c s out → Q' c s out) → wp m st Q → wp m st Q'.
Proof. unfold wp. auto. Qed.

Context `{HasDates S}.

Lemma wp_liftD {A} (f : list Z → A * list Z) st (Q : Completion A → S → list E → Prop) :
  Q (Normal (f (dates st)).1) (set_dates (f (dates st)).2 st) [] → wp (liftD f) st Q.
Proof. done. Qed.

End WP.

Lemma wp_fire {S P : Type} `{HasDates S} name (data : P) (st : S)
    (Q : Completion unit → S → list (Event P) → Prop) :
  Q (Normal tt) st [{| ev_name := name; ev_data := data; ev_dates := dates st |}] →
  wp (fire name data) st Q.
Proof. done. Qed.

(** Symbolic execution: the store is kept as the initial one followed by
    the cells made since, references as offsets from its length. *)
Ltac store_norm :=
  repeat first
    [ rewrite <- app_assoc
    | rewrite length_app
    | rewrite valueOf_app_r
    | rewrite valueOf_app_r0
    | rewrite insert_app_r_k
    | rewrite insert_app_r0
    | rewrite valueOf_next
    | rewrite valueOf_here
    | match goal with
      | Hr : (?r < length ?h)%nat |- _ => rewrite (valueOf_app_l h _ r Hr)
      end
    | progress cbn [app length insert list_insert Nat.add] ].

Ltac wp_prim :=
  lazymatch goal with
  | |- wp (mret _) _ _ => apply wp_ret
  | |- wp (throw _) _ _ => apply wp_throw
  | |- wp (gets _) _ _ => apply wp_gets
  | |- wp (modify _) _ _ => apply wp_modify
  | |- wp (liftD _) _ _ => apply wp_liftD
  | |- wp (fire _ _) _ _ => apply wp_fire
  | |- wp (_ ≫= _) _ _ => apply wp_bind
  | |- wp (if ?c then _ else _) _ _ =>
      let Hc := fresh "Hc" in destruct c eqn:Hc
  | |- wp (match ?c with _ => _ end) _ _ =>
      let Hc := fresh "Hm" in destruct c eqn:Hc
  end.

Ltac unfold_dates :=
  unfold getTime, newDate, copy, datetime_end, addMilliseconds, addMinutes, addDate.

(** The members of an explicit list of events, one by one. *)
Ltac each_event H :=
  repeat match type of H with
         | _ ∈ [] => by apply elem_of_nil in H
         | _ ∈ _ :: _ => apply elem_of_cons in H as [-> | H]
         end.

(** [requests_satisfy] of an explicit list of events; [tac] proves what is
    asked of each change request. *)
Ltac check_requests tac :=
  let e := fresh "e" in let u := fresh "u" in
  let He := fresh "He" in let Hu := fresh "Hu" in
  split;
  [ intros e u He Hu; each_event He; cbn [ev_data] in Hu; try discriminate;
    try (injection Hu as <-; tac)
  | intros e He Hu; each_event He; cbn [ev_name] in Hu; try discriminate;
    by eexists ].

Ltac bools :=
  repeat match goal with
         | H : (_ >? _) = true |- _ => rewrite Z.gtb_ltb in H; apply Z.ltb_lt in H
         | H : (_ >? _) = false |- _ => rewrite Z.gtb_ltb in H; apply Z.ltb_ge in H
         | H : (_ <? _) = true |- _ => apply Z.ltb_lt in H
         | H : (_ <? _) = false |- _ => apply Z.ltb_ge in H
         | H : (_ <=? _) = true |- _ => apply Z.leb_le in H
         | H : (_ <=? _) = false |- _ => apply Z.leb_gt in H
         end.

(** JavaScript's [x === y] on numbers implies [x <= y]. *)
Lemma float_eqb_leb (x y : float) : (x =? y)%float = true → (x <=? y)%float = true.
Proof.
  rewrite FloatAxioms.eqb_spec, FloatAxioms.leb_spec. unfold SFeqb, SFleb.
  by destruct (SFcompare _ _) as [[]|].
Qed.

Lemma listenersOf_app {L : Type} ev (t1 t2 : list (DragEvent * L)) :
  listenersOf ev (t1 ++ t2) = listenersOf ev t1 ++ listenersOf ev t2.
Proof. unfold listenersOf. by rewrite filter_app, fmap_app. Qed.

Lemma off_removes {L : Type} `{EqDecision L} (subs tbl : list (DragEvent * L)) entry :
  entry ∈ off subs tbl ↔ (entry ∉ subs) ∧ (entry ∈ tbl).
Proof. unfold off. by rewrite list_elem_of_filter. Qed.

Ltac wp_match :=
  lazymatch goal with
  | |- wp (match ?c with _ => _ end) _ _ =>
      first [ match goal with Heq : c = _ |- _ => rewrite Heq end
            | let Hm := fresh "Hm" in destruct c eqn:Hm ]
  end.

(** ** Walks through live listener arrays *)

Section WalkFacts.
Context {St Ev L : Type} (listeners : St → list L) (call : L → M St Ev unit).

Lemma walk_end fuel index st :
  listeners st !! index = None → walk listeners call fuel index st = (Normal tt, st, []).
Proof.
  intros Hn. destruct fuel; [done|]. cbn [walk]. unfold mbind, M_bind, bind, gets.
  by rewrite Hn.
Qed.

Lemma walk_step fuel index st l :
  listeners st !! index = Some l →
  walk listeners call (S fuel) index st = (call l;; walk listeners call fuel (S index)) st.
Proof.
  intros Hl. cbn [walk]. unfold mbind, M_bind, bind, gets. rewrite Hl.
  destruct (call l st) as [[[[]|err] s1] out1]; [|done].
  by destruct (walk listeners call fuel (S index) s1) as [[c s2] out2].
Qed.

Lemma wp_walk_end fuel index st (Q : Completion unit → St → list Ev → Prop) :
  listeners st !! index = None → Q (Normal tt) st [] → wp (walk listeners call fuel index) st Q.
Proof. intros Hn HQ. unfold wp. by rewrite walk_end. Qed.

Lemma wp_walk_step fuel index st l (Q : Completion unit → St → list Ev → Prop) :
  listeners st !! index = Some l →
  wp (call l;; walk listeners call fuel (S index)) st Q →
  wp (walk listeners call (S fuel) index) st Q.
Proof. intros Hl HQ. unfold wp. by rewrite (walk_step _ _ _ l). Qed.

(** What every call keeps, the walk keeps. *)
Lemma wp_walk (R : St → Completion unit → St → list Ev → Prop) :
  (∀ st, R st (Normal tt) st []) →
  (∀ st st1 c st2 o1 o2,
     R st (Normal tt) st1 o1 → R st1 c st2 o2 → R st c st2 (o1 ++ o2)) →
  (∀ l st, wp (call l) st (R st)) →
  ∀ fuel index st, wp (walk listeners call fuel index) st (R st).
Proof.
  intros Hnil Hseq Hcall. induction fuel as [|fuel IH]; intros index st; [apply Hnil|].
  destruct (listeners st !! index) as [l|] eqn:Hl; [|by apply wp_walk_end].
  eapply wp_walk_step; [done|]. apply wp_bind. eapply wp_mono; [|apply Hcall].
  intros [[]|err] s1 out1 H1; [|done].
  eapply wp_mono; [|apply IH]. intros c s2 out2 H2. by eapply Hseq.
Qed.

(** What every call of a listener that is in the array keeps, from a
    state that satisfies [I], the walk keeps. *)
Lemma wp_walk_inv (I : St → Prop) (R : St → Completion unit → St → list Ev → Prop) :
  (∀ st, R st (Normal tt) st []) →
  (∀ st st1 c st2 o1 o2,
     R st (Normal tt) st1 o1 → R st1 c st2 o2 → R st c st2 (o1 ++ o2)) →
  (∀ l st index, I st → listeners st !! index = Some l →
     wp (call l) st (λ c st' out, R st c st' out ∧ (c = Normal tt → I st'))) →
  ∀ fuel index st, I st → wp (walk listeners call fuel index) st (R st).
Proof.
  intros Hnil Hseq Hcall. induction fuel as [|fuel IH]; intros index st HI; [apply Hnil|].
  destruct (listeners st !! index) as [l|] eqn:Hl; [|by apply wp_walk_end].
  eapply wp_walk_step; [done|]. apply wp_bind. eapply wp_mono; [|by eapply Hcall].
  intros [[]|err] s1 out1 [H1 HI1]; [|done].
  eapply wp_mono; [|by apply IH, HI1]. intros c s2 out2 H2. by eapply Hseq.
Qed.

(** A walk whose fuel covers what is left of it goes the same with more. *)
Lemma walk_enough (budget : nat → St → nat) :
  (∀ index st l, listeners st !! index = Some l →
     (budget (S index) (final (call l st)) < budget index st)%nat) →
  ∀ fuel index st k, (budget index st ≤ fuel)%nat →
    walk listeners call (fuel + k) index st = walk listeners call fuel index st.
Proof.
  intros Hless. induction fuel as [|fuel IH]; intros index st k Hb.
  - destruct (listeners st !! index) as [l|] eqn:Hl; [|by rewrite !walk_end].
    specialize (Hless _ _ _ Hl). lia.
  - destruct (listeners st !! index) as [l|] eqn:Hl; [|by rewrite !walk_end].
    cbn [Nat.add]. rewrite !(walk_step _ _ _ l) by done.
    specialize (Hless _ _ _ Hl).
    unfold mbind, M_bind, bind. unfold final in Hless.
    destruct (call l st) as [[[[]|err] s1] out1]; [|done]. cbn [fst snd] in Hless.
    rewrite IH by lia. done.
Qed.

(** One listener, and at most one when it has run: one call. *)
Lemma walk_one fuel st l :
  listeners st = [l] →
  (length (listeners (final (call l st))) ≤ 1)%nat →
  walk listeners call (S fuel) 0 st = (call l;; mret tt) st.
Proof.
  intros Hl Hlen. rewrite (walk_step _ _ _ l) by (by rewrite Hl).
  unfold mbind, M_bind, bind. unfold final in Hlen.
  destruct (call l st) as [[[[]|err] s1] out1]; [|done]. cbn [fst snd] in Hlen.
  rewrite walk_end; [done|]. apply lookup_ge_None. lia.
Qed.

End WalkFacts.

(** The bound on the calls of a walk, for a table in which [start] is the
    only listener that subscribes. *)
Section Calls.
Context {L : Type} `{EqDecision L} (start : L).
Implicit Types (ls : list L) (tbl : list (DragEvent * L)).

Lemma calls_of_app l1 l2 :
  calls_of start (l1 ++ l2) = (calls_of start l1 + calls_of start l2)%nat.
Proof. unfold calls_of. rewrite filter_app, !length_app. lia. Qed.

Lemma calls_of_cons l ls :
  calls_of start (l :: ls) =
    (if decide (l = start) then 2 + calls_of start ls else 1 + calls_of start ls)%nat.
Proof.
  unfold calls_of. rewrite filter_cons. case_decide; cbn [length]; lia.
Qed.

Lemma calls_of_drop k ls : (calls_of start (drop (S k) ls) ≤ calls_of start (drop k ls))%nat.
Proof.
  revert k. induction ls as [|l ls IH]; intros k; [by rewrite !drop_nil|].
  destruct k as [|k]; cbn [drop]; [|apply IH].
  rewrite drop_0, calls_of_cons. case_decide; lia.
Qed.

Lemma calls_of_filter (P : L → Prop) `{∀ l, Decision (P l)} k ls :
  (calls_of start (drop k (filter P ls)) ≤ calls_of start (drop k ls))%nat.
Proof.
  revert k. induction ls as [|l ls IH]; intros k; [done|].
  rewrite filter_cons. destruct (decide (P l)).
  - destruct k as [|k]; cbn [drop]; [|apply IH].
    specialize (IH 0%nat). rewrite !drop_0 in IH. rewrite !calls_of_cons.
    destruct (decide (l = start)); by apply Nat.add_le_mono_l.
  - destruct k as [|k]; cbn [drop].
    + specialize (IH 0%nat). rewrite !drop_0 in IH. rewrite calls_of_cons.
      etrans; [apply IH|]. destruct (decide (l = start)); lia.
    + etrans; [apply calls_of_drop|]. apply IH.
Qed.

Lemma listenersOf_off ev subs tbl :
  listenersOf ev (off subs tbl) = filter (λ l, (ev, l) ∉ subs) (listenersOf ev tbl).
Proof.
  unfold listenersOf, off. induction tbl as [|[ev' l] tbl IH]; [done|].
  rewrite !filter_cons. cbn [fst].
  destruct (decide ((ev', l) ∉ subs)) as [Hin|Hin], (decide (ev' = ev)) as [->|Hev].
  - rewrite filter_cons, decide_True by done. cbn [fmap list_fmap snd].
    rewrite filter_cons, decide_True by done. by rewrite IH.
  - rewrite filter_cons, decide_False by done. done.
  - cbn [fmap list_fmap snd]. rewrite filter_cons, decide_False by done. done.
  - done.
Qed.

(** The step of the bound: a listener that unsubscribes. *)
Lemma calls_of_off ev subs tbl index l :
  listenersOf ev tbl !! index = Some l →
  (calls_of start (drop (S index) (listenersOf ev (off subs tbl)))
   < calls_of start (drop index (listenersOf ev tbl)))%nat.
Proof.
  intros Hl. rewrite listenersOf_off.
  eapply Nat.le_lt_trans; [apply (calls_of_filter _)|].
  rewrite (drop_S _ _ _ Hl), calls_of_cons. case_decide; lia.
Qed.

(** The step of the bound: the listener that subscribes [subs], which has
    at most one listener for [ev], not [start]. *)
Lemma calls_of_on ev subs tbl index :
  listenersOf ev tbl !! index = Some start →
  (calls_of start (listenersOf ev subs) ≤ 1)%nat →
  (calls_of start (drop (S index) (listenersOf ev (on subs tbl)))
   < calls_of start (drop index (listenersOf ev tbl)))%nat.
Proof.
  intros Hl Hsubs. unfold on. rewrite listenersOf_app.
  apply lookup_lt_Some in Hl as Hlt.
  rewrite drop_app_le by lia. rewrite calls_of_app.
  rewrite (drop_S _ _ _ Hl), calls_of_cons, decide_True by done. lia.
Qed.

End Calls.

(** ** The time grid variant *)

Module TimeResizeSpec.
Import TimeResize TimeResizeProps.

Ltac state_norm :=
  cbn [dates set_dates State_dates set_st_dates st_dates schedules_items children_items
       dragHandler _getScheduleDataFunc _dragStart set_dragHandler set_getScheduleDataFunc
       set_dragStart fst snd relatedView timeY nearestGridTimeY targetModelID
       nearestRange range with_range with_nearestRange schedule
       TZDate.new TZDate.addMilliseconds TZDate.addMinutes TZDate.addDate] in *.

Ltac wp_step := unfold_dates; first [wp_match | wp_prim]; state_norm; store_norm.

Ltac run :=
  unfold _onDragEnd, _onDragEndTop, _updateSchedule, _updateScheduleTop, _onDrag, _onDragTop,
    _onDragStart, _onClick, _retriveScheduleData;
  state_norm; repeat wp_step.

Section Facts.
Context {Element : Type} `{Host Element} `{TimeCore}.

Lemma _onDragEnd_sound (data : DragEventData Element) st :
  wp (_onDragEnd data) st (λ c st' out,
    c = Normal tt ∧
    untouched (dates st) (schedules_items st) (dates st') (schedules_items st') ∧
    requests_satisfy update (bottom_request st) out).
Proof.
  run.
  all: split; [done|].
  all: split; [first [apply untouched_refl | apply untouched_grow]|].
  all: check_requests
         ltac:(split; [done|]; split; [done|]; split; [done|];
               eexists _, _; split; [done|]; split; [done|]; split; [done|];
               cbn [ev_dates bu_end]; store_norm; bools; lia).
Qed.

Lemma _onDragEndTop_sound (data : DragEventData Element) st :
  wp (_onDragEndTop data) st (λ c st' out,
    c = Normal tt ∧
    untouched (dates st) (schedules_items st) (dates st') (schedules_items st') ∧
    requests_satisfy update (top_request st) out).
Proof.
  run.
  all: split; [done|].
  all: split; [first [apply untouched_refl | apply untouched_grow]|].
  all: check_requests
         ltac:(split; [done|]; split; [done|]; split; [done|];
               eexists _, _; split; [done|]; split; [done|]; split; [done|];
               cbn [ev_dates bu_start]; store_norm; bools; lia).
Qed.

Lemma dragged_valid (data : DragEventData Element) st view ds :
  (nearestGridTimeY ds < length (dates st))%nat →
  dragged data st view ds =
    g_nearestGridTimeY (gridPoint view (originEvent data))
    - valueOf (dates st) (nearestGridTimeY ds).
Proof.
  intros Hv. unfold dragged, datetime.millisecondsFrom. cbv zeta.
  rewrite valueOf_app_l by done. lia.
Qed.

(** With no dangling reference, the request of a bottom drag is known in
    full: one request, then the end of the drag. *)
Lemma _onDragEnd_emits (data : DragEventData Element) st view ds sch :
  _getScheduleDataFunc st = Some view →
  _dragStart st = Some ds →
  schedules_items st !! targetModelID ds = Some sch →
  valid_schedule (dates st) sch →
  wp (_onDragEnd data) st (λ c st' out,
    ∃ e u d,
      out = [e; {| ev_name := "timeResizeDragend"; ev_data := schedule_data d;
                   ev_dates := dates st' |}] ∧
      ev_name e = "beforeUpdateSchedule" ∧ ev_data e = update u ∧
      bu_schedule u = sch ∧ end_only u ∧
      valueOf (ev_dates e) (bu_start u) = valueOf (dates st) (getStarts sch) ∧
      valueOf (ev_dates e) (bu_end u) =
        clampedEnd (valueOf (dates st) (getStarts sch)) (valueOf (dates st) (getEnds sch))
          (dragged data st view ds) (getDate view)).
Proof.
  intros Hv Hd Hs [Hvs Hve].
  run.
  all: eexists _, _, _; split; [reflexivity|].
  all: split; [done|]; split; [done|]; split; [done|]; split; [done|].
  all: cbn [ev_dates bu_start bu_end]; store_norm; split; [done|].
  all: unfold clampedEnd, dragged, datetime.millisecondsFrom in *; state_norm; cbv zeta.
  all: repeat case_match; bools; lia.
Qed.

Lemma _onDragEndTop_emits (data : DragEventData Element) st view ds sch :
  _getScheduleDataFunc st = Some view →
  _dragStart st = Some ds →
  schedules_items st !! targetModelID ds = Some sch →
  valid_schedule (dates st) sch →
  wp (_onDragEndTop data) st (λ c st' out,
    ∃ e u d,
      out = [e; {| ev_name := "timeResizeDragend"; ev_data := schedule_data d;
                   ev_dates := dates st' |}] ∧
      ev_name e = "beforeUpdateSchedule" ∧ ev_data e = update u ∧
      bu_schedule u = sch ∧ start_only u ∧
      valueOf (ev_dates e) (bu_end u) = valueOf (dates st) (getEnds sch) ∧
      valueOf (ev_dates e) (bu_start u) =
        clampedStart (valueOf (dates st) (getStarts sch)) (valueOf (dates st) (getEnds sch))
          (dragged data st view ds) (getDate view)).
Proof.
  intros Hv Hd Hs [Hvs Hve].
  run.
  all: eexists _, _, _; split; [reflexivity|].
  all: split; [done|]; split; [done|]; split; [done|]; split; [done|].
  all: cbn [ev_dates bu_start bu_end]; store_norm; split; [done|].
  all: unfold clampedStart, dragged, datetime.millisecondsFrom in *; state_norm; cbv zeta.
  all: repeat case_match; bools; lia.
Qed.

Ltac silence :=
  run;
  (split; [done|]);
  (split; [first [apply untouched_refl | apply untouched_grow]|]);
  check_requests idtac.

Lemma _onDragStart_silent (data : DragEventData Element) st :
  wp (_onDragStart data) st (silent st).
Proof. silence. Qed.

Lemma _onDrag_silent (data : DragEventData Element) st :
  wp (_onDrag data None None) st (silent st).
Proof. silence. Qed.

Lemma _onDragTop_silent (data : DragEventData Element) st :
  wp (_onDragTop data None None) st (silent st).
Proof. silence. Qed.

Lemma _onClick_silent st : wp _onClick st (silent st).
Proof. silence. Qed.

Lemma invoke_sound l (data : DragEventData Element) st :
  wp (invoke l data) st (λ c st' out,
    c = Normal tt ∧
    untouched (dates st) (schedules_items st) (dates st') (schedules_items st') ∧
    requests_satisfy update (request_of l st) out).
Proof.
  destruct l; cbn [invoke].
  1-3, 6: eapply wp_mono; [|first [apply _onDragStart_silent | apply _onDrag_silent
                                  | apply _onDragTop_silent | apply _onClick_silent]];
    intros c s out (? & ? & Hn); (split; [done|]); (split; [done|]);
    by eapply requests_satisfy_mono; [|done].
  - eapply wp_mono; [|apply _onDragEnd_sound].
    intros c s out (? & ? & Hb). split; [done|]. split; [done|].
    eapply requests_satisfy_mono; [|done]. intros e u ?. by left.
  - eapply wp_mono; [|apply _onDragEndTop_sound].
    intros c s out (? & ? & Hb). split; [done|]. split; [done|].
    eapply requests_satisfy_mono; [|done]. intros e u ?. by right.
Qed.

Lemma request_of_ok l st e u : request_of l st e u → request_ok (schedules_items st) e u.
Proof.
  intros [[_ (? & ? & ? & v & ds & _ & _ & ? & _)] | [_ (? & ? & ? & v & ds & _ & _ & ? & _)]];
    (split; [done|]); (split; [by eexists|]); [left | right]; done.
Qed.

Lemma harmless_nil st : harmless st st [].
Proof. split; [apply untouched_refl | apply requests_satisfy_nil]. Qed.

Lemma harmless_seq st st1 st2 out1 out2 :
  harmless st st1 out1 → harmless st1 st2 out2 → harmless st st2 (out1 ++ out2).
Proof.
  intros [Hu1 Hr1] [Hu2 Hr2]. split; [by eapply untouched_trans|].
  apply requests_satisfy_app; [done|]. destruct Hu1 as [Hi _]. by rewrite <- Hi.
Qed.

Lemma dispatch_harmless ev (data : DragEventData Element) st :
  wp (dispatch ev data) st (λ c st' out, c = Normal tt ∧ harmless st st' out).
Proof.
  unfold dispatch. apply wp_bind, wp_gets. cbn beta iota.
  eapply wp_mono;
    [|apply (wp_walk _ _ (λ st c st' out, c = Normal tt ∧ harmless st st' out))].
  - intros c s out [-> Hh]. by rewrite app_nil_l.
  - intros st0. split; [done | apply harmless_nil].
  - intros st0 st1 c st2 o1 o2 [_ H1] [-> H2]. split; [done|]. by eapply harmless_seq.
  - intros l st0. eapply wp_mono; [|apply invoke_sound].
    intros c s out (-> & Hu & Hr). split; [done|]. split; [done|].
    eapply requests_satisfy_mono; [|done]. apply request_of_ok.
Qed.

(** An event with one listener, which leaves at most one: one call. *)
Lemma dispatch_single ev (data : DragEventData Element) st l :
  listenersOf ev (dragHandler st) = [l] →
  (length (listenersOf ev (dragHandler (final (invoke l data st)))) ≤ 1)%nat →
  dispatch ev data st = (invoke l data;; mret tt) st.
Proof.
  intros Hl Hlen.
  assert (dispatch ev data st
          = walk (λ st, listenersOf ev (dragHandler st)) (λ l, invoke l data)
              (calls_of cb_onDragStart (listenersOf ev (dragHandler st))) 0 st) as ->.
  { unfold dispatch, mbind, M_bind, bind, gets. by destruct (walk _ _ _ _ st) as [[c s] out]. }
  rewrite Hl, calls_of_cons.
  case_decide; cbn [Nat.add];
    by apply (walk_one (λ st, listenersOf ev (dragHandler st)) (λ l, invoke l data)).
Qed.

Lemma gesture_harmless (evs : list (DragEvent * DragEventData Element)) st :
  harmless st (gesture evs st).1 (gesture evs st).2.
Proof.
  revert st. induction evs as [|[ev data] evs IH]; intros st; cbn [gesture].
  - apply harmless_nil.
  - cbn [fst snd]. eapply harmless_seq; [|apply IH].
    apply (dispatch_harmless ev data st).
Qed.

Lemma requests_drag_end (e : Event Payload) d h :
  ev_name e = "beforeUpdateSchedule" →
  requests [e; {| ev_name := "timeResizeDragend"; ev_data := d; ev_dates := h |}] = [e].
Proof.
  intros He. unfold requests. rewrite filter_cons_True by done.
  by rewrite filter_cons_False by done.
Qed.

(** *** The end edge *)

(** A bottom drag that resolves a schedule fires one change request, for
    the end only, and its end is [clampedEnd] of what the schedule holds. *)
Lemma end_drag_request (data : DragEventData Element) st view ds sch :
  _getScheduleDataFunc st = Some view →
  _dragStart st = Some ds →
  schedules_items st !! targetModelID ds = Some sch →
  valid_schedule (dates st) sch →
  ∃ e u,
    requests (fired (_onDragEnd data st)) = [e] ∧ ev_data e = update u ∧
    bu_schedule u = sch ∧ end_only u ∧
    valueOf (ev_dates e) (bu_start u) = valueOf (dates st) (getStarts sch) ∧
    valueOf (ev_dates e) (bu_end u) =
      clampedEnd (valueOf (dates st) (getStarts sch)) (valueOf (dates st) (getEnds sch))
        (dragged data st view ds) (getDate view).
Proof.
  intros Hv Hd Hs Hvalid.
  destruct (_onDragEnd_emits data st view ds sch Hv Hd Hs Hvalid)
    as (e & u & d & Hout & Hn & Hu & Hrest).
  exists e, u. rewrite Hout, requests_drag_end by done. by split.
Qed.

Lemma start_drag_request (data : DragEventData Element) st view ds sch :
  _getScheduleDataFunc st = Some view →
  _dragStart st = Some ds →
  schedules_items st !! targetModelID ds = Some sch →
  valid_schedule (dates st) sch →
  ∃ e u,
    requests (fired (_onDragEndTop data st)) = [e] ∧ ev_data e = update u ∧
    bu_schedule u = sch ∧ start_only u ∧
    valueOf (ev_dates e) (bu_end u) = valueOf (dates st) (getEnds sch) ∧
    valueOf (ev_dates e) (bu_start u) =
      clampedStart (valueOf (dates st) (getStarts sch)) (valueOf (dates st) (getEnds sch))
        (dragged data st view ds) (getDate view).
Proof.
  intros Hv Hd Hs Hvalid.
  destruct (_onDragEndTop_emits data st view ds sch Hv Hd Hs Hvalid)
    as (e & u & d & Hout & Hn & Hu & Hrest).
  exists e, u. rewrite Hout, requests_drag_end by done. by split.
Qed.

Lemma datetime_end_of_midnight base :
  datetime.start base = base → datetime.end_ base = base + 86399000.
Proof. unfold datetime.end_, datetime.MILLISECONDS_PER_DAY. intros ->. lia. Qed.

Lemma datetime_end_same_day base : datetime.end_ base < base + datetime.MILLISECONDS_PER_DAY.
Proof.
  unfold datetime.end_, datetime.start, datetime.MILLISECONDS_PER_DAY.
  pose proof (Z.mod_pos_bound base 86400000). lia.
Qed.

(** Arithmetic of the clamps. *)
Lemma clampedEnd_minimum s e td base :
  s + MIN_DURATION ≤ base + datetime.MILLISECONDS_PER_DAY →
  MIN_DURATION ≤ clampedEnd s e td base - s.
Proof.
  pose proof (datetime_end_same_day base) as Hday. revert Hday.
  unfold clampedEnd, MIN_DURATION, datetime.MILLISECONDS_PER_DAY, datetime.millisecondsFrom.
  cbv zeta. intros. repeat case_match; bools; lia.
Qed.

Lemma clampedEnd_free s e td base :
  e + td ≤ datetime.end_ base →
  MIN_DURATION ≤ e + td - s →
  e + td ≤ base + datetime.MILLISECONDS_PER_DAY →
  clampedEnd s e td base = e + td.
Proof.
  unfold clampedEnd, MIN_DURATION, datetime.MILLISECONDS_PER_DAY, datetime.millisecondsFrom.
  cbv zeta. intros. repeat case_match; bools; lia.
Qed.

Lemma clampedEnd_day_end s e td base :
  s + MIN_DURATION ≤ datetime.end_ base →
  datetime.end_ base ≤ base + datetime.MILLISECONDS_PER_DAY →
  clampedEnd s e td base ≤ datetime.end_ base.
Proof.
  unfold clampedEnd, MIN_DURATION, datetime.MILLISECONDS_PER_DAY, datetime.millisecondsFrom.
  cbv zeta. intros. repeat case_match; bools; lia.
Qed.

Lemma clampedEnd_last_minute s e td base :
  base + datetime.MILLISECONDS_PER_DAY < s + MIN_DURATION →
  clampedEnd s e td base = base + datetime.MILLISECONDS_PER_DAY - 60000.
Proof.
  pose proof (datetime_end_same_day base) as Hday. revert Hday.
  unfold clampedEnd, MIN_DURATION, datetime.MILLISECONDS_PER_DAY, datetime.millisecondsFrom.
  cbv zeta. intros. repeat case_match; bools; lia.
Qed.

Lemma clampedStart_minimum s e td base :
  base + MIN_DURATION ≤ e →
  MIN_DURATION ≤ e - clampedStart s e td base.
Proof.
  unfold clampedStart, MIN_DURATION, datetime.millisecondsFrom.
  cbv zeta. intros. repeat case_match; bools; lia.
Qed.

Lemma clampedStart_day_start s e td base :
  e < base + MIN_DURATION → clampedStart s e td base = base.
Proof.
  unfold clampedStart, MIN_DURATION, datetime.millisecondsFrom.
  cbv zeta. intros. repeat case_match; bools; lia.
Qed.

(** C2, as amended. Day/time-grid variant, end-edge drag: a drag end that
    resolves a schedule fires one change request, and the end it shows is
    at least 30 minutes after the start it shows, provided the schedule
    starts no later than 30 minutes before the midnight that closes the
    column's day. (For a later start the last clamp wins: see
    [Witnesses.end_drag_short_counterexample].) *)
Theorem end_drag_keeps_minimum (data : DragEventData Element) st view ds sch :
  _getScheduleDataFunc st = Some view →
  _dragStart st = Some ds →
  schedules_items st !! targetModelID ds = Some sch →
  valid_schedule (dates st) sch →
  valueOf (dates st) (getStarts sch) + MIN_DURATION
    ≤ getDate view + datetime.MILLISECONDS_PER_DAY →
  ∃ e u,
    requests (fired (_onDragEnd data st)) = [e] ∧ ev_data e = update u ∧
    bu_schedule u = sch ∧
    MIN_DURATION ≤ valueOf (ev_dates e) (bu_end u) - valueOf (ev_dates e) (bu_start u).
Proof.
  intros Hv Hd Hs Hvalid Hroom.
  destruct (end_drag_request data st view ds sch Hv Hd Hs Hvalid)
    as (e & u & Hreq & Hu & Hsch & _ & Hstart & Hend).
  exists e, u. repeat (split; [done|]).
  rewrite Hstart, Hend. by apply clampedEnd_minimum.
Qed.

(** Whatever the pointer position and the state, the end shown by a
    change request of a drag end is never after the midnight one date
    after [getDate()]. *)
Lemma end_drag_before_next_day (data : DragEventData Element) st view e u :
  _getScheduleDataFunc st = Some view →
  e ∈ fired (_onDragEnd data st) →
  ev_data e = update u →
  valueOf (ev_dates e) (bu_end u) ≤ getDate view + datetime.MILLISECONDS_PER_DAY.
Proof.
  intros Hv He Hu.
  destruct (_onDragEnd_sound data st) as (_ & _ & Hreq & _).
  destruct (Hreq e u He Hu) as (_ & _ & _ & view' & ds & Hv' & _ & _ & Hle).
  rewrite Hv in Hv'. by injection Hv' as <-.
Qed.

Lemma clampedEnd_minimum_wins s e td base :
  datetime.end_ base < s + MIN_DURATION →
  s + MIN_DURATION ≤ base + datetime.MILLISECONDS_PER_DAY →
  clampedEnd s e td base = s + MIN_DURATION.
Proof.
  unfold clampedEnd, MIN_DURATION, datetime.MILLISECONDS_PER_DAY, datetime.millisecondsFrom.
  cbv zeta. intros. repeat case_match; bools; lia.
Qed.

Lemma clampedEnd_within_day s e td base :
  s + MIN_DURATION ≤ datetime.end_ base ∨
  (base + datetime.MILLISECONDS_PER_DAY < s + MIN_DURATION ∧ datetime.start base = base) →
  clampedEnd s e td base ≤ datetime.end_ base.
Proof.
  intros [Hroom | [Hlate Hmid]].
  - apply clampedEnd_day_end; [done|]. pose proof (datetime_end_same_day base). lia.
  - rewrite clampedEnd_last_minute, datetime_end_of_midnight by done.
    unfold datetime.MILLISECONDS_PER_DAY. lia.
Qed.

(** C3, as amended. Day/time-grid variant, end-edge drag: a drag end that
    resolves a schedule fires one change request, and the end it shows is
    never after [datetime.end] of the column's date, the last second of
    its day, however far the pointer is: provided the schedule starts at
    least 30 minutes before that second, or, in a column whose date is a
    midnight, less than 30 minutes before the next midnight. (For a start
    in between the minimum duration wins, up to that midnight: see
    [end_drag_minimum_wins] and
    [Witnesses.end_drag_past_day_end_counterexample].) *)
Theorem end_drag_within_day (data : DragEventData Element) st view ds sch :
  _getScheduleDataFunc st = Some view →
  _dragStart st = Some ds →
  schedules_items st !! targetModelID ds = Some sch →
  valid_schedule (dates st) sch →
  valueOf (dates st) (getStarts sch) + MIN_DURATION ≤ datetime.end_ (getDate view) ∨
  (getDate view + datetime.MILLISECONDS_PER_DAY
     < valueOf (dates st) (getStarts sch) + MIN_DURATION ∧
   datetime.start (getDate view) = getDate view) →
  ∃ e u,
    requests (fired (_onDragEnd data st)) = [e] ∧ ev_data e = update u ∧
    bu_schedule u = sch ∧
    valueOf (ev_dates e) (bu_end u) ≤ datetime.end_ (getDate view).
Proof.
  intros Hv Hd Hs Hvalid Hroom.
  destruct (end_drag_request data st view ds sch Hv Hd Hs Hvalid)
    as (e & u & Hreq & Hu & Hsch & _ & _ & Hend).
  exists e, u. repeat (split; [done|]). rewrite Hend. by apply clampedEnd_within_day.
Qed.

(** The starts left out above: later than 30 minutes before [datetime.end]
    of the column's date, and no later than 30 minutes before the next
    midnight. Wherever the pointer is, the new end is the start plus 30
    minutes, after [datetime.end]. *)
Lemma end_drag_minimum_wins (data : DragEventData Element) st view ds sch :
  _getScheduleDataFunc st = Some view →
  _dragStart st = Some ds →
  schedules_items st !! targetModelID ds = Some sch →
  valid_schedule (dates st) sch →
  datetime.end_ (getDate view) < valueOf (dates st) (getStarts sch) + MIN_DURATION →
  valueOf (dates st) (getStarts sch) + MIN_DURATION
    ≤ getDate view + datetime.MILLISECONDS_PER_DAY →
  ∃ e u,
    requests (fired (_onDragEnd data st)) = [e] ∧ ev_data e = update u ∧
    bu_schedule u = sch ∧
    valueOf (ev_dates e) (bu_end u) = valueOf (dates st) (getStarts sch) + MIN_DURATION ∧
    datetime.end_ (getDate view) < valueOf (ev_dates e) (bu_end u).
Proof.
  intros Hv Hd Hs Hvalid Hlate Hroom.
  destruct (end_drag_request data st view ds sch Hv Hd Hs Hvalid)
    as (e & u & Hreq & Hu & Hsch & _ & _ & Hend).
  exists e, u. repeat (split; [done|]).
  rewrite Hend, clampedEnd_minimum_wins by done. by split.
Qed.

(** C1, as amended. Day/time-grid variant, start-edge drag: a drag end that
    resolves a schedule fires one change request, and the start it shows
    is at least 30 minutes before the end it shows, provided the schedule
    ends at least 30 minutes after the column's date. (For an earlier end
    the clamp to the start of the day wins: see
    [Witnesses.start_drag_short_counterexample].) *)
Theorem start_drag_keeps_minimum (data : DragEventData Element) st view ds sch :
  _getScheduleDataFunc st = Some view →
  _dragStart st = Some ds →
  schedules_items st !! targetModelID ds = Some sch →
  valid_schedule (dates st) sch →
  getDate view + MIN_DURATION ≤ valueOf (dates st) (getEnds sch) →
  ∃ e u,
    requests (fired (_onDragEndTop data st)) = [e] ∧ ev_data e = update u ∧
    bu_schedule u = sch ∧
    MIN_DURATION ≤ valueOf (ev_dates e) (bu_end u) - valueOf (ev_dates e) (bu_start u).
Proof.
  intros Hv Hd Hs Hvalid Hroom.
  destruct (start_drag_request data st view ds sch Hv Hd Hs Hvalid)
    as (e & u & Hreq & Hu & Hsch & _ & Hend & Hstart).
  exists e, u. repeat (split; [done|]).
  rewrite Hstart, Hend. by apply clampedStart_minimum.
Qed.

(** C4. Day/time-grid variant, start-edge drag: whatever the pointer
    position and the state, the start shown by a change request of a drag
    end is never before the column's date, the start of its day. *)
Theorem start_drag_within_day (data : DragEventData Element) st view e u :
  _getScheduleDataFunc st = Some view →
  e ∈ fired (_onDragEndTop data st) →
  ev_data e = update u →
  getDate view ≤ valueOf (ev_dates e) (bu_start u).
Proof.
  intros Hv He Hu.
  destruct (_onDragEndTop_sound data st) as (_ & _ & Hreq & _).
  destruct (Hreq e u He Hu) as (_ & _ & _ & view' & ds & Hv' & _ & _ & Hle).
  rewrite Hv in Hv'. by injection Hv' as <-.
Qed.

(** A bottom drag on a schedule from 09:00 to 10:00 of the column's day. *)
Lemma end_drag_nine_to_ten (data : DragEventData Element) st view ds sch (minutes : Z) :
  _getScheduleDataFunc st = Some view →
  _dragStart st = Some ds →
  schedules_items st !! targetModelID ds = Some sch →
  valid_schedule (dates st) sch →
  (nearestGridTimeY ds < length (dates st))%nat →
  datetime.start (getDate view) = getDate view →
  valueOf (dates st) (getStarts sch) = getDate view + 9 * 3600000 →
  valueOf (dates st) (getEnds sch) = getDate view + 10 * 3600000 →
  g_nearestGridTimeY (gridPoint view (originEvent data))
    - valueOf (dates st) (nearestGridTimeY ds) = minutes * 60000 →
  -30 ≤ minutes ≤ 839 →
  ∃ e u,
    requests (fired (_onDragEnd data st)) = [e] ∧ ev_data e = update u ∧
    bu_schedule u = sch ∧ end_only u ∧
    valueOf (ev_dates e) (bu_start u) = getDate view + 9 * 3600000 ∧
    valueOf (ev_dates e) (bu_end u) = getDate view + 10 * 3600000 + minutes * 60000.
Proof.
  intros Hv Hd Hs Hvalid Hvn Hmid Hstart Hend Hdiff Hrange.
  destruct (end_drag_request data st view ds sch Hv Hd Hs Hvalid)
    as (e & u & Hreq & Hu & Hsch & Honly & Hs' & He').
  exists e, u. repeat (split; [done|]). split; [congruence|].
  rewrite He', dragged_valid, Hdiff, Hstart, Hend by done.
  apply clampedEnd_free; rewrite ?datetime_end_of_midnight by done;
    unfold MIN_DURATION, datetime.MILLISECONDS_PER_DAY, datetime.millisecondsFrom; lia.
Qed.

(** C6. Day/time-grid scenario: for a schedule from 09:00 to 10:00 of the
    column's day, a bottom drag whose nearest grid times are 45 minutes
    apart (a nearest range of 75 minutes) fires one change request, for the
    end only, with end 10:45. *)
Theorem end_drag_down_45_minutes (data : DragEventData Element) st view ds sch :
  _getScheduleDataFunc st = Some view →
  _dragStart st = Some ds →
  schedules_items st !! targetModelID ds = Some sch →
  valid_schedule (dates st) sch →
  (nearestGridTimeY ds < length (dates st))%nat →
  datetime.start (getDate view) = getDate view →
  valueOf (dates st) (getStarts sch) = getDate view + 9 * 3600000 →
  valueOf (dates st) (getEnds sch) = getDate view + 10 * 3600000 →
  g_nearestGridTimeY (gridPoint view (originEvent data))
    - valueOf (dates st) (nearestGridTimeY ds) = 45 * 60000 →
  ∃ e u,
    requests (fired (_onDragEnd data st)) = [e] ∧ ev_data e = update u ∧
    bu_schedule u = sch ∧ end_only u ∧
    valueOf (ev_dates e) (bu_start u) = getDate view + 9 * 3600000 ∧
    valueOf (ev_dates e) (bu_end u) = getDate view + 10 * 3600000 + 45 * 60000.
Proof. intros. eapply end_drag_nine_to_ten; eauto. lia. Qed.

(** C5, as amended. Day/time-grid scenario: for a schedule from 09:00 to
    10:00 of the column's day, a bottom drag whose nearest grid times are 5
    minutes apart fires one change request, for the end only, with end
    10:05: the floor of 30 minutes is on end minus start, 65 minutes
    here. *)
Theorem end_drag_down_5_minutes (data : DragEventData Element) st view ds sch :
  _getScheduleDataFunc st = Some view →
  _dragStart st = Some ds →
  schedules_items st !! targetModelID ds = Some sch →
  valid_schedule (dates st) sch →
  (nearestGridTimeY ds < length (dates st))%nat →
  datetime.start (getDate view) = getDate view →
  valueOf (dates st) (getStarts sch) = getDate view + 9 * 3600000 →
  valueOf (dates st) (getEnds sch) = getDate view + 10 * 3600000 →
  g_nearestGridTimeY (gridPoint view (originEvent data))
    - valueOf (dates st) (nearestGridTimeY ds) = 5 * 60000 →
  ∃ e u,
    requests (fired (_onDragEnd data st)) = [e] ∧ ev_data e = update u ∧
    bu_schedule u = sch ∧ end_only u ∧
    valueOf (ev_dates e) (bu_start u) = getDate view + 9 * 3600000 ∧
    valueOf (ev_dates e) (bu_end u) = getDate view + 10 * 3600000 + 5 * 60000.
Proof. intros. eapply end_drag_nine_to_ten; eauto. lia. Qed.

(** A schedule that starts less than 30 minutes before the midnight that
    closes the column's day: the new end is the last minute of the day. *)
Lemma end_drag_last_minute (data : DragEventData Element) st view ds sch :
  _getScheduleDataFunc st = Some view →
  _dragStart st = Some ds →
  schedules_items st !! targetModelID ds = Some sch →
  valid_schedule (dates st) sch →
  getDate view + datetime.MILLISECONDS_PER_DAY
    < valueOf (dates st) (getStarts sch) + MIN_DURATION →
  ∃ e u,
    requests (fired (_onDragEnd data st)) = [e] ∧ ev_data e = update u ∧
    bu_schedule u = sch ∧
    valueOf (ev_dates e) (bu_end u) = getDate view + datetime.MILLISECONDS_PER_DAY - 60000.
Proof.
  intros Hv Hd Hs Hvalid Hlate.
  destruct (end_drag_request data st view ds sch Hv Hd Hs Hvalid)
    as (e & u & Hreq & Hu & Hsch & _ & _ & Hend).
  exists e, u. repeat (split; [done|]). rewrite Hend.
  by apply clampedEnd_last_minute.
Qed.

(** A schedule that ends less than 30 minutes into the column's day: the
    new start is the date of the column. *)
Lemma start_drag_at_day_start (data : DragEventData Element) st view ds sch :
  _getScheduleDataFunc st = Some view →
  _dragStart st = Some ds →
  schedules_items st !! targetModelID ds = Some sch →
  valid_schedule (dates st) sch →
  valueOf (dates st) (getEnds sch) < getDate view + MIN_DURATION →
  ∃ e u,
    requests (fired (_onDragEndTop data st)) = [e] ∧ ev_data e = update u ∧
    bu_schedule u = sch ∧
    valueOf (ev_dates e) (bu_start u) = getDate view.
Proof.
  intros Hv Hd Hs Hvalid Hroom.
  destruct (start_drag_request data st view ds sch Hv Hd Hs Hvalid)
    as (e & u & Hreq & Hu & Hsch & _ & _ & Hstart).
  exists e, u. repeat (split; [done|]). rewrite Hstart.
  by apply clampedStart_day_start.
Qed.

(** *** Drag start and click *)

(** A drag start on a resize handle of a block in a column. *)
Lemma _onDragStart_confirmed (data : DragEventData Element) st view block :
  checkExpectCondition st (target data) = Some view →
  closest (target data) (classname ".time-date-schedule-block") = Some block →
  wp (_onDragStart data) st (λ c st' out,
    c = Normal tt ∧
    (∃ new, dates st' = dates st ++ new) ∧
    schedules_items st' = schedules_items st ∧
    dragHandler st' =
      dragHandler st ++
      (if (clientY (originEvent data) <=? topThreshold (getBoundingClientRect block))%float
       then top_listeners else bottom_listeners) ∧
    _getScheduleDataFunc st' = Some view ∧
    ∃ sd, _dragStart st' = Some sd ∧ targetModelID sd = getData block "id" ∧
      out = [{| ev_name := "timeResizeDragstart"; ev_data := schedule_data sd;
                ev_dates := dates st' |}]).
Proof.
  intros Hview Hblock. unfold topThreshold.
  destruct (_ <=? _)%float eqn:Hle; run.
  all: split; [done|]; split; [by eexists|]; split; [done|]; split; [done|].
  all: split; [done|]; eexists; split; [done|]; by split.
Qed.

(** C10. A drag start whose [clientY] equals the vertical middle of the
    block's bounding box, as [_onDragStart] computes it, subscribes the
    listeners of a top drag. *)
Theorem midpoint_press_is_top_drag (data : DragEventData Element) st view block :
  checkExpectCondition st (target data) = Some view →
  closest (target data) (classname ".time-date-schedule-block") = Some block →
  (clientY (originEvent data) =? topThreshold (getBoundingClientRect block))%float = true →
  dragHandler (final (_onDragStart data st)) = dragHandler st ++ top_listeners.
Proof.
  intros Hview Hblock Hmid.
  destruct (_onDragStart_confirmed data st view block Hview Hblock)
    as (_ & _ & _ & Htbl & _).
  by rewrite Htbl, (float_eqb_leb _ _ Hmid).
Qed.

(** C8. Day/time-grid variant: after a confirmed drag start, a click fires
    [timeResizeClick] and nothing else (no change request), leaves the
    collection and every date object as they are, and none of the drag,
    drag end and click listeners of the instance stays subscribed. *)
Theorem click_cancels (data data' : DragEventData Element) st view block :
  checkExpectCondition st (target data) = Some view →
  closest (target data) (classname ".time-date-schedule-block") = Some block →
  listenersOf Click (dragHandler st) = [] →
  let pressed := final (_onDragStart data st) in
  let r := dispatch Click data' pressed in
  completion r = Normal tt ∧
  fired r = [{| ev_name := "timeResizeClick"; ev_data := no_data;
                ev_dates := dates pressed |}] ∧
  final r = set_dragHandler (off top_listeners ∘ off bottom_listeners) pressed ∧
  schedules_items (final r) = schedules_items st ∧
  dates st `prefix_of` dates (final r) ∧
  ∀ entry, entry ∈ top_listeners ++ bottom_listeners → entry ∉ dragHandler (final r).
Proof.
  intros Hview Hblock Hnone pressed r.
  destruct (_onDragStart_confirmed data st view block Hview Hblock)
    as (_ & [new Hnew] & Hitems & Htbl & _).
  fold pressed in Hnew, Hitems, Htbl.
  assert (listenersOf Click (dragHandler pressed) = [cb_onClick]) as Hclick.
  { rewrite Htbl, listenersOf_app, Hnone. by case_match; vm_compute. }
  assert (r = (Normal tt, set_dragHandler (off top_listeners ∘ off bottom_listeners) pressed,
               [{| ev_name := "timeResizeClick"; ev_data := no_data;
                   ev_dates := dates pressed |}])) as ->.
  { unfold r. rewrite (dispatch_single Click data' pressed cb_onClick Hclick); [done|].
    change (invoke cb_onClick data' pressed)
      with (Normal tt, set_dragHandler (off top_listeners ∘ off bottom_listeners) pressed,
            [{| ev_name := "timeResizeClick"; ev_data := no_data;
                ev_dates := dates pressed |}]).
    cbn [final fst snd dragHandler set_dragHandler compose].
    rewrite !listenersOf_off, Hclick. vm_compute. lia. }
  cbn [completion final fired fst snd schedules_items set_dragHandler].
  repeat (split; [done|]).
  split; [by cbn [dates State_dates st_dates set_dragHandler] in *; rewrite Hnew;
             apply prefix_app_r|].
  intros entry Hin Hstill. cbn [dragHandler set_dragHandler compose] in Hstill.
  apply off_removes in Hstill as [Hnt Hstill]. apply off_removes in Hstill as [Hnb _].
  apply elem_of_app in Hin as [?|?]; done.
Qed.

End Facts.
End TimeResizeSpec.

(** ** The month variant *)

Module WeekResizeSpec.
Import WeekResize WeekResizeProps.

Ltac state_norm :=
  cbn [dates set_dates State_dates set_st_dates st_dates schedules_items monthView now
       dragHandler getScheduleData _cache guide guide_calls
       set_dragHandler set_getScheduleData set_cache set_guide
       fst snd x y date sd_target model schedule cache_target start end_ with_end
       TZDate.new TZDate.addMilliseconds TZDate.addMinutes TZDate.addDate] in *.

(** The listeners of the guide touch the guide and nothing else of the
    instance, and fire none of its events; they may throw. *)
Lemma wp_guide_walk {Element : Type} `{Host Element} `{MonthCore} name
    (data : option (ScheduleData (Element := Element))) fuel index
    (st : State (Element := Element)) (Q : Completion unit → State → list (Event Payload) → Prop) :
  (∀ c g calls, Q c (set_guide g calls st) []) →
  wp (walk (λ st, WeekResizeGuide.listening name (guide st))
        (λ l, on_guide (WeekResizeGuide.invoke l data)) fuel index) st Q.
Proof.
  intros HQ.
  eapply wp_mono;
    [|apply (wp_walk _ _ (λ st c st' out, ∃ g calls, st' = set_guide g calls st ∧ out = []))].
  - intros c s out (g & calls & -> & ->). apply HQ.
  - intros st0. exists (guide st0), (guide_calls st0). by destruct st0.
  - intros st0 st1 c st2 o1 o2 (g1 & c1 & -> & ->) (g2 & c2 & -> & ->). by exists g2, c2.
  - intros l st0. unfold wp, on_guide. cbn [completion final fired fst snd]. by eexists _, _.
Qed.

Ltac wp_guide :=
  lazymatch goal with
  | |- wp (walk _ _ _ _) _ _ =>
      let c := fresh "c" in let g := fresh "g" in let calls := fresh "calls" in
      apply wp_guide_walk; intros c g calls; destruct c as [[]|?]
  end.

Ltac wp_step := unfold_dates; first [wp_match | wp_prim | wp_guide]; state_norm; store_norm.

Ltac run :=
  unfold _onDragEnd, _updateSchedule, _onDrag, _onDragStart, getMousePosData, WeekResize.fire;
  state_norm; repeat wp_step.

Section Facts.
Context {Element : Type} `{Host Element} `{MonthCore}.

Lemma week_drag_end_sound (data : DragEventData Element) (st : State (Element := Element)) :
  wp (_onDragEnd data) st (λ c st' out,
    untouched (dates st) (schedules_items st) (dates st') (schedules_items st') ∧
    requests_satisfy update (week_request data st) out).
Proof.
  run.
  all: split; [first [apply untouched_refl | apply untouched_grow]|].
  all: check_requests
         ltac:(split; [done|]; split; [done|];
               eexists _, _, _; split; [done|]; split; [done|]; split; [done|];
               split; [done|]; cbn [ev_dates bu_end]; store_norm; done).
Qed.

(** With a session whose schedule is known and a pointer over a cell, the
    drag end is known in full. *)
Lemma week_drag_end_emits (data : DragEventData Element) (st : State (Element := Element))
    view cache sch p :
  getScheduleData st = Some view →
  _cache st = Some cache →
  schedule cache = Some sch →
  cellPoint view (originEvent data) = Some p →
  (getStarts sch < length (dates st))%nat →
  wp (_onDragEnd data) st (λ c st' out,
    ∃ d, let ended := {| ev_name := "WeekResizeDragend"; ev_data := week_data (Some d);
                         ev_dates := dates st' |} in
      if valueOf (dates st) (getStarts sch) <=? p_date p
      then ∃ e u,
        out = [e; ended] ∧ ev_name e = "beforeUpdateSchedule" ∧ ev_data e = update u ∧
        bu_schedule u = sch ∧ end_only u ∧
        valueOf (ev_dates e) (bu_end u) = datetime.end_ (p_date p) ∧
        valueOf (ev_dates e) (bu_start u) = valueOf (dates st) (getStarts sch)
      else out = [ended]).
Proof.
  intros Hview Hcache Hsch Hp Hvalid.
  destruct (_ <=? _) eqn:Hle; run.
  1,2: eexists; cbv zeta; eexists _, _; (split; [reflexivity|]);
    repeat (split; [done|]); cbn [ev_dates bu_start bu_end]; store_norm; done.
  all: by eexists.
Qed.

Ltac silence :=
  run;
  (split; [first [apply untouched_refl | apply untouched_grow]|]);
  check_requests idtac.

Lemma week_drag_start_silent (data : DragEventData Element) (st : State (Element := Element)) :
  wp (_onDragStart data) st (silent st).
Proof. silence. Qed.

Lemma week_drag_silent (data : DragEventData Element) (st : State (Element := Element)) :
  wp (_onDrag data) st (silent st).
Proof. silence. Qed.

Lemma week_invoke_sound l (data : DragEventData Element) (st : State (Element := Element)) :
  wp (invoke l data) st (λ c st' out,
    untouched (dates st) (schedules_items st) (dates st') (schedules_items st') ∧
    requests_satisfy update (request_of l data st) out).
Proof.
  destruct l; cbn [invoke].
  1-2: eapply wp_mono; [|first [apply week_drag_start_silent | apply week_drag_silent]];
    intros c s out [? Hn]; (split; [done|]);
    by eapply requests_satisfy_mono; [|done].
  eapply wp_mono; [|apply week_drag_end_sound].
  intros c s out [? Hb]. split; [done|].
  eapply requests_satisfy_mono; [|done]. by split.
Qed.

Lemma week_harmless_nil (st : State (Element := Element)) : harmless st st [].
Proof. split; [apply untouched_refl | apply requests_satisfy_nil]. Qed.

Lemma week_harmless_seq (st st1 st2 : State (Element := Element)) out1 out2 :
  harmless st st1 out1 → harmless st1 st2 out2 → harmless st st2 (out1 ++ out2).
Proof.
  intros [Hu1 Hr1] [Hu2 Hr2]. split; [by eapply untouched_trans|].
  by apply requests_satisfy_app.
Qed.

Lemma week_dispatch_harmless ev (data : DragEventData Element) (st : State (Element := Element)) :
  wp (dispatch ev data) st (λ c st' out, harmless st st' out).
Proof.
  unfold dispatch. apply wp_bind, wp_gets. cbn beta iota.
  eapply wp_mono; [|apply (wp_walk _ _ (λ st c st' out, harmless st st' out))].
  - intros c s out Hh. by rewrite app_nil_l.
  - apply week_harmless_nil.
  - intros st0 st1 c st2 o1 o2 H1 H2. by eapply week_harmless_seq.
  - intros l st0. eapply wp_mono; [|apply week_invoke_sound].
    intros c s out [Hu Hr]. split; [done|]. eapply requests_satisfy_mono; [|done].
    intros e u [_ (? & ? & _)]. by split.
Qed.

Lemma week_gesture_harmless (evs : list (DragEvent * DragEventData Element))
    (st : State (Element := Element)) :
  harmless st (gesture evs st).1 (gesture evs st).2.
Proof.
  revert st. induction evs as [|[ev data] evs IH]; intros st; cbn [gesture].
  - apply week_harmless_nil.
  - cbn [fst snd]. eapply week_harmless_seq; [|apply IH].
    apply (week_dispatch_harmless ev data st).
Qed.

Lemma week_requests_drag_end (e : Event (Payload (Element := Element))) d h :
  ev_name e = "beforeUpdateSchedule" →
  requests [e; {| ev_name := "WeekResizeDragend"; ev_data := d; ev_dates := h |}] = [e].
Proof.
  intros He. unfold requests. rewrite filter_cons_True by done.
  by rewrite filter_cons_False by done.
Qed.

(** C7. Month variant: at a drag end over a cell, with the schedule of the
    session known, a change request is fired if and only if the date of the
    cell is not before the schedule's start; it then asks for the end only,
    the end of the cell's day, and shows the start as it is; otherwise the
    only event is [WeekResizeDragend]. Either way the collection and every
    date object stay as they are. *)
Theorem month_drag_end (data : DragEventData Element) (st : State (Element := Element))
    view cache sch p :
  getScheduleData st = Some view →
  _cache st = Some cache →
  schedule cache = Some sch →
  cellPoint view (originEvent data) = Some p →
  (getStarts sch < length (dates st))%nat →
  let r := _onDragEnd data st in
  let s := valueOf (dates st) (getStarts sch) in
  (requests (fired r) ≠ [] ↔ s ≤ p_date p) ∧
  (s ≤ p_date p →
     ∃ e u, requests (fired r) = [e] ∧ ev_data e = update u ∧ bu_schedule u = sch ∧
       end_only u ∧
       valueOf (ev_dates e) (bu_end u) = datetime.end_ (p_date p) ∧
       valueOf (ev_dates e) (bu_start u) = s) ∧
  (p_date p < s →
     ∃ d, fired r = [{| ev_name := "WeekResizeDragend"; ev_data := week_data (Some d);
                        ev_dates := dates (final r) |}]) ∧
  untouched (dates st) (schedules_items st) (dates (final r)) (schedules_items (final r)).
Proof.
  intros Hview Hcache Hsch Hp Hvalid r s.
  destruct (week_drag_end_emits data st view cache sch p Hview Hcache Hsch Hp Hvalid)
    as (d & Hout).
  destruct (week_drag_end_sound data st) as [Hun _].
  fold r in Hout, Hun. fold s in Hout. cbv zeta in Hout.
  destruct (s <=? p_date p) eqn:Hle; bools.
  - destruct Hout as (e & u & Hout & Hn & Hrest).
    assert (requests (fired r) = [e]) as Hreq by (by rewrite Hout, week_requests_drag_end).
    split; [by rewrite Hreq|]. split; [by intros _; exists e, u|]. split; [lia|done].
  - assert (requests (fired r) = []) as Hreq by (by rewrite Hout).
    split; [rewrite Hreq; split; [done|lia]|]. split; [lia|]. split; [by exists d|done].
Qed.

End Facts.
End WeekResizeSpec.

(** ** Both variants *)

(** No schedule under the session's model id: no listener of the time grid
    fires a change request. *)
Lemma time_no_schedule_no_request {Element : Type} `{Host Element} `{TimeResize.TimeCore}
    (l : TimeResize.Listener) (data : DragEventData Element) (st : TimeResize.State) ds e :
  TimeResize._dragStart st = Some ds →
  TimeResize.schedules_items st !! TimeResize.targetModelID ds = None →
  e ∈ fired (TimeResize.invoke l data st) →
  ev_name e ≠ "beforeUpdateSchedule".
Proof.
  intros Hds Hnone. destruct (TimeResizeSpec.invoke_sound l data st) as (_ & _ & Hreq).
  eapply requests_satisfy_none; [done|].
  intros e' u
    [[_ (_ & _ & _ & v & ds' & _ & Hds' & Hl & _)] | [_ (_ & _ & _ & v & ds' & _ & Hds' & Hl & _)]];
    congruence.
Qed.

(** A session that holds no schedule: no listener of the month view fires
    a change request. *)
Lemma week_no_schedule_no_request {Element : Type} `{Host Element} `{WeekResize.MonthCore}
    (l : WeekResize.Listener) (data : DragEventData Element)
    (st : WeekResize.State (Element := Element)) cache e :
  WeekResize._cache st = Some cache →
  WeekResize.schedule cache = None →
  e ∈ fired (WeekResize.invoke l data st) →
  ev_name e ≠ "beforeUpdateSchedule".
Proof.
  intros Hc Hnone. destruct (WeekResizeSpec.week_invoke_sound l data st) as (_ & Hreq).
  eapply requests_satisfy_none; [done|].
  intros e' u [_ (_ & _ & v & cache' & p & _ & Hc' & Hs & _)]. congruence.
Qed.

(** C9. Either variant, any listener on any state, and any gesture: the
    collection is the same afterwards and every date object that existed
    keeps its value; a change request is only fired by a drag end, is named
    [beforeUpdateSchedule], is for the schedule that the collection holds
    under the session's model id (time grid) or that the session holds
    (month), and its changes hold the end only (bottom and month drags) or
    the start only (top drags). With no schedule under the model id, or in
    the session, no event of that name is fired. *)
Theorem resize_never_writes_schedules :
  (∀ (Element : Type) (H : Host Element) (C : TimeResize.TimeCore)
     (l : TimeResize.Listener) (data : DragEventData Element) (st : TimeResize.State),
     let r := TimeResize.invoke l data st in
     untouched (dates st) (TimeResize.schedules_items st)
       (dates (final r)) (TimeResize.schedules_items (final r)) ∧
     requests_satisfy TimeResize.update (TimeResizeProps.request_of l st) (fired r)) ∧
  (∀ (Element : Type) (H : Host Element) (C : TimeResize.TimeCore)
     (evs : list (DragEvent * DragEventData Element)) (st : TimeResize.State),
     let r := TimeResize.gesture evs st in
     untouched (dates st) (TimeResize.schedules_items st)
       (dates r.1) (TimeResize.schedules_items r.1) ∧
     requests_satisfy TimeResize.update
       (TimeResizeProps.request_ok (TimeResize.schedules_items st)) r.2) ∧
  (∀ (Element : Type) (H : Host Element) (C : WeekResize.MonthCore)
     (l : WeekResize.Listener) (data : DragEventData Element)
     (st : WeekResize.State (Element := Element)),
     let r := WeekResize.invoke l data st in
     untouched (dates st) (WeekResize.schedules_items st)
       (dates (final r)) (WeekResize.schedules_items (final r)) ∧
     requests_satisfy WeekResize.update (WeekResizeProps.request_of l data st) (fired r)) ∧
  (∀ (Element : Type) (H : Host Element) (C : WeekResize.MonthCore)
     (evs : list (DragEvent * DragEventData Element))
     (st : WeekResize.State (Element := Element)),
     let r := WeekResize.gesture evs st in
     untouched (dates st) (WeekResize.schedules_items st)
       (dates r.1) (WeekResize.schedules_items r.1) ∧
     requests_satisfy WeekResize.update WeekResizeProps.request_ok r.2) ∧
  (∀ (Element : Type) (H : Host Element) (C : TimeResize.TimeCore)
     (l : TimeResize.Listener) (data : DragEventData Element) (st : TimeResize.State) ds e,
     TimeResize._dragStart st = Some ds →
     TimeResize.schedules_items st !! TimeResize.targetModelID ds = None →
     e ∈ fired (TimeResize.invoke l data st) →
     ev_name e ≠ "beforeUpdateSchedule") ∧
  (∀ (Element : Type) (H : Host Element) (C : WeekResize.MonthCore)
     (l : WeekResize.Listener) (data : DragEventData Element)
     (st : WeekResize.State (Element := Element)) cache e,
     WeekResize._cache st = Some cache →
     WeekResize.schedule cache = None →
     e ∈ fired (WeekResize.invoke l data st) →
     ev_name e ≠ "beforeUpdateSchedule").
Proof.
  split; [|split; [|split; [|split; [|split]]]].
  - intros Element H C l data st r.
    destruct (TimeResizeSpec.invoke_sound l data st) as (_ & Hun & Hreq). by split.
  - intros. apply TimeResizeSpec.gesture_harmless.
  - intros Element H C l data st r. apply (WeekResizeSpec.week_invoke_sound l data st).
  - intros. apply WeekResizeSpec.week_gesture_harmless.
  - intros. by eapply time_no_schedule_no_request.
  - intros. by eapply week_no_schedule_no_request.
Qed.

(** ** The sample calendar at work *)

Module Witnesses.
Import Sample.

(** C1 at work: the top of 09:00-10:00 dragged down by 40 minutes stops at 09:30. *)
Lemma start_drag_keeps_minimum_witness :
  ∃ e u,
    TimeResizeProps.requests
      (fired (TimeResize._onDragEndTop (pointer 0 600) (pressed_top (at_ 9 0) (at_ 10 0)))) = [e] ∧
    ev_data e = TimeResize.update u ∧ bu_schedule u = meeting ∧
    MIN_DURATION ≤ valueOf (ev_dates e) (bu_end u) - valueOf (ev_dates e) (bu_start u).
Proof.
  eapply (TimeResizeSpec.start_drag_keeps_minimum (pointer 0 600)
            (pressed_top (at_ 9 0) (at_ 10 0)) column).
  - reflexivity.
  - reflexivity.
  - reflexivity.
  - split; vm_compute; lia.
  - by vm_compute.
Defined.

(** C1 as stated fails: a schedule from 23:00 of the eve to 00:15, its top
    dragged in the column of the day, gets 00:00 as its start, 15 minutes
    before its end. *)
Lemma start_drag_short_counterexample :
  let r := TimeResize._onDragEndTop (pointer 0 560) (pressed_top (at_ (-1) 0) (at_ 0 15)) in
  TimeResizeProps.requests (fired r) = [first_event r] ∧
  ev_data (first_event r) = TimeResize.update (first_request r) ∧
  bu_schedule (first_request r) = meeting ∧
  minutes_shown r = (0, 15) ∧
  valueOf (ev_dates (first_event r)) (bu_end (first_request r))
    - valueOf (ev_dates (first_event r)) (bu_start (first_request r)) < MIN_DURATION.
Proof. split_and!; by vm_compute. Qed.

(** C2 at work: the bottom of 09:00-10:00 dragged up by 50 minutes stops at 09:30. *)
Lemma end_drag_keeps_minimum_witness :
  ∃ e u,
    TimeResizeProps.requests
      (fired (TimeResize._onDragEnd (pointer 0 550) (pressed_bottom (at_ 9 0) (at_ 10 0)))) = [e] ∧
    ev_data e = TimeResize.update u ∧ bu_schedule u = meeting ∧
    MIN_DURATION ≤ valueOf (ev_dates e) (bu_end u) - valueOf (ev_dates e) (bu_start u).
Proof.
  eapply (TimeResizeSpec.end_drag_keeps_minimum (pointer 0 550)
            (pressed_bottom (at_ 9 0) (at_ 10 0)) column).
  - reflexivity.
  - reflexivity.
  - reflexivity.
  - split; vm_compute; lia.
  - by vm_compute.
Defined.

(** C2 as stated fails: a schedule from 23:40 to 23:55, its bottom pressed
    and released, gets 23:59 as its end, 19 minutes after its start. *)
Lemma end_drag_short_counterexample :
  let r := TimeResize._onDragEnd (pointer 0 600) (pressed_bottom (at_ 23 40) (at_ 23 55)) in
  TimeResizeProps.requests (fired r) = [first_event r] ∧
  ev_data (first_event r) = TimeResize.update (first_request r) ∧
  bu_schedule (first_request r) = meeting ∧
  minutes_shown r = (23 * 60 + 40, 23 * 60 + 59) ∧
  valueOf (ev_dates (first_event r)) (bu_end (first_request r))
    - valueOf (ev_dates (first_event r)) (bu_start (first_request r)) < MIN_DURATION.
Proof. split_and!; by vm_compute. Qed.

(** C3, as amended, at work: the bottom of 09:00-10:00 dragged down by 20
    hours. *)
Lemma end_drag_within_day_witness :
  ∃ e u,
    TimeResizeProps.requests
      (fired (TimeResize._onDragEnd (pointer 0 1800) (pressed_bottom (at_ 9 0) (at_ 10 0)))) = [e] ∧
    ev_data e = TimeResize.update u ∧ bu_schedule u = meeting ∧
    valueOf (ev_dates e) (bu_end u) ≤ datetime.end_ (TimeResize.getDate column).
Proof.
  eapply (TimeResizeSpec.end_drag_within_day (pointer 0 1800)
            (pressed_bottom (at_ 9 0) (at_ 10 0)) column).
  - reflexivity.
  - reflexivity.
  - reflexivity.
  - split; vm_compute; lia.
  - left. by vm_compute.
Defined.

(** C3 as stated fails: a schedule from 23:30 to 23:50, its bottom dragged
    down by 20 hours, gets the midnight that closes the day as its end,
    a second after the last second of the day; so it does when the pointer
    is released where it was pressed. *)
Lemma end_drag_past_day_end_counterexample :
  let r := TimeResize._onDragEnd (pointer 0 1800) (pressed_bottom (at_ 23 30) (at_ 23 50)) in
  let r' := TimeResize._onDragEnd (pointer 0 600) (pressed_bottom (at_ 23 30) (at_ 23 50)) in
  TimeResizeProps.requests (fired r) = [first_event r] ∧
  ev_data (first_event r) = TimeResize.update (first_request r) ∧
  bu_schedule (first_request r) = meeting ∧
  minutes_shown r = (23 * 60 + 30, 24 * 60) ∧
  datetime.end_ (TimeResize.getDate column)
    < valueOf (ev_dates (first_event r)) (bu_end (first_request r)) ∧
  minutes_shown r' = (23 * 60 + 30, 24 * 60).
Proof. split_and!; by vm_compute. Qed.

(** Dragged 20 hours down, the end of 10:00 stops at 23:59:59. *)
Example end_drag_20_hours :
  let r := TimeResize._onDragEnd (pointer 0 1800) (pressed_bottom (at_ 9 0) (at_ 10 0)) in
  valueOf (ev_dates (first_event r)) (bu_end (first_request r)) = datetime.end_ day0.
Proof. by vm_compute. Qed.

(** A schedule that starts at 23:30 gets the midnight that closes the day
    as its end; one that starts later gets 23:59. *)
Example end_drag_reaches_midnight :
  minutes_shown (TimeResize._onDragEnd (pointer 0 600) (pressed_bottom (at_ 23 30) (at_ 23 50)))
    = (23 * 60 + 30, 24 * 60) ∧
  minutes_shown (TimeResize._onDragEnd (pointer 0 600) (pressed_bottom (at_ 23 31) (at_ 23 50)))
    = (23 * 60 + 31, 23 * 60 + 59).
Proof. split; by vm_compute. Qed.

(** C4 at work: the top of 09:00-10:00 dragged up by more than a day. *)
Lemma start_drag_within_day_witness :
  let r := TimeResize._onDragEndTop (pointer 0 (-900)) (pressed_top (at_ 9 0) (at_ 10 0)) in
  TimeResize.getDate column ≤ valueOf (ev_dates (first_event r)) (bu_start (first_request r)).
Proof.
  apply (TimeResizeSpec.start_drag_within_day (pointer 0 (-900))
           (pressed_top (at_ 9 0) (at_ 10 0)) column).
  - reflexivity.
  - vm_compute. constructor.
  - reflexivity.
Defined.

(** C5 as stated fails: dragged down by 5 minutes, the end of 09:00-10:00
    becomes 10:05, not 10:30. *)
Lemma end_drag_down_5_minutes_counterexample :
  let st := pressed_bottom (at_ 9 0) (at_ 10 0) in
  let r := TimeResize._onDragEnd (pointer 0 605) st in
  TimeResize._dragStart st = Some (session st) ∧
  TimeResizeProps.dragged (pointer 0 605) st column (session st) = 5 * 60000 ∧
  TimeResizeProps.requests (fired r) = [first_event r] ∧
  ev_data (first_event r) = TimeResize.update (first_request r) ∧
  valueOf (ev_dates (first_event r)) (bu_start (first_request r)) = at_ 9 0 ∧
  valueOf (ev_dates (first_event r)) (bu_end (first_request r)) = at_ 10 5 ∧
  valueOf (ev_dates (first_event r)) (bu_end (first_request r)) ≠ at_ 10 30.
Proof. split_and!; by vm_compute. Qed.

(** C5, as amended, at work. *)
Lemma end_drag_down_5_minutes_witness :
  ∃ e u,
    TimeResizeProps.requests
      (fired (TimeResize._onDragEnd (pointer 0 605) (pressed_bottom (at_ 9 0) (at_ 10 0)))) = [e] ∧
    ev_data e = TimeResize.update u ∧ bu_schedule u = meeting ∧ end_only u ∧
    valueOf (ev_dates e) (bu_start u) = TimeResize.getDate column + 9 * 3600000 ∧
    valueOf (ev_dates e) (bu_end u) = TimeResize.getDate column + 10 * 3600000 + 5 * 60000.
Proof.
  eapply (TimeResizeSpec.end_drag_down_5_minutes (pointer 0 605)
            (pressed_bottom (at_ 9 0) (at_ 10 0)) column).
  - reflexivity.
  - reflexivity.
  - reflexivity.
  - split; vm_compute; lia.
  - vm_compute; lia.
  - reflexivity.
  - reflexivity.
  - reflexivity.
  - reflexivity.
Defined.

(** C6 at work. *)
Lemma end_drag_down_45_minutes_witness :
  ∃ e u,
    TimeResizeProps.requests
      (fired (TimeResize._onDragEnd (pointer 0 645) (pressed_bottom (at_ 9 0) (at_ 10 0)))) = [e] ∧
    ev_data e = TimeResize.update u ∧ bu_schedule u = meeting ∧ end_only u ∧
    valueOf (ev_dates e) (bu_start u) = TimeResize.getDate column + 9 * 3600000 ∧
    valueOf (ev_dates e) (bu_end u) = TimeResize.getDate column + 10 * 3600000 + 45 * 60000.
Proof.
  eapply (TimeResizeSpec.end_drag_down_45_minutes (pointer 0 645)
            (pressed_bottom (at_ 9 0) (at_ 10 0)) column).
  - reflexivity.
  - reflexivity.
  - reflexivity.
  - split; vm_compute; lia.
  - vm_compute; lia.
  - reflexivity.
  - reflexivity.
  - reflexivity.
  - reflexivity.
Defined.

(** C10 at work: the block spans the pixels 540 to 600, the press is at 570. *)
Lemma midpoint_press_is_top_drag_witness :
  TimeResize.dragHandler
    (final (TimeResize._onDragStart (pointer 0 570) (grid (at_ 9 0) (at_ 10 0)))) =
  TimeResize.dragHandler (grid (at_ 9 0) (at_ 10 0)) ++ TimeResizeProps.top_listeners.
Proof.
  eapply (TimeResizeSpec.midpoint_press_is_top_drag (pointer 0 570) (grid (at_ 9 0) (at_ 10 0))).
  - reflexivity.
  - reflexivity.
  - reflexivity.
Defined.

(** C8 at work. *)
Lemma click_cancels_witness :
  let pressed := final (TimeResize._onDragStart (pointer 0 600) (grid (at_ 9 0) (at_ 10 0))) in
  let r := TimeResize.dispatch Click (pointer 0 600) pressed in
  completion r = Normal tt ∧
  fired r = [{| ev_name := "timeResizeClick"; ev_data := TimeResize.no_data;
                ev_dates := dates pressed |}] ∧
  final r =
    TimeResize.set_dragHandler
      (off TimeResizeProps.top_listeners ∘ off TimeResizeProps.bottom_listeners) pressed ∧
  TimeResize.schedules_items (final r) = TimeResize.schedules_items (grid (at_ 9 0) (at_ 10 0)) ∧
  dates (grid (at_ 9 0) (at_ 10 0)) `prefix_of` dates (final r) ∧
  ∀ entry, entry ∈ TimeResizeProps.top_listeners ++ TimeResizeProps.bottom_listeners →
    entry ∉ TimeResize.dragHandler (final r).
Proof.
  eapply (TimeResizeSpec.click_cancels (pointer 0 600) (pointer 0 600)
            (grid (at_ 9 0) (at_ 10 0))).
  - reflexivity.
  - reflexivity.
  - reflexivity.
Defined.

(** C7 at work: pressed over day 3, released over day 5. *)
Lemma month_drag_end_witness :
  ∃ e u,
    WeekResizeProps.requests
      (fired (WeekResize._onDragEnd (pointer 5 0) (pressed_week (at_ 9 0) (at_ 10 0)))) = [e] ∧
    ev_data e = WeekResize.update u ∧ bu_schedule u = meeting ∧ end_only u ∧
    valueOf (ev_dates e) (bu_end u) = datetime.end_ (day0 + 5 * 86400000) ∧
    valueOf (ev_dates e) (bu_start u) = at_ 9 0.
Proof.
  edestruct (WeekResizeSpec.month_drag_end (pointer 5 0) (pressed_week (at_ 9 0) (at_ 10 0))
               month_view) as (_ & Hyes & _);
    [reflexivity | reflexivity | reflexivity | reflexivity | vm_compute; lia | ].
  apply Hyes. by vm_compute.
Defined.

(** Released over a day before the start, the month drag asks for nothing. *)
Example month_drag_before_start :
  WeekResizeProps.requests
    (fired (WeekResize._onDragEnd (pointer (-1) 0) (pressed_week (at_ 9 0) (at_ 10 0)))) = [].
Proof. by vm_compute. Qed.

(** C9 at work: press the lower handle at 10:00, move to 10:45, release. *)
Lemma resize_never_writes_schedules_witness :
  let st := grid (at_ 9 0) (at_ 10 0) in
  let r := TimeResize.gesture
             [(DragStart, pointer 0 600); (Drag, pointer 0 645); (DragEnd, pointer 0 645)] st in
  untouched (dates st) (TimeResize.schedules_items st)
    (dates r.1) (TimeResize.schedules_items r.1) ∧
  requests_satisfy TimeResize.update
    (TimeResizeProps.request_ok (TimeResize.schedules_items st)) r.2.
Proof. apply (proj1 (proj2 resize_never_writes_schedules)). Defined.

(** The gesture fires one change request, between the events of the drag. *)
Example bottom_drag_events :
  ev_name <$> (TimeResize.gesture
                 [(DragStart, pointer 0 600); (Drag, pointer 0 645); (DragEnd, pointer 0 645)]
                 (grid (at_ 9 0) (at_ 10 0))).2
  = ["timeResizeDragstart"; "timeResizeDrag"; "beforeUpdateSchedule"; "timeResizeDragend"].
Proof. by vm_compute. Qed.

(** A block whose model id is unknown to the collection: the drag end
    throws, and fires nothing. *)
Example month_drag_unknown_schedule :
  let pressed := final (WeekResize.dispatch DragStart (pointer 3 0) empty_weeks) in
  let r := WeekResize._onDragEnd (pointer 5 0) pressed in
  completion r = Throw (TypeError "Cannot read properties of undefined") ∧ fired r = [].
Proof. split; by vm_compute. Qed.

End Witnesses.

(** * Whole gestures, edges and the guide *)

(** ** More rules and list facts *)

Lemma wp_exact {S E A} (m : M S E A) st c0 s0 o0 :
  wp m st (λ c s out, c = c0 ∧ s = s0 ∧ out = o0) → m st = (c0, s0, o0).
Proof.
  unfold wp, completion, final, fired. destruct (m st) as [[c s] out]. cbn.
  by intros (-> & -> & ->).
Qed.

(** What a run is known to give. *)
Lemma wp_eq {S E A} (m : M S E A) st c s o (Q : Completion A → S → list E → Prop) :
  m st = (c, s, o) → Q c s o → wp m st Q.
Proof. unfold wp, completion, final, fired. by intros ->. Qed.

Lemma wp_emit {S E} (e : E) (st : S) (Q : Completion unit → S → list E → Prop) :
  Q (Normal tt) st [e] → wp (emit e) st Q.
Proof. done. Qed.

Lemma names_replicate {P : Type} (evs : list (Event P)) name :
  Forall (λ e, ev_name e = name) evs → ev_name <$> evs = replicate (length evs) name.
Proof. induction 1 as [|e evs He _ IH]; [done|]. cbn. by rewrite He, IH. Qed.

Lemma elem_of_concat {A : Type} (x : A) (ls : list (list A)) :
  x ∈ concat ls ↔ ∃ l, l ∈ ls ∧ x ∈ l.
Proof.
  induction ls as [|l ls IH]; cbn [concat].
  - split; [by intros ?%elem_of_nil | by intros (l & ?%elem_of_nil & _)].
  - rewrite elem_of_app, IH. split.
    + intros [Hx | (l' & Hl' & Hx)]; [exists l | exists l']; split; try done;
        [by left | by right].
    + intros (l' & [-> | Hl']%elem_of_cons & Hx); [by left | right; by exists l'].
Qed.

Lemma concat_replicate_end {A : Type} (k : nat) (l : list A) :
  concat (replicate k l) ++ l = concat (replicate (S k) l).
Proof.
  induction k as [|k IH]; cbn [replicate concat] in *; [by rewrite app_nil_r|].
  by rewrite <- app_assoc, IH.
Qed.

Section Off.
Context {L : Type} `{EqDecision L}.
Implicit Types (subs tbl : list (DragEvent * L)).

Lemma off_nil tbl : off [] tbl = tbl.
Proof.
  unfold off. induction tbl as [|x tbl IH]; [done|].
  rewrite filter_cons. destruct (decide (x ∉ [])) as [Hx|Hx]; [by rewrite IH|].
  exfalso. apply Hx, not_elem_of_nil.
Qed.

Lemma off_app s1 s2 tbl : off s2 (off s1 tbl) = off (s1 ++ s2) tbl.
Proof.
  unfold off. induction tbl as [|x tbl IH]; [done|].
  rewrite !filter_cons.
  destruct (decide (x ∉ s1)) as [H1|H1], (decide (x ∉ s1 ++ s2)) as [H3|H3].
  - rewrite filter_cons. destruct (decide (x ∉ s2)) as [H2|H2]; [by rewrite IH|].
    exfalso. apply H2. intros ?. apply H3, elem_of_app. by right.
  - rewrite filter_cons. destruct (decide (x ∉ s2)) as [H2|H2]; [|done].
    exfalso. apply H3. rewrite elem_of_app. tauto.
  - exfalso. apply H1. intros ?. apply H3, elem_of_app. by left.
  - done.
Qed.

Lemma off_all subs tbl : (∀ x, x ∈ tbl → x ∈ subs) → off subs tbl = [].
Proof.
  unfold off. induction tbl as [|x tbl IH]; intros Hall; [done|].
  rewrite filter_cons. destruct (decide (x ∉ subs)) as [Hx|Hx].
  - exfalso. apply Hx, Hall. by left.
  - apply IH. intros y Hy. apply Hall. by right.
Qed.

Lemma off_off subs tbl : off subs (off subs tbl) = off subs tbl.
Proof.
  unfold off. induction tbl as [|x tbl IH]; [done|].
  rewrite filter_cons. case_decide as Hx; [|done].
  rewrite filter_cons. case_decide; [|done]. by rewrite IH.
Qed.

End Off.

(** ** The time grid variant, step by step *)

Module TimeResizeSteps.
Import TimeResize TimeResizeProps TimeResizeSpec TimeResizeSession.

Section Facts.
Context {Element : Type} `{Host Element} `{TimeCore}.

Lemma _onDrag_session (data : DragEventData Element) st view ds :
  _getScheduleDataFunc st = Some view →
  _dragStart st = Some ds →
  _onDrag data None None st =
    (Normal tt, set_dates (mapped_dates view (originEvent data) (dates st)) st,
     [{| ev_name := "timeResizeDrag";
         ev_data := schedule_data (mapped view (originEvent data) (dates st) (targetModelID ds) None);
         ev_dates := mapped_dates view (originEvent data) (dates st) |}]).
Proof. intros Hv Hd. apply wp_exact. run. done. Qed.

Lemma _onDragTop_session (data : DragEventData Element) st view ds :
  _getScheduleDataFunc st = Some view →
  _dragStart st = Some ds →
  _onDragTop data None None st =
    (Normal tt, set_dates (mapped_dates view (originEvent data) (dates st)) st,
     [{| ev_name := "timeResizeDragTop";
         ev_data := schedule_data (mapped view (originEvent data) (dates st) (targetModelID ds) None);
         ev_dates := mapped_dates view (originEvent data) (dates st) |}]).
Proof. intros Hv Hd. apply wp_exact. run. done. Qed.

Lemma _onDrag_idle (data : DragEventData Element) st :
  _getScheduleDataFunc st = None ∨ _dragStart st = None →
  _onDrag data None None st = (Normal tt, st, []) ∧
  _onDragTop data None None st = (Normal tt, st, []).
Proof. intros [Hn|Hn]; split; apply wp_exact; run; done. Qed.

Lemma _onDragEnd_idle (data : DragEventData Element) st :
  _getScheduleDataFunc st = None ∨ _dragStart st = None →
  _onDragEnd data st = (Normal tt, set_dragHandler (off bottom_listeners) st, []) ∧
  _onDragEndTop data st = (Normal tt, set_dragHandler (off top_listeners) st, []).
Proof. intros [Hn|Hn]; split; apply wp_exact; run; done. Qed.

Lemma _onDragStart_rejected (data : DragEventData Element) st :
  checkExpectCondition st (target data) = None ∨
  closest (target data) (classname ".time-date-schedule-block") = None →
  _onDragStart data st = (Normal tt, st, []).
Proof. intros [Hn|Hn]; apply wp_exact; run; done. Qed.

Lemma _onDragStart_pressed (data : DragEventData Element) st view block :
  checkExpectCondition st (target data) = Some view →
  closest (target data) (classname ".time-date-schedule-block") = Some block →
  _onDragStart data st =
    (Normal tt, pressed view block data st,
     [{| ev_name := "timeResizeDragstart";
         ev_data := schedule_data (mapped view (originEvent data) (dates st) (getData block "id")
                                     (schedules_items st !! getData block "id"));
         ev_dates := mapped_dates view (originEvent data) (dates st) |}]).
Proof.
  intros Hview Hblock. apply wp_exact. unfold pressed, listeners_for, topThreshold.
  destruct (_ <=? _)%float eqn:Hle; run; done.
Qed.

Lemma checkExpectCondition_child st (t : Element) v :
  checkExpectCondition st t = Some v → ∃ i, children_items st !! i = Some v.
Proof. unfold checkExpectCondition. intros Hc. repeat case_match; try done. by eexists. Qed.

(** A drag end with a session: the listeners go, the session is cleared,
    and the last event is [timeResizeDragend]. *)
Lemma _onDragEnd_session (data : DragEventData Element) st view ds :
  _getScheduleDataFunc st = Some view →
  _dragStart st = Some ds →
  wp (_onDragEnd data) st (λ c st' out,
    c = Normal tt ∧
    dragHandler st' = off bottom_listeners (dragHandler st) ∧
    _getScheduleDataFunc st' = None ∧ _dragStart st' = None ∧
    children_items st' = children_items st ∧
    ∃ pre e d r,
      out = pre ++ [e] ∧ (length pre ≤ 1)%nat ∧
      ev_name e = "timeResizeDragend" ∧ ev_data e = schedule_data d ∧
      ev_dates e = dates st' ∧
      relatedView d = view ∧ targetModelID d = targetModelID ds ∧
      nearestRange d = Some (nearestGridTimeY ds, nearestGridTimeY d) ∧
      range d = Some (timeY ds, r) ∧ r ≠ timeY d ∧
      valueOf (dates st') (timeY d) = g_timeY (gridPoint view (originEvent data)) ∧
      valueOf (dates st') r = g_timeY (gridPoint view (originEvent data)) + 30 * 60000 ∧
      valueOf (dates st') (nearestGridTimeY d)
        = g_nearestGridTimeY (gridPoint view (originEvent data)) + 30 * 60000).
Proof.
  intros Hv Hd. run.
  all: split; [done|]; split; [done|]; split; [done|]; split; [done|]; split; [done|].
  all: first [ eexists [_], _, _, _; split; [reflexivity|]
             | eexists [], _, _, _; split; [reflexivity|] ].
  all: split; [cbn; lia|].
  all: split; [done|]; split; [done|]; split; [done|]; split; [done|]; split; [done|].
  all: split; [done|]; split; [done|]; split; [state_norm; lia|].
  all: state_norm; store_norm; done.
Qed.

Lemma _onDragEndTop_session (data : DragEventData Element) st view ds :
  _getScheduleDataFunc st = Some view →
  _dragStart st = Some ds →
  wp (_onDragEndTop data) st (λ c st' out,
    c = Normal tt ∧
    dragHandler st' = off top_listeners (dragHandler st) ∧
    _getScheduleDataFunc st' = None ∧ _dragStart st' = None ∧
    children_items st' = children_items st ∧
    ∃ pre e d r,
      out = pre ++ [e] ∧ (length pre ≤ 1)%nat ∧
      ev_name e = "timeResizeDragend" ∧ ev_data e = schedule_data d ∧
      ev_dates e = dates st' ∧
      relatedView d = view ∧ targetModelID d = targetModelID ds ∧
      nearestRange d = Some (nearestGridTimeY ds, nearestGridTimeY d) ∧
      range d = Some (timeY ds, r) ∧ r ≠ timeY d ∧
      valueOf (dates st') (timeY d) = g_timeY (gridPoint view (originEvent data)) ∧
      valueOf (dates st') r = g_timeY (gridPoint view (originEvent data)) + 30 * 60000 ∧
      valueOf (dates st') (nearestGridTimeY d)
        = g_nearestGridTimeY (gridPoint view (originEvent data)) + 30 * 60000).
Proof.
  intros Hv Hd. run.
  all: split; [done|]; split; [done|]; split; [done|]; split; [done|]; split; [done|].
  all: first [ eexists [_], _, _, _; split; [reflexivity|]
             | eexists [], _, _, _; split; [reflexivity|] ].
  all: split; [cbn; lia|].
  all: split; [done|]; split; [done|]; split; [done|]; split; [done|]; split; [done|].
  all: split; [done|]; split; [done|]; split; [state_norm; lia|].
  all: state_norm; store_norm; done.
Qed.

(** The dates of a change request: which are the schedule's own objects
    and which were made by the handler. *)
Lemma _onDragEnd_fresh (data : DragEventData Element) st :
  wp (_onDragEnd data) st (λ c st' out,
    requests_satisfy update
      (λ e u, bu_start u = getStarts (bu_schedule u) ∧
              (length (dates st) ≤ bu_end u < length (ev_dates e))%nat) out).
Proof.
  run.
  all: check_requests
         ltac:(split; [done|]; cbn [ev_dates bu_end]; rewrite ?length_app; cbn [length]; lia).
Qed.

Lemma _onDragEndTop_fresh (data : DragEventData Element) st :
  wp (_onDragEndTop data) st (λ c st' out,
    requests_satisfy update
      (λ e u, bu_end u = getEnds (bu_schedule u) ∧
              (length (dates st) ≤ bu_start u < length (ev_dates e))%nat) out).
Proof.
  run.
  all: check_requests
         ltac:(split; [done|]; cbn [ev_dates bu_start]; rewrite ?length_app; cbn [length]; lia).
Qed.

(** What a listener other than the drag start listener does to the table
    and to the session. *)
Lemma invoke_effect l (data : DragEventData Element) st :
  l ≠ cb_onDragStart →
  wp (invoke l data) st (λ c st' _,
    c = Normal tt ∧ dragHandler st' = off (unsubscribes l) (dragHandler st) ∧
    children_items st' = children_items st ∧
    (session_kept st st' ∨ ((l = cb_onDragEnd ∨ l = cb_onDragEndTop) ∧ session_cleared st'))).
Proof.
  intros Hl. unfold session_kept, session_cleared.
  destruct l; [done|..]; cbn [invoke unsubscribes]; run.
  all: rewrite ?off_nil, ?off_app.
  all: split; [done|]; split; [done|]; split; [done|].
  all: first [ by left | right; split; [by eauto|done] ].
Qed.

End Facts.
End TimeResizeSteps.

(** ** The time grid variant: gestures and edges *)

Module TimeResizeGestures.
Import TimeResize TimeResizeProps TimeResizeSpec TimeResizeSession TimeResizeSteps.
Import TimeResizeTable.

Section Facts.
Context {Element : Type} `{Host Element} `{TimeCore}.

Lemma gesture_app (evs1 evs2 : list (DragEvent * DragEventData Element)) st :
  gesture (evs1 ++ evs2) st =
    ((gesture evs2 (gesture evs1 st).1).1,
     (gesture evs1 st).2 ++ (gesture evs2 (gesture evs1 st).1).2).
Proof.
  revert st. induction evs1 as [|[ev data] evs1 IH]; intros st; cbn [app gesture].
  - cbn [fst snd app]. by destruct (gesture evs2 st).
  - rewrite IH. cbn [fst snd]. by rewrite app_assoc.
Qed.

(** An event with one listener, which leaves at most one: its effect. *)
Lemma dispatch_one ev (data : DragEventData Element) st l :
  listenersOf ev (dragHandler st) = [l] →
  completion (invoke l data st) = Normal tt →
  (length (listenersOf ev (dragHandler (final (invoke l data st)))) ≤ 1)%nat →
  dispatch ev data st = (Normal tt, final (invoke l data st), fired (invoke l data st)).
Proof.
  intros Hl Hc Hlen. rewrite (dispatch_single ev data st l Hl Hlen).
  unfold mbind, M_bind, bind. destruct (invoke l data st) as [[c s] out]. cbn in *. subst c.
  by rewrite app_nil_r.
Qed.

Lemma requests_none (evs : list (Event Payload)) name :
  name ≠ "beforeUpdateSchedule" → Forall (λ e, ev_name e = name) evs → requests evs = [].
Proof.
  intros Hne. induction 1 as [|e evs He _ IH]; [done|].
  unfold requests in *. rewrite filter_cons_False; [done|]. by rewrite He.
Qed.

Lemma requests_app (l1 l2 : list (Event Payload)) :
  requests (l1 ++ l2) = requests l1 ++ requests l2.
Proof. apply filter_app. Qed.

(** The previews between a press and a release: one event each, and
    nothing changes but the date store, which grows. *)
Lemma drags_bottom view ds items h0 (moves : list (DragEventData Element)) st :
  dragging ((DragStart, cb_onDragStart) :: bottom_listeners) view ds items h0 st →
  let r := gesture ((λ d, (Drag, d)) <$> moves) st in
  dragging ((DragStart, cb_onDragStart) :: bottom_listeners) view ds items h0 r.1 ∧
  Forall (λ e, ev_name e = "timeResizeDrag") r.2 ∧ length r.2 = length moves.
Proof.
  revert st. induction moves as [|d moves IH]; intros st Hst; cbv zeta;
    cbn [fmap list_fmap gesture fst snd].
  - split; [done|]. by split; [constructor|].
  - destruct Hst as (Ht & Hv & Hd & Hi & Hp).
    assert (dispatch Drag d st = _onDrag d None None st) as Hstep.
    { rewrite (dispatch_one Drag d st cb_onDrag); [|by rewrite Ht|..];
        cbn [invoke]; rewrite (_onDrag_session d st view ds Hv Hd); [done|done|].
      cbn. rewrite Ht. vm_compute. lia. }
    rewrite Hstep, (_onDrag_session d st view ds Hv Hd). cbn [final fired fst snd].
    edestruct (IH (set_dates (mapped_dates view (originEvent d) (dates st)) st))
      as (Hst' & Hn & Hl).
    { repeat split; try done. cbn. etrans; [done|]. by apply prefix_app_r. }
    split; [done|]. split; [by constructor|]. cbn [app length]. by rewrite Hl.
Qed.

Lemma drags_top view ds items h0 (moves : list (DragEventData Element)) st :
  dragging ((DragStart, cb_onDragStart) :: top_listeners) view ds items h0 st →
  let r := gesture ((λ d, (Drag, d)) <$> moves) st in
  dragging ((DragStart, cb_onDragStart) :: top_listeners) view ds items h0 r.1 ∧
  Forall (λ e, ev_name e = "timeResizeDragTop") r.2 ∧ length r.2 = length moves.
Proof.
  revert st. induction moves as [|d moves IH]; intros st Hst; cbv zeta;
    cbn [fmap list_fmap gesture fst snd].
  - split; [done|]. by split; [constructor|].
  - destruct Hst as (Ht & Hv & Hd & Hi & Hp).
    assert (dispatch Drag d st = _onDragTop d None None st) as Hstep.
    { rewrite (dispatch_one Drag d st cb_onDragTop); [|by rewrite Ht|..];
        cbn [invoke]; rewrite (_onDragTop_session d st view ds Hv Hd); [done|done|].
      cbn. rewrite Ht. vm_compute. lia. }
    rewrite Hstep, (_onDragTop_session d st view ds Hv Hd). cbn [final fired fst snd].
    edestruct (IH (set_dates (mapped_dates view (originEvent d) (dates st)) st))
      as (Hst' & Hn & Hl).
    { repeat split; try done. cbn. etrans; [done|]. by apply prefix_app_r. }
    split; [done|]. split; [by constructor|]. cbn [app length]. by rewrite Hl.
Qed.

(** X1. A drag start is ignored, with no event, no subscription and no
    change of any kind, when its target is not a resize handle, is not
    inside a date column, when the column's class names no index, when the
    time grid has no column, or when the target is not inside a schedule
    block. *)
Theorem drag_start_ignored (data : DragEventData Element) st :
  hasClass (target data) (classname "time-resize-handle") = false ∨
  closest (target data) (classname ".time-date") = None ∨
  (∃ c, closest (target data) (classname ".time-date") = Some c ∧
        ∀ ms, time_getViewIDRegExp (getClass c) = Some ms → (length ms < 2)%nat) ∨
  children_items st = ∅ ∨
  closest (target data) (classname ".time-date-schedule-block") = None →
  _onDragStart data st = (Normal tt, st, []).
Proof.
  intros Hwhy. apply _onDragStart_rejected.
  destruct Hwhy as [Hc | [Hc | [(c & Hc & Hms) | [Hc | Hc]]]]; [left..|by right];
    unfold checkExpectCondition.
  - by rewrite Hc.
  - rewrite Hc. by case_match.
  - rewrite Hc. destruct (negb _); [done|].
    destruct (time_getViewIDRegExp _) as [ms|] eqn:Hm; [|done].
    case_decide as Hl; [done|]. specialize (Hms ms eq_refl). lia.
  - rewrite Hc. repeat case_match; done.
Qed.

(** X2. A whole bottom drag on a freshly constructed instance: a press in
    the lower half of a block whose schedule is known, any number of moves,
    a release. The events are [timeResizeDragstart], one [timeResizeDrag]
    per move, one change request and [timeResizeDragend], in this order;
    afterwards only the drag start listener is subscribed and the session
    is cleared. The request asks for the end only, and its end is the
    clamped sum of the schedule's end and the difference of the nearest grid
    times at release and at press, whatever the moves were. *)
Theorem bottom_gesture (data1 data2 : DragEventData Element) (moves : list (DragEventData Element))
    st view block sch :
  dragHandler st = [(DragStart, cb_onDragStart)] →
  checkExpectCondition st (target data1) = Some view →
  closest (target data1) (classname ".time-date-schedule-block") = Some block →
  (clientY (originEvent data1) <=? topThreshold (getBoundingClientRect block))%float = false →
  schedules_items st !! getData block "id" = Some sch →
  valid_schedule (dates st) sch →
  let r := gesture ((DragStart, data1) :: ((λ d, (Drag, d)) <$> moves) ++ [(DragEnd, data2)]) st in
  dragHandler r.1 = [(DragStart, cb_onDragStart)] ∧
  _getScheduleDataFunc r.1 = None ∧ _dragStart r.1 = None ∧
  ev_name <$> r.2 =
    "timeResizeDragstart" :: replicate (length moves) "timeResizeDrag"
      ++ ["beforeUpdateSchedule"; "timeResizeDragend"] ∧
  ∃ e u,
    requests r.2 = [e] ∧ ev_data e = update u ∧ bu_schedule u = sch ∧ end_only u ∧
    valueOf (ev_dates e) (bu_start u) = valueOf (dates st) (getStarts sch) ∧
    valueOf (ev_dates e) (bu_end u) =
      clampedEnd (valueOf (dates st) (getStarts sch)) (valueOf (dates st) (getEnds sch))
        (g_nearestGridTimeY (gridPoint view (originEvent data2))
         - g_nearestGridTimeY (gridPoint view (originEvent data1)))
        (getDate view).
Proof.
  intros Htbl Hview Hblock Hedge Hsch [Hvs Hve] r. subst r.
  pose proof (_onDragStart_pressed data1 st view block Hview Hblock) as Hstart.
  cbn [gesture].
  rewrite (dispatch_one DragStart data1 st cb_onDragStart);
    [|by rewrite Htbl|by cbn [invoke]; rewrite Hstart|].
  2:{ cbn [invoke]. rewrite Hstart. cbn [final fst snd pressed dragHandler].
      rewrite Htbl. unfold listeners_for. rewrite Hedge. vm_compute. lia. }
  cbn [invoke]. rewrite Hstart. cbn [final fired fst snd].
  set (ds := mapped view (originEvent data1) (dates st) (getData block "id")
               (schedules_items st !! getData block "id")).
  set (st1 := pressed view block data1 st).
  rewrite gesture_app.
  destruct (drags_bottom view ds (schedules_items st)
              (mapped_dates view (originEvent data1) (dates st)) moves st1)
    as ((Ht & Hv & Hd & Hi & Hp) & Hnames & Hlen).
  { unfold st1, pressed, listeners_for. rewrite Hedge, Htbl. by repeat split. }
  set (rd := gesture ((λ d, (Drag, d)) <$> moves) st1) in *.
  set (st2 := rd.1) in *.
  assert (dates st `prefix_of` dates st2) as Hp0.
  { etrans; [|done]. by apply prefix_app_r. }
  assert (valid_schedule (dates st2) sch) as Hvalid2.
  { destruct Hp0 as [l ->]. split; rewrite length_app; lia. }
  assert (schedules_items st2 !! targetModelID ds = Some sch) as Hs2 by (by rewrite Hi).
  destruct (_onDragEnd_emits data2 st2 view ds sch Hv Hd Hs2 Hvalid2)
    as (e & u & d & Hout & Hn & Hu & Hbs & Honly & Hstart' & Hend').
  destruct (_onDragEnd_session data2 st2 view ds Hv Hd)
    as (Hc & Htbl' & Hv' & Hd' & _).
  cbn [gesture].
  rewrite (dispatch_one DragEnd data2 st2 cb_onDragEnd); [|by rewrite Ht|done|].
  2:{ cbn [invoke]. rewrite Htbl', Ht. vm_compute. lia. }
  cbn [invoke final fired fst snd]. rewrite Htbl', Ht, Hout, app_nil_r.
  split; [done|]. split; [done|]. split; [done|].
  split.
  { rewrite !fmap_app, (names_replicate _ _ Hnames), Hlen.
    cbn. by rewrite Hn. }
  exists e, u. split.
  { rewrite !requests_app, (requests_none rd.2 "timeResizeDrag" ltac:(done) Hnames).
    rewrite requests_drag_end by done. reflexivity. }
  repeat (split; [done|]).
  destruct Hp0 as [l Hl].
  split.
  { rewrite Hstart', Hl. by apply valueOf_app_l. }
  rewrite Hend', dragged_valid.
  2:{ destruct Hp as [l' ->]. unfold ds, mapped, mapped_dates.
      cbn [nearestGridTimeY]. rewrite !length_app. cbn. lia. }
  rewrite Hl, !valueOf_app_l by done. f_equal.
  destruct Hp as [l' Hl']. rewrite <- Hl, Hl'. unfold ds, mapped, mapped_dates.
  cbn [nearestGridTimeY]. rewrite <- app_assoc. rewrite valueOf_app_r. done.
Qed.

(** X3. A whole top drag on a freshly constructed instance: a press in the
    upper half of a block (the middle included), any number of moves, a
    release. The events are [timeResizeDragstart], one [timeResizeDragTop]
    per move, one change request and [timeResizeDragend]; afterwards only
    the drag start listener is subscribed and the session is cleared. The
    request asks for the start only, and its start is the clamped sum of
    the schedule's start and the difference of the nearest grid times at
    release and at press. *)
Theorem top_gesture (data1 data2 : DragEventData Element) (moves : list (DragEventData Element))
    st view block sch :
  dragHandler st = [(DragStart, cb_onDragStart)] →
  checkExpectCondition st (target data1) = Some view →
  closest (target data1) (classname ".time-date-schedule-block") = Some block →
  (clientY (originEvent data1) <=? topThreshold (getBoundingClientRect block))%float = true →
  schedules_items st !! getData block "id" = Some sch →
  valid_schedule (dates st) sch →
  let r := gesture ((DragStart, data1) :: ((λ d, (Drag, d)) <$> moves) ++ [(DragEnd, data2)]) st in
  dragHandler r.1 = [(DragStart, cb_onDragStart)] ∧
  _getScheduleDataFunc r.1 = None ∧ _dragStart r.1 = None ∧
  ev_name <$> r.2 =
    "timeResizeDragstart" :: replicate (length moves) "timeResizeDragTop"
      ++ ["beforeUpdateSchedule"; "timeResizeDragend"] ∧
  ∃ e u,
    requests r.2 = [e] ∧ ev_data e = update u ∧ bu_schedule u = sch ∧ start_only u ∧
    valueOf (ev_dates e) (bu_end u) = valueOf (dates st) (getEnds sch) ∧
    valueOf (ev_dates e) (bu_start u) =
      clampedStart (valueOf (dates st) (getStarts sch)) (valueOf (dates st) (getEnds sch))
        (g_nearestGridTimeY (gridPoint view (originEvent data2))
         - g_nearestGridTimeY (gridPoint view (originEvent data1)))
        (getDate view).
Proof.
  intros Htbl Hview Hblock Hedge Hsch [Hvs Hve] r. subst r.
  pose proof (_onDragStart_pressed data1 st view block Hview Hblock) as Hstart.
  cbn [gesture].
  rewrite (dispatch_one DragStart data1 st cb_onDragStart);
    [|by rewrite Htbl|by cbn [invoke]; rewrite Hstart|].
  2:{ cbn [invoke]. rewrite Hstart. cbn [final fst snd pressed dragHandler].
      rewrite Htbl. unfold listeners_for. rewrite Hedge. vm_compute. lia. }
  cbn [invoke]. rewrite Hstart. cbn [final fired fst snd].
  set (ds := mapped view (originEvent data1) (dates st) (getData block "id")
               (schedules_items st !! getData block "id")).
  set (st1 := pressed view block data1 st).
  rewrite gesture_app.
  destruct (drags_top view ds (schedules_items st)
              (mapped_dates view (originEvent data1) (dates st)) moves st1)
    as ((Ht & Hv & Hd & Hi & Hp) & Hnames & Hlen).
  { unfold st1, pressed, listeners_for. rewrite Hedge, Htbl. by repeat split. }
  set (rd := gesture ((λ d, (Drag, d)) <$> moves) st1) in *.
  set (st2 := rd.1) in *.
  assert (dates st `prefix_of` dates st2) as Hp0.
  { etrans; [|done]. by apply prefix_app_r. }
  assert (valid_schedule (dates st2) sch) as Hvalid2.
  { destruct Hp0 as [l ->]. split; rewrite length_app; lia. }
  assert (schedules_items st2 !! targetModelID ds = Some sch) as Hs2 by (by rewrite Hi).
  destruct (_onDragEndTop_emits data2 st2 view ds sch Hv Hd Hs2 Hvalid2)
    as (e & u & d & Hout & Hn & Hu & Hbs & Honly & Hend' & Hstart').
  destruct (_onDragEndTop_session data2 st2 view ds Hv Hd)
    as (Hc & Htbl' & Hv' & Hd' & _).
  cbn [gesture].
  rewrite (dispatch_one DragEnd data2 st2 cb_onDragEndTop); [|by rewrite Ht|done|].
  2:{ cbn [invoke]. rewrite Htbl', Ht. vm_compute. lia. }
  cbn [invoke final fired fst snd]. rewrite Htbl', Ht, Hout, app_nil_r.
  split; [done|]. split; [done|]. split; [done|].
  split.
  { rewrite !fmap_app, (names_replicate _ _ Hnames), Hlen.
    cbn. by rewrite Hn. }
  exists e, u. split.
  { rewrite !requests_app, (requests_none rd.2 "timeResizeDragTop" ltac:(done) Hnames).
    rewrite requests_drag_end by done. reflexivity. }
  repeat (split; [done|]).
  destruct Hp0 as [l Hl].
  split.
  { rewrite Hend', Hl. by apply valueOf_app_l. }
  rewrite Hstart', dragged_valid.
  2:{ destruct Hp as [l' ->]. unfold ds, mapped, mapped_dates.
      cbn [nearestGridTimeY]. rewrite !length_app. cbn. lia. }
  rewrite Hl, !valueOf_app_l by done. f_equal.
  destruct Hp as [l' Hl']. rewrite <- Hl, Hl'. unfold ds, mapped, mapped_dates.
  cbn [nearestGridTimeY]. rewrite <- app_assoc. rewrite valueOf_app_r. done.
Qed.

(** The three clamps of the end edge, and the three of the start edge,
    in one formula each. *)
Lemma clampedEnd_closed s e td base :
  s + MIN_DURATION ≤ base + datetime.MILLISECONDS_PER_DAY →
  clampedEnd s e td base = Z.max (Z.min (e + td) (datetime.end_ base)) (s + MIN_DURATION).
Proof.
  pose proof (datetime_end_same_day base) as Hday. revert Hday.
  unfold clampedEnd, MIN_DURATION, datetime.MILLISECONDS_PER_DAY, datetime.millisecondsFrom.
  cbv zeta. intros. repeat case_match; bools; lia.
Qed.

Lemma clampedStart_closed s e td base :
  clampedStart s e td base = Z.max (Z.min (s + td) (e - MIN_DURATION)) base.
Proof.
  unfold clampedStart, MIN_DURATION, datetime.millisecondsFrom.
  cbv zeta. repeat case_match; bools; lia.
Qed.

Lemma clampedEnd_mono s e td td' base :
  td ≤ td' → clampedEnd s e td base ≤ clampedEnd s e td' base.
Proof.
  pose proof (datetime_end_same_day base) as Hday. revert Hday.
  unfold clampedEnd, MIN_DURATION, datetime.MILLISECONDS_PER_DAY, datetime.millisecondsFrom.
  cbv zeta. intros. repeat case_match; bools; lia.
Qed.

Lemma clampedStart_mono s e td td' base :
  td ≤ td' → clampedStart s e td base ≤ clampedStart s e td' base.
Proof. intros. rewrite !clampedStart_closed. lia. Qed.

(** X4. End edge, in closed form: when the schedule starts at least 30
    minutes before the midnight that closes the column's day, the new end
    is the schedule's end moved by the dragged difference, lowered to
    [datetime.end] of the column's date if it is later, and raised to the
    start plus 30 minutes if it is earlier. *)
Theorem end_drag_closed_form (data : DragEventData Element) st view ds sch :
  _getScheduleDataFunc st = Some view →
  _dragStart st = Some ds →
  schedules_items st !! targetModelID ds = Some sch →
  valid_schedule (dates st) sch →
  (nearestGridTimeY ds < length (dates st))%nat →
  valueOf (dates st) (getStarts sch) + MIN_DURATION
    ≤ getDate view + datetime.MILLISECONDS_PER_DAY →
  ∃ e u,
    requests (fired (_onDragEnd data st)) = [e] ∧ ev_data e = update u ∧
    bu_schedule u = sch ∧
    valueOf (ev_dates e) (bu_end u) =
      Z.max (Z.min (valueOf (dates st) (getEnds sch)
                    + (g_nearestGridTimeY (gridPoint view (originEvent data))
                       - valueOf (dates st) (nearestGridTimeY ds)))
                   (datetime.end_ (getDate view)))
            (valueOf (dates st) (getStarts sch) + MIN_DURATION).
Proof.
  intros Hv Hd Hs Hvalid Hn Hroom.
  destruct (end_drag_request data st view ds sch Hv Hd Hs Hvalid)
    as (e & u & Hreq & Hu & Hsch & _ & _ & Hend).
  exists e, u. repeat (split; [done|]).
  by rewrite Hend, dragged_valid, clampedEnd_closed.
Qed.

(** X5. Start edge, in closed form: the new start is the schedule's start
    moved by the dragged difference, lowered to the end minus 30 minutes if
    it is later, and then raised to the column's date if it is earlier. *)
Theorem start_drag_closed_form (data : DragEventData Element) st view ds sch :
  _getScheduleDataFunc st = Some view →
  _dragStart st = Some ds →
  schedules_items st !! targetModelID ds = Some sch →
  valid_schedule (dates st) sch →
  (nearestGridTimeY ds < length (dates st))%nat →
  ∃ e u,
    requests (fired (_onDragEndTop data st)) = [e] ∧ ev_data e = update u ∧
    bu_schedule u = sch ∧
    valueOf (ev_dates e) (bu_start u) =
      Z.max (Z.min (valueOf (dates st) (getStarts sch)
                    + (g_nearestGridTimeY (gridPoint view (originEvent data))
                       - valueOf (dates st) (nearestGridTimeY ds)))
                   (valueOf (dates st) (getEnds sch) - MIN_DURATION))
            (getDate view).
Proof.
  intros Hv Hd Hs Hvalid Hn.
  destruct (start_drag_request data st view ds sch Hv Hd Hs Hvalid)
    as (e & u & Hreq & Hu & Hsch & _ & _ & Hstart).
  exists e, u. repeat (split; [done|]).
  by rewrite Hstart, dragged_valid, clampedStart_closed.
Qed.

(** X6. End edge: of two releases in the same session, the one whose
    nearest grid time is later never asks for an earlier end. *)
Theorem end_drag_monotone (data data' : DragEventData Element) st view ds sch :
  _getScheduleDataFunc st = Some view →
  _dragStart st = Some ds →
  schedules_items st !! targetModelID ds = Some sch →
  valid_schedule (dates st) sch →
  (nearestGridTimeY ds < length (dates st))%nat →
  g_nearestGridTimeY (gridPoint view (originEvent data))
    ≤ g_nearestGridTimeY (gridPoint view (originEvent data')) →
  ∃ e u e' u',
    requests (fired (_onDragEnd data st)) = [e] ∧ ev_data e = update u ∧
    requests (fired (_onDragEnd data' st)) = [e'] ∧ ev_data e' = update u' ∧
    valueOf (ev_dates e) (bu_end u) ≤ valueOf (ev_dates e') (bu_end u').
Proof.
  intros Hv Hd Hs Hvalid Hn Hle.
  destruct (end_drag_request data st view ds sch Hv Hd Hs Hvalid)
    as (e & u & Hreq & Hu & _ & _ & _ & Hend).
  destruct (end_drag_request data' st view ds sch Hv Hd Hs Hvalid)
    as (e' & u' & Hreq' & Hu' & _ & _ & _ & Hend').
  exists e, u, e', u'. repeat (split; [done|]).
  rewrite Hend, Hend', !dragged_valid by done. apply clampedEnd_mono. lia.
Qed.

(** X7. Start edge: of two releases in the same session, the one whose
    nearest grid time is later never asks for an earlier start. *)
Theorem start_drag_monotone (data data' : DragEventData Element) st view ds sch :
  _getScheduleDataFunc st = Some view →
  _dragStart st = Some ds →
  schedules_items st !! targetModelID ds = Some sch →
  valid_schedule (dates st) sch →
  (nearestGridTimeY ds < length (dates st))%nat →
  g_nearestGridTimeY (gridPoint view (originEvent data))
    ≤ g_nearestGridTimeY (gridPoint view (originEvent data')) →
  ∃ e u e' u',
    requests (fired (_onDragEndTop data st)) = [e] ∧ ev_data e = update u ∧
    requests (fired (_onDragEndTop data' st)) = [e'] ∧ ev_data e' = update u' ∧
    valueOf (ev_dates e) (bu_start u) ≤ valueOf (ev_dates e') (bu_start u').
Proof.
  intros Hv Hd Hs Hvalid Hn Hle.
  destruct (start_drag_request data st view ds sch Hv Hd Hs Hvalid)
    as (e & u & Hreq & Hu & _ & _ & _ & Hstart).
  destruct (start_drag_request data' st view ds sch Hv Hd Hs Hvalid)
    as (e' & u' & Hreq' & Hu' & _ & _ & _ & Hstart').
  exists e, u, e', u'. repeat (split; [done|]).
  rewrite Hstart, Hstart', !dragged_valid by done. apply clampedStart_mono. lia.
Qed.

(** X8. The data of [timeResizeDragend], for either edge: it is the last
    event, for the session's column and model id; its [nearestRange] ends
    in the very date object that is its [nearestGridTimeY], which therefore
    reads 30 minutes later than the mapper's nearest grid time; its [range]
    ends in an object of its own, 30 minutes after [timeY], and [timeY]
    reads what the mapper gave. *)
Theorem drag_end_event_dates (data : DragEventData Element) st view ds r :
  _getScheduleDataFunc st = Some view →
  _dragStart st = Some ds →
  r = _onDragEnd data st ∨ r = _onDragEndTop data st →
  ∃ e d t,
    last (fired r) = Some e ∧ ev_name e = "timeResizeDragend" ∧
    ev_data e = schedule_data d ∧
    relatedView d = view ∧ targetModelID d = targetModelID ds ∧
    nearestRange d = Some (nearestGridTimeY ds, nearestGridTimeY d) ∧
    valueOf (ev_dates e) (nearestGridTimeY d)
      = g_nearestGridTimeY (gridPoint view (originEvent data)) + 30 * 60000 ∧
    range d = Some (timeY ds, t) ∧ t ≠ timeY d ∧
    valueOf (ev_dates e) (timeY d) = g_timeY (gridPoint view (originEvent data)) ∧
    valueOf (ev_dates e) t = g_timeY (gridPoint view (originEvent data)) + 30 * 60000.
Proof.
  intros Hv Hd [-> | ->].
  - destruct (_onDragEnd_session data st view ds Hv Hd)
      as (_ & _ & _ & _ & _ & pre & e & d & t & Hout & _ & Hn & Hdat & Hdates & Hrv & Hid
          & Hnr & Hr & Hne & Ht & Hrt & Hnt).
    exists e, d, t. rewrite Hout, last_snoc, Hdates. by repeat split.
  - destruct (_onDragEndTop_session data st view ds Hv Hd)
      as (_ & _ & _ & _ & _ & pre & e & d & t & Hout & _ & Hn & Hdat & Hdates & Hrv & Hid
          & Hnr & Hr & Hne & Ht & Hrt & Hnt).
    exists e, d, t. rewrite Hout, last_snoc, Hdates. by repeat split.
Qed.

(** X9. The date objects of a change request. At the end edge [start] is
    the schedule's own start object and [end] is an object the handler
    made: it did not exist before the call and exists when the event is
    fired. At the start edge it is the other way round. *)
Theorem time_request_dates (data : DragEventData Element) st e u :
  ev_data e = update u →
  (e ∈ fired (_onDragEnd data st) →
     bu_start u = getStarts (bu_schedule u) ∧
     (length (dates st) ≤ bu_end u < length (ev_dates e))%nat) ∧
  (e ∈ fired (_onDragEndTop data st) →
     bu_end u = getEnds (bu_schedule u) ∧
     (length (dates st) ≤ bu_start u < length (ev_dates e))%nat).
Proof.
  intros Hu. split; intros He.
  - destruct (_onDragEnd_fresh data st) as [Hr _]. by apply Hr.
  - destruct (_onDragEndTop_fresh data st) as [Hr _]. by apply Hr.
Qed.

(** X10. Without a session (either field [null]) the two drag listeners do
    nothing at all, and the two drag end listeners only unsubscribe their
    set: no event is fired. *)
Theorem handlers_without_session (data : DragEventData Element) st :
  _getScheduleDataFunc st = None ∨ _dragStart st = None →
  _onDrag data None None st = (Normal tt, st, []) ∧
  _onDragTop data None None st = (Normal tt, st, []) ∧
  _onDragEnd data st = (Normal tt, set_dragHandler (off bottom_listeners) st, []) ∧
  _onDragEndTop data st = (Normal tt, set_dragHandler (off top_listeners) st, []).
Proof.
  intros Hn. destruct (_onDrag_idle data st Hn), (_onDragEnd_idle data st Hn). by repeat split.
Qed.

Lemma set_dragHandler_id f st : f (dragHandler st) = dragHandler st → set_dragHandler f st = st.
Proof. destruct st. unfold set_dragHandler. cbn. by intros ->. Qed.

(** X11. A drag end is idempotent: run again on the state it left, on any
    state and for any pointers, it fires nothing and changes nothing. *)
Theorem drag_end_twice (data data' : DragEventData Element) st :
  _onDragEnd data' (final (_onDragEnd data st)) = (Normal tt, final (_onDragEnd data st), []) ∧
  _onDragEndTop data' (final (_onDragEndTop data st))
    = (Normal tt, final (_onDragEndTop data st), []).
Proof.
  destruct (_getScheduleDataFunc st) as [view|] eqn:Hv;
    [destruct (_dragStart st) as [ds|] eqn:Hd|].
  - destruct (_onDragEnd_session data st view ds Hv Hd) as (_ & Ht & Hv' & _).
    destruct (_onDragEndTop_session data st view ds Hv Hd) as (_ & Ht' & Hv'' & _).
    split.
    + destruct (_onDragEnd_idle data' (final (_onDragEnd data st))) as [-> _]; [by left|].
      rewrite set_dragHandler_id; [done|]. by rewrite Ht, off_off.
    + destruct (_onDragEnd_idle data' (final (_onDragEndTop data st))) as [_ ->]; [by left|].
      rewrite set_dragHandler_id; [done|]. by rewrite Ht', off_off.
  - destruct (_onDragEnd_idle data st) as [-> ->]; [by right|]. cbn [final fst snd].
    destruct (_onDragEnd_idle data' (set_dragHandler (off bottom_listeners) st)) as [-> _];
      [by right|].
    destruct (_onDragEnd_idle data' (set_dragHandler (off top_listeners) st)) as [_ ->];
      [by right|].
    split; (rewrite set_dragHandler_id; [done|]); cbn [dragHandler set_dragHandler];
      apply off_off.
  - destruct (_onDragEnd_idle data st) as [-> ->]; [by left|]. cbn [final fst snd].
    destruct (_onDragEnd_idle data' (set_dragHandler (off bottom_listeners) st)) as [-> _];
      [by left|].
    destruct (_onDragEnd_idle data' (set_dragHandler (off top_listeners) st)) as [_ ->];
      [by left|].
    split; (rewrite set_dragHandler_id; [done|]); cbn [dragHandler set_dragHandler];
      apply off_off.
Qed.

(** *** The states between drag handler events *)

Lemma entries_listeners presses :
  listenersOf DragStart (concat (entries <$> presses)) = [] ∧
  listenersOf Drag (concat (entries <$> presses)) = (λ b, drag_of b.1) <$> presses ∧
  listenersOf DragEnd (concat (entries <$> presses)) = (λ b, dragEnd_of b.1) <$> presses ∧
  listenersOf Click (concat (entries <$> presses))
    = (λ _, cb_onClick) <$> filter (λ b, b.2 = true) presses.
Proof.
  induction presses as [|[e f] ps (IH1 & IH2 & IH3 & IH4)]; [done|].
  cbn [fmap list_fmap concat]. rewrite !listenersOf_app, IH1, IH2, IH3, IH4.
  rewrite filter_cons. destruct e, f; case_decide; done.
Qed.

Lemma off_keeps_start l tbl :
  off (unsubscribes l) ((DragStart, cb_onDragStart) :: tbl)
    = (DragStart, cb_onDragStart) :: off (unsubscribes l) tbl.
Proof.
  unfold off. rewrite filter_cons_True; [done|].
  destruct l; cbn [unsubscribes]; apply (bool_decide_unpack _); vm_compute; exact I.
Qed.

Lemma off_entries e presses :
  off (unsubscribes (dragEnd_of e)) (concat (entries <$> presses))
    = concat (entries <$> released e presses).
Proof.
  induction presses as [|[e' f] ps IH]; [done|].
  cbn [fmap list_fmap concat]. unfold off in *. rewrite filter_app, IH.
  unfold released. rewrite filter_cons.
  destruct e, e', f; case_decide; try done; by exfalso; auto.
Qed.

Lemma off_entries_click presses :
  off (unsubscribes cb_onClick) (concat (entries <$> presses)) = [].
Proof.
  apply off_all. intros x (l & (b & -> & _)%list_elem_of_fmap & Hx)%elem_of_concat.
  destruct b as [[] []]; cbn in Hx;
    repeat (apply elem_of_cons in Hx as [->|Hx]); try (by apply elem_of_nil in Hx);
    apply (bool_decide_unpack _); vm_compute; exact I.
Qed.

Lemma released_other e presses :
  released e presses = replicate (length (released e presses)) (other e, false).
Proof.
  unfold released. induction presses as [|[e' f] ps IH]; [done|].
  rewrite filter_cons. case_decide as He; cbn [fst] in He; [|done].
  cbn [fmap list_fmap length replicate fst]. rewrite <- IH. f_equal. f_equal.
  by destruct e, e'.
Qed.

Lemma released_replicate e k : released e (replicate k (e, false)) = [].
Proof.
  unfold released. induction k as [|k IH]; [done|]. cbn [replicate].
  rewrite filter_cons. case_decide as He; [by cbn in He|done].
Qed.

Lemma released_length e presses : (length (released e presses) ≤ length presses)%nat.
Proof. unfold released. rewrite length_fmap. apply length_filter. Qed.

Lemma table_listeners presses st ev :
  subscribed presses st →
  listenersOf ev (dragHandler st) =
    match ev with
    | DragStart => [cb_onDragStart]
    | Drag => (λ b, drag_of b.1) <$> presses
    | DragEnd => (λ b, dragEnd_of b.1) <$> presses
    | Click => (λ _, cb_onClick) <$> filter (λ b, b.2 = true) presses
    end.
Proof.
  intros ->. destruct (entries_listeners presses) as (H1 & H2 & H3 & H4).
  change ((DragStart, cb_onDragStart) :: concat (entries <$> presses))
    with ([(DragStart, cb_onDragStart)] ++ concat (entries <$> presses)).
  rewrite listenersOf_app. by destruct ev; rewrite ?H1, ?H2, ?H3, ?H4.
Qed.

(** The bound on the calls goes down with every call. *)
Lemma invoke_bound l (data : DragEventData Element) st index ev :
  listenersOf ev (dragHandler st) !! index = Some l →
  (calls_of cb_onDragStart
     (drop (S index) (listenersOf ev (dragHandler (final (invoke l data st)))))
   < calls_of cb_onDragStart (drop index (listenersOf ev (dragHandler st))))%nat.
Proof.
  intros Hl. destruct (decide (l = cb_onDragStart)) as [->|Hne].
  - cbn [invoke].
    destruct (checkExpectCondition st (target data)) as [view|] eqn:Hview;
      [destruct (closest (target data) (classname ".time-date-schedule-block"))
         as [block|] eqn:Hblock|].
    + rewrite (_onDragStart_pressed data st view block Hview Hblock).
      cbn [final fst snd pressed dragHandler].
      apply (calls_of_on cb_onDragStart ev (listeners_for block data)); [done|].
      unfold listeners_for. case_match; destruct ev; vm_compute; lia.
    + rewrite (_onDragStart_rejected data st) by (by right). cbn [final fst snd].
      rewrite (drop_S _ _ _ Hl), calls_of_cons, decide_True by done. lia.
    + rewrite (_onDragStart_rejected data st) by (by left). cbn [final fst snd].
      rewrite (drop_S _ _ _ Hl), calls_of_cons, decide_True by done. lia.
  - destruct (invoke_effect l data st Hne) as (_ & -> & _). by eapply calls_of_off.
Qed.

(** The calls that [dispatch] allows are enough: with more, the walk goes
    the same. *)
Lemma dispatch_enough ev (data : DragEventData Element) st k :
  dispatch ev data st =
    walk (λ st, listenersOf ev (dragHandler st)) (λ l, invoke l data)
      (calls_of cb_onDragStart (listenersOf ev (dragHandler st)) + k) 0 st.
Proof.
  rewrite (walk_enough _ _
             (λ index st, calls_of cb_onDragStart (drop index (listenersOf ev (dragHandler st))))).
  - unfold dispatch, mbind, M_bind, bind, gets. by destruct (walk _ _ _ _ st) as [[c s] out].
  - intros index s l Hl. by apply invoke_bound.
  - done.
Qed.

Lemma wp_dispatch ev (data : DragEventData Element) st Q :
  (∀ fuel, wp (walk (λ st, listenersOf ev (dragHandler st)) (λ l, invoke l data)
                 (S (S fuel)) 0) st Q) →
  wp (dispatch ev data) st Q.
Proof.
  intros HQ. unfold wp. rewrite (dispatch_enough ev data st 2), Nat.add_comm. apply HQ.
Qed.

Lemma session_ok_step st st' l :
  session_ok st → children_items st' = children_items st →
  session_kept st st' ∨ ((l = cb_onDragEnd ∨ l = cb_onDragEndTop) ∧ session_cleared st') →
  session_ok st'.
Proof.
  unfold session_ok, session_kept, session_cleared.
  intros [Hb Hc] Hch [[-> ->] | [_ [-> ->]]]; rewrite ?Hch; by split.
Qed.

Lemma start_not_dragEnd e : dragEnd_of e ≠ cb_onDragStart.
Proof. by destruct e. Qed.

Lemma not_full (presses : list (Edge * bool)) st :
  (∀ b, b ∈ presses → b.2 = false) → clicks_have_session presses st.
Proof. intros Hall [e He]. by apply Hall in He. Qed.

(** One drag handler event, from a state between events to the next. *)
Lemma dispatch_presses ev (data : DragEventData Element) st presses :
  subscribed presses st → clicks_have_session presses st → session_ok st →
  wp (dispatch ev data) st (λ c st' _,
    c = Normal tt ∧ children_items st' = children_items st ∧
    ∃ presses', subscribed presses' st' ∧ clicks_have_session presses' st' ∧
      session_ok st' ∧ settled ev presses presses').
Proof.
  intros Htbl Hfull Hok. apply wp_dispatch. intros fuel.
  pose proof (table_listeners presses st) as Hls.
  destruct ev.
  - (* drag start *)
    eapply wp_walk_step; [by rewrite (Hls DragStart)|]. apply wp_bind. cbn [invoke].
    destruct (checkExpectCondition st (target data)) as [view|] eqn:Hview;
      [destruct (closest (target data) (classname ".time-date-schedule-block"))
         as [block|] eqn:Hblock|].
    + eapply wp_eq; [by apply _onDragStart_pressed|].
      set (b := (if (clientY (originEvent data)
                       <=? topThreshold (getBoundingClientRect block))%float
                 then upper else lower, true)).
      assert (subscribed (presses ++ [b]) (pressed view block data st)) as Htbl'.
      { unfold subscribed. cbn [dragHandler pressed]. rewrite Htbl, fmap_app, concat_app.
        cbn [fmap list_fmap concat app]. f_equal. f_equal. rewrite app_nil_r.
        unfold listeners_for, b. by case_match. }
      apply wp_walk_end; [by rewrite (table_listeners _ _ DragStart Htbl')|].
      split; [done|]. split; [done|]. exists (presses ++ [b]).
      split; [done|]. split; [by intros _; cbn; split|]. split; [|done].
      split; [done|]. intros v [= <-]. cbn [children_items pressed].
      by eapply checkExpectCondition_child.
    + eapply wp_eq; [by apply _onDragStart_rejected; right|].
      apply wp_walk_end; [by rewrite (Hls DragStart)|]. split; [done|]. split; [done|].
      by exists presses.
    + eapply wp_eq; [by apply _onDragStart_rejected; left|].
      apply wp_walk_end; [by rewrite (Hls DragStart)|]. split; [done|]. split; [done|].
      by exists presses.
  - (* drag *)
    eapply wp_mono;
      [|apply (wp_walk_inv _ _ (λ s, dragHandler s = dragHandler st)
                 (λ s c s' _, c = Normal tt ∧ dragHandler s' = dragHandler s ∧
                              children_items s' = children_items s ∧ session_kept s s'))].
    + intros c s' _ (-> & Ht & Hc & Hk). split; [done|]. split; [done|].
      exists presses. split; [by unfold subscribed; rewrite Ht|].
      destruct Hk as [Hk1 Hk2].
      split; [by unfold clicks_have_session; rewrite Hk1, Hk2|]. split; [|done].
      unfold session_ok. by rewrite Hk1, Hk2, Hc.
    + by intros s.
    + intros s s1 c s2 _ _ (_ & Ht1 & Hc1 & Hk1 & Hk1') (-> & Ht2 & Hc2 & Hk2 & Hk2').
      split; [done|]. split; [congruence|]. split; [congruence|]. split; congruence.
    + intros l s index Hs Hl.
      assert (∃ e, l = drag_of e) as [e ->].
      { rewrite Hs, (Hls Drag Htbl) in Hl.
        rewrite list_lookup_fmap in Hl. destruct (presses !! index) as [b|]; [|done].
        injection Hl as <-. by eexists. }
      eapply wp_mono; [|apply invoke_effect; by destruct e].
      intros c s' _ (-> & Ht & Hc & Hk).
      assert (dragHandler s' = dragHandler s) as Ht'.
      { rewrite Ht. destruct e; apply off_nil. }
      split; [|by intros _; rewrite Ht'].
      split; [done|]. split; [done|]. split; [done|].
      destruct Hk as [Hk | [[He|He] _]]; [done|by destruct e..].
    + done.
  - (* drag end *)
    destruct presses as [|[e0 f0] ps].
    { apply wp_walk_end; [by rewrite (Hls DragEnd)|]. split; [done|]. split; [done|].
      exists []. split; [done|]. split; [done|]. split; [done|].
      split; [cbn; lia|]. split; [by intros b ?%elem_of_nil|done]. }
    eapply wp_walk_step; [by rewrite (Hls DragEnd)|]. apply wp_bind.
    eapply wp_mono; [|apply invoke_effect, start_not_dragEnd].
    intros c s1 _ (-> & Ht1 & Hc1 & Hs1).
    assert (subscribed (released e0 ps) s1) as Htbl1.
    { unfold subscribed. rewrite Ht1, Htbl, off_keeps_start, off_entries. f_equal.
      unfold released. rewrite filter_cons_False; [done|]. by intros []. }
    pose proof (session_ok_step st s1 _ Hok Hc1 Hs1) as Hok1.
    pose proof (released_other e0 ps) as Hrel.
    pose proof (released_length e0 ps) as Hlen.
    destruct (length (released e0 ps)) as [|[|m]] eqn:Hm.
    1,2: apply wp_walk_end;
      [by rewrite (table_listeners _ _ DragEnd Htbl1), Hrel|];
      split; [done|]; split; [done|]; exists (released e0 ps);
      split; [done|]; rewrite Hrel in *;
      split; [by apply not_full; intros b; cbn;
                 repeat (intros [->|Hb]%elem_of_cons; [done|revert Hb]);
                 intros ?%elem_of_nil|];
      split; [done|]; split; [cbn; lia|];
      split; [by intros b; cbn;
                 repeat (intros [->|Hb]%elem_of_cons; [done|revert Hb]);
                 intros ?%elem_of_nil|];
      cbn [length] in *; intros; try done; lia.
    eapply wp_walk_step; [by rewrite (table_listeners _ _ DragEnd Htbl1), Hrel|].
    apply wp_bind. eapply wp_mono; [|apply invoke_effect, start_not_dragEnd].
    intros c s2 _ (-> & Ht2 & Hc2 & Hs2).
    assert (subscribed [] s2) as Htbl2.
    { unfold subscribed. rewrite Ht2, Htbl1, off_keeps_start, off_entries, Hrel.
      by rewrite released_replicate. }
    pose proof (session_ok_step s1 s2 _ Hok1 Hc2 Hs2) as Hok2.
    apply wp_walk_end; [by rewrite (table_listeners _ _ DragEnd Htbl2)|].
    split; [done|]. split; [congruence|]. exists [].
    split; [done|]. split; [by intros [e He%elem_of_nil]|]. split; [done|].
    split; [cbn; lia|]. split; [by intros b ?%elem_of_nil|]. done.
  - (* click *)
    pose proof (Hls Click Htbl) as Hcl. cbv beta iota in Hcl.
    match type of Hcl with _ = _ <$> ?f => destruct f as [|b0 bs] eqn:Hf end.
    { apply wp_walk_end; [by rewrite Hcl|]. split; [done|]. split; [done|].
      exists presses. repeat (split; [done|]). intros [e He].
      assert ((e, true) ∈ @nil (Edge * bool)) as Hin; [|by apply elem_of_nil in Hin].
      rewrite <- Hf. by apply list_elem_of_filter. }
    eapply wp_walk_step; [by rewrite Hcl|]. apply wp_bind.
    eapply wp_mono; [|by apply invoke_effect].
    intros c s1 _ (-> & Ht1 & Hc1 & Hs1).
    assert (subscribed [] s1) as Htbl1.
    { unfold subscribed. by rewrite Ht1, Htbl, off_keeps_start, off_entries_click. }
    pose proof (session_ok_step st s1 _ Hok Hc1 Hs1) as Hok1.
    apply wp_walk_end; [by rewrite (table_listeners _ _ Click Htbl1)|].
    split; [done|]. split; [done|]. exists [].
    split; [done|]. split; [by intros [e He%elem_of_nil]|]. by split.
Qed.

Lemma dispatch_consistent ev (data : DragEventData Element) st :
  consistent st →
  consistent (final (dispatch ev data st)) ∧
  children_items (final (dispatch ev data st)) = children_items st.
Proof.
  intros (presses & Htbl & Hfull & Hok).
  destruct (dispatch_presses ev data st presses Htbl Hfull Hok)
    as (_ & Hc & presses' & ? & ? & ? & _).
  split; [by exists presses'|done].
Qed.

Lemma gesture_consistent (evs : list (DragEvent * DragEventData Element)) st :
  consistent st →
  consistent (gesture evs st).1 ∧ children_items (gesture evs st).1 = children_items st.
Proof.
  revert st. induction evs as [|[ev data] evs IH]; intros st Hst; cbn [gesture fst snd]; [done|].
  destruct (dispatch_consistent ev data st Hst) as (Hst' & Hc).
  destruct (IH _ Hst') as [? Hc']. split; [done|]. by rewrite Hc'.
Qed.

Lemma init_consistent items children h : consistent (init items children h).
Proof.
  exists []. split; [done|]. split; [by intros [e He%elem_of_nil]|]. by split.
Qed.

(** X12. After any sequence of drag handler events on a freshly
    constructed instance: the table holds the drag start listener first
    and then members of the two listener sets only; the drag start
    listener is subscribed once; the drag end listeners are those that
    were subscribed with the drag listeners, in the same order; whenever a
    click listener is subscribed there is a session; the two session
    fields are [null] together; and the session's column is one of the
    time grid's. Drag and drag end listeners can be subscribed without a
    session: the table walks the live array, so a drag end listener that
    unsubscribes makes the walk skip the listener after it. *)
Theorem subscriptions_have_session items children h
    (evs : list (DragEvent * DragEventData Element)) :
  let st := (gesture evs (init items children h)).1 in
  (∃ rest, dragHandler st = (DragStart, cb_onDragStart) :: rest ∧
     ∀ entry, entry ∈ rest → entry ∈ top_listeners ∨ entry ∈ bottom_listeners) ∧
  listenersOf DragStart (dragHandler st) = [cb_onDragStart] ∧
  listenersOf DragEnd (dragHandler st) = partner <$> listenersOf Drag (dragHandler st) ∧
  (listenersOf Click (dragHandler st) ≠ [] →
     is_Some (_getScheduleDataFunc st) ∧ is_Some (_dragStart st)) ∧
  (_getScheduleDataFunc st = None ↔ _dragStart st = None) ∧
  (∀ v, _getScheduleDataFunc st = Some v → ∃ i, children !! i = Some v).
Proof.
  intros st.
  destruct (gesture_consistent evs (init items children h) (init_consistent _ _ _))
    as ((presses & Htbl & Hfull & Hcoup & Hcol) & Hc).
  fold st in Htbl, Hfull, Hcoup, Hcol, Hc. cbn [children_items init] in Hc.
  pose proof (table_listeners presses st) as Hls.
  split; [|split; [|split; [|split; [|split]]]].
  - eexists. split; [exact Htbl|].
    intros entry (l & (b & -> & _)%list_elem_of_fmap & Hin)%elem_of_concat.
    destruct b as [[] []]; cbn in Hin;
      repeat (apply elem_of_cons in Hin as [->|Hin]); try (by apply elem_of_nil in Hin);
      first [ left; apply (bool_decide_unpack _); vm_compute; exact I
            | right; apply (bool_decide_unpack _); vm_compute; exact I ].
  - by rewrite (Hls DragStart).
  - rewrite (Hls DragEnd), (Hls Drag) by done. rewrite <- list_fmap_compose.
    apply list_fmap_ext. by intros _ [[] ?] _.
  - intros Hclick. apply Hfull. rewrite (Hls Click) in Hclick by done.
    match type of Hclick with _ <$> ?f ≠ _ => destruct f as [|[e f0] bs] eqn:Hf end; [done|].
    assert ((e, f0) ∈ (e, f0) :: bs) as Hin by (by left).
    rewrite <- Hf in Hin. apply list_elem_of_filter in Hin as [Hfl Hin]. cbn in Hfl. subst f0.
    by exists e.
  - done.
  - intros v Hv. rewrite <- Hc. by apply Hcol.
Qed.

(** X13. Whatever events came before on the freshly constructed instance:
    a drag end leaves the constructor's table, the drag start listener and
    nothing else, or besides the drag start listener one drag listener and
    the drag end listener of the same edge, and no click listener (presses
    for both edges were under way; the walk skipped a listener); a second
    drag end right after it leaves the constructor's table; and so does a
    click that finds a click listener. *)
Theorem listeners_restored items children h
    (evs : list (DragEvent * DragEventData Element)) data data' :
  let st := (gesture evs (init items children h)).1 in
  let st1 := final (dispatch DragEnd data st) in
  leftover (dragHandler st1) ∧
  dragHandler (final (dispatch DragEnd data' st1)) = [(DragStart, cb_onDragStart)] ∧
  (listenersOf Click (dragHandler st) ≠ [] →
     dragHandler (final (dispatch Click data st)) = [(DragStart, cb_onDragStart)]).
Proof.
  intros st st1.
  destruct (gesture_consistent evs (init items children h) (init_consistent _ _ _))
    as ((presses & Htbl & Hfull & Hok) & _).
  fold st in Htbl, Hfull, Hok.
  destruct (dispatch_presses DragEnd data st presses Htbl Hfull Hok)
    as (_ & _ & presses1 & Htbl1 & Hfull1 & Hok1 & Hlen1 & Hflags & _).
  fold st1 in Htbl1, Hfull1, Hok1.
  destruct (dispatch_presses DragEnd data' st1 presses1 Htbl1 Hfull1 Hok1)
    as (_ & _ & presses2 & Htbl2 & _ & _ & _ & _ & Hnone).
  split; [|split].
  - unfold leftover. rewrite Htbl1.
    destruct presses1 as [|[e f] [|? ?]]; [by left| |by cbn in Hlen1; lia].
    right. exists e. pose proof (Hflags (e, f) ltac:(by left)) as Hf. cbn in Hf. subst f.
    by destruct e.
  - rewrite Htbl2, (Hnone Hlen1). done.
  - intros Hclick.
    destruct (dispatch_presses Click data st presses Htbl Hfull Hok)
      as (_ & _ & presses' & Htbl' & _ & _ & Hnone').
    rewrite Htbl', Hnone'; [done|].
    rewrite (table_listeners presses st Click Htbl) in Hclick.
    match type of Hclick with _ <$> ?f ≠ _ => destruct f as [|[e f0] bs] eqn:Hf end; [done|].
    assert ((e, f0) ∈ (e, f0) :: bs) as Hin by (by left).
    rewrite <- Hf in Hin. apply list_elem_of_filter in Hin as [Hfl Hin]. cbn in Hfl. subst f0.
    by exists e.
Qed.

(** X14. The two update functions called on their own. Data without a
    [nearestRange] makes them throw a [TypeError], whether the model id is
    known or not, since the range is read first; data for an unknown model
    id makes them return. Either way nothing is fired and nothing
    changes, not even the date store. *)
Theorem update_direct_calls (d : ScheduleData) st :
  (nearestRange d = None →
     (∃ msg, _updateSchedule d st = (Throw (TypeError msg), st, [])) ∧
     (∃ msg, _updateScheduleTop d st = (Throw (TypeError msg), st, []))) ∧
  (is_Some (nearestRange d) → schedules_items st !! targetModelID d = None →
     _updateSchedule d st = (Normal tt, st, []) ∧
     _updateScheduleTop d st = (Normal tt, st, [])).
Proof.
  split.
  - intros Hn. split; eexists; apply wp_exact; run; done.
  - intros [[r0 r1] Hn] Hs. split; apply wp_exact; run; done.
Qed.

End Facts.
End TimeResizeGestures.

(** ** The guide of the month variant *)

Module WeekResizeGuideSpec.
Import WeekResizeGuide.

Section Facts.
Context {Element : Type} `{Host Element}.

Lemma forEach_display els v (st : State (Element := Element)) :
  forEach els (λ el, modify (set_display el v)) st = (Normal tt, painted els v st, []).
Proof.
  revert st. induction els as [|el els IH]; intros st; [done|].
  cbn [forEach painted foldl]. unfold mbind, M_bind, bind, modify.
  fold (painted els v (set_display el v st)). by rewrite IH.
Qed.

Lemma painted_fields els v (st : State (Element := Element)) :
  body_class (painted els v st) = body_class st ∧
  the_WeekResize (painted els v st) = the_WeekResize st ∧
  handlers (painted els v st) = handlers st ∧
  monthView (painted els v st) = monthView st ∧
  elements (painted els v st) = elements st ∧
  guide (painted els v st) = guide st.
Proof.
  revert st. induction els as [|el els IH]; intros st; [done|].
  cbn [painted foldl]. fold (painted els v (set_display el v st)).
  destruct (IH (set_display el v st)) as (-> & -> & -> & -> & -> & ->). done.
Qed.

Lemma painted_display els v (st : State (Element := Element)) e :
  display (painted els v st) e = if decide (e ∈ els) then v else display st e.
Proof.
  revert st. induction els as [|el els IH]; intros st.
  - cbn. by rewrite decide_False by apply not_elem_of_nil.
  - cbn [painted foldl]. fold (painted els v (set_display el v st)). rewrite IH.
    cbn [display set_display].
    destruct (decide (e ∈ els)) as [Hin|Hin].
    + by rewrite decide_True by (by right).
    + destruct (decide (e = el)) as [->|Hne].
      * by rewrite decide_True by (by left).
      * rewrite decide_False; [done|]. by intros [?|?]%elem_of_cons.
Qed.

Lemma wp_forEach_display els v (st : State (Element := Element))
    (Q : Completion unit → State → list Call → Prop) :
  Q (Normal tt) (painted els v st) [] →
  wp (forEach els (λ el, modify (set_display el v))) st Q.
Proof. unfold wp. by rewrite forEach_display. Qed.

Lemma wp_forEach_painted els v (st : State (Element := Element))
    (Q : Completion unit → State → list Call → Prop) :
  (∀ st', handlers st' = handlers st → Q (Normal tt) st' []) →
  wp (forEach els (λ el, modify (set_display el v))) st Q.
Proof.
  intros HQ. apply wp_forEach_display, HQ.
  by destruct (painted_fields els v st) as (_ & _ & -> & _).
Qed.

(** The guide's listeners leave its subscriptions as they are. *)
Lemma guide_invoke_handlers l (data : option (Month.ScheduleData (Element := Element)))
    (st : State (Element := Element)) :
  wp (invoke l data) st (λ _ st' _, handlers st' = handlers st).
Proof.
  destruct l, data as [d|]; cbn [invoke];
    unfold _onDragStart, _hideScheduleBlocks, _onDrag, _onDragEnd, _showScheduleBlocks.
  all: repeat lazymatch goal with
              | |- wp (emit _) _ _ => apply wp_emit
              | |- wp (forEach _ _) _ _ => apply wp_forEach_painted; intros ? ?
              | |- _ => wp_prim
              end.
  all: cbn [handlers set_guide set_elements set_body_class] in *; congruence.
Qed.

Lemma guide_drag_start_eq (ev : WeekResize.ScheduleData (Element := Element))
    (st : State (Element := Element)) view model :
  the_WeekResize st = true →
  monthView st = Some view →
  WeekResize.model ev = Some model →
  let g := {| isResizeMode := true; guide_monthView := Some view |} in
  _onDragStart ev st =
    (Normal tt,
     (if msie then id else set_body_class (λ c, addClass c (classname "resizing-x")))
       (painted (blocks_of view model) "none"
          (set_elements (Some (blocks_of view model)) (set_guide (Some g) st))),
     [guide_start g ev]).
Proof.
  intros Hw Hv Hm g. apply wp_exact.
  unfold _onDragStart, _hideScheduleBlocks. rewrite Hm.
  apply wp_bind, wp_gets. rewrite Hw. cbn [negb].
  apply wp_bind, wp_gets. rewrite Hv.
  apply wp_bind, wp_modify. apply wp_bind, wp_emit.
  apply wp_bind. apply wp_bind, wp_gets. cbn [the_WeekResize set_guide]. rewrite Hw. cbn [negb].
  apply wp_bind, wp_gets. cbn [monthView set_guide]. rewrite Hv.
  apply wp_bind, wp_modify. apply wp_forEach_display.
  destruct msie; cbn [negb]; [apply wp_ret | apply wp_modify]; done.
Qed.

Lemma guide_drag_start_no_model (ev : WeekResize.ScheduleData (Element := Element))
    (st : State (Element := Element)) :
  the_WeekResize st = true →
  WeekResize.model ev = None →
  let g := {| isResizeMode := true; guide_monthView := monthView st |} in
  ∃ msg, _onDragStart ev st = (Throw (TypeError msg), set_guide (Some g) st, [guide_start g ev]).
Proof.
  intros Hw Hm g. eexists. apply wp_exact.
  unfold _onDragStart. rewrite Hm.
  apply wp_bind, wp_gets. rewrite Hw. cbn [negb].
  apply wp_bind, wp_gets. apply wp_bind, wp_modify. apply wp_bind, wp_emit.
  apply wp_bind, wp_throw. done.
Qed.

Lemma guide_drag_end_eq (st : State (Element := Element)) g :
  guide st = Some g →
  _onDragEnd st =
    (Normal tt,
     (if msie then id else set_body_class (λ c, removeClass c (classname "resizing-x")))
       (set_guide None (set_elements None (painted (default [] (elements st)) "block" st))),
     [guide_destroy g]).
Proof.
  intros Hg. apply wp_exact. unfold _onDragEnd, _showScheduleBlocks.
  apply wp_bind. apply wp_bind, wp_gets. apply wp_forEach_display.
  apply wp_bind, wp_gets.
  destruct (painted_fields (default [] (elements st)) "block" st) as (_ & _ & _ & _ & _ & ->).
  rewrite Hg. apply wp_bind, wp_emit. apply wp_bind, wp_modify. apply wp_bind, wp_modify.
  destruct msie; cbn [negb]; [apply wp_ret | apply wp_modify]; done.
Qed.

Lemma guide_drag_end_idle (st : State (Element := Element)) :
  guide st = None →
  ∃ msg, _onDragEnd st =
    (Throw (TypeError msg), painted (default [] (elements st)) "block" st, []).
Proof.
  intros Hg. eexists. apply wp_exact. unfold _onDragEnd, _showScheduleBlocks.
  apply wp_bind. apply wp_bind, wp_gets. apply wp_forEach_display.
  apply wp_bind, wp_gets.
  destruct (painted_fields (default [] (elements st)) "block" st) as (_ & _ & _ & _ & _ & ->).
  rewrite Hg. apply wp_throw. done.
Qed.

Lemma guide_drag_idle (ev : WeekResize.ScheduleData (Element := Element))
    (st : State (Element := Element)) :
  guide st = None → ∃ msg, _onDrag ev st = (Throw (TypeError msg), st, []).
Proof.
  intros Hg. eexists. apply wp_exact. unfold _onDrag.
  apply wp_bind, wp_gets. rewrite Hg. by apply wp_throw.
Qed.

Lemma guide_destroy_idle (st : State (Element := Element)) :
  the_WeekResize st = true → guide st = None →
  ∃ msg, destroy st = (Throw (TypeError msg), set_handlers [] st, []).
Proof.
  intros Hw Hg. eexists. apply wp_exact. unfold destroy.
  apply wp_bind, wp_gets. rewrite Hw. cbn [negb].
  apply wp_bind, wp_modify. apply wp_bind, wp_gets. cbn [guide set_handlers]. rewrite Hg.
  by apply wp_throw.
Qed.

Lemma guide_destroy_eq (st : State (Element := Element)) g :
  the_WeekResize st = true → guide st = Some g →
  destroy st =
    (Normal tt, set_the_WeekResize false (set_guide None (set_handlers [] st)),
     [guide_destroy g]).
Proof.
  intros Hw Hg. apply wp_exact. unfold destroy.
  apply wp_bind, wp_gets. rewrite Hw. cbn [negb].
  apply wp_bind, wp_modify. apply wp_bind, wp_gets. cbn [guide set_handlers]. rewrite Hg.
  apply wp_bind, wp_emit. apply wp_bind, wp_modify. by apply wp_modify.
Qed.

(** The state a drag start of the guide leaves. *)
Lemma guide_started (ev : WeekResize.ScheduleData (Element := Element))
    (st : State (Element := Element)) view model :
  the_WeekResize st = true →
  monthView st = Some view →
  WeekResize.model ev = Some model →
  let g := {| isResizeMode := true; guide_monthView := Some view |} in
  let r := _onDragStart ev st in
  completion r = Normal tt ∧ fired r = [guide_start g ev] ∧
  the_WeekResize (final r) = true ∧ guide (final r) = Some g ∧
  elements (final r) = Some (blocks_of view model) ∧
  (∀ el, display (final r) el =
           if decide (el ∈ blocks_of view model) then "none" else display st el) ∧
  body_class (final r) =
    (if msie then body_class st else addClass (body_class st) (classname "resizing-x")).
Proof.
  intros Hw Hv Hm g r. subst r.
  rewrite (guide_drag_start_eq ev st view model Hw Hv Hm). cbn [completion final fired fst snd].
  subst g. set (g := {| isResizeMode := true; guide_monthView := Some view |}).
  set (els := blocks_of view model).
  destruct (painted_fields els "none" (set_elements (Some els) (set_guide (Some g) st)))
    as (Hb & Hw' & _ & _ & He & Hg).
  cbn [body_class the_WeekResize elements guide set_elements set_guide] in Hb, Hw', He, Hg.
  assert (∀ el, display (painted els "none" (set_elements (Some els) (set_guide (Some g) st))) el
                = if decide (el ∈ els) then "none" else display st el) as Hd.
  { intros el. by rewrite painted_display. }
  destruct msie;
    cbn [id display body_class the_WeekResize elements guide set_body_class];
    rewrite ?Hb, ?Hw', ?He, ?Hg; by split_and!.
Qed.

(** X22. The guide over one drag: at the drag start the blocks of the
    model found under the month view's container are hidden ([display] is
    ['none']) and the guide element is made and started; at the drag end
    each of these blocks gets [display] ['block'], whatever it had before,
    the guide element is destroyed and both fields are [null] again. The
    [display] of every other element stays as it was. Under MSIE the class
    of the body is never touched; otherwise [resizing-x] is added at the
    start and removed at the end. *)
Theorem guide_hides_then_shows (ev : WeekResize.ScheduleData (Element := Element))
    (st : State (Element := Element)) view model :
  the_WeekResize st = true →
  monthView st = Some view →
  WeekResize.model ev = Some model →
  let g := {| isResizeMode := true; guide_monthView := Some view |} in
  let started := _onDragStart ev st in
  let ended := _onDragEnd (final started) in
  completion started = Normal tt ∧ completion ended = Normal tt ∧
  fired started = [guide_start g ev] ∧ fired ended = [guide_destroy g] ∧
  elements (final started) = Some (blocks_of view model) ∧
  (∀ el, display (final started) el =
           if decide (el ∈ blocks_of view model) then "none" else display st el) ∧
  (∀ el, display (final ended) el =
           if decide (el ∈ blocks_of view model) then "block" else display st el) ∧
  elements (final ended) = None ∧ guide (final ended) = None ∧
  body_class (final started) =
    (if msie then body_class st else addClass (body_class st) (classname "resizing-x")) ∧
  body_class (final ended) =
    (if msie then body_class st
     else removeClass (addClass (body_class st) (classname "resizing-x"))
            (classname "resizing-x")).
Proof.
  intros Hw Hv Hm g started ended.
  destruct (guide_started ev st view model Hw Hv Hm)
    as (Hc & Hf & Hw1 & Hg1 & He1 & Hd1 & Hb1).
  fold g in Hf, Hg1. fold started in Hc, Hf, Hw1, Hg1, He1, Hd1, Hb1.
  subst ended. rewrite (guide_drag_end_eq (final started) g Hg1).
  cbn [completion final fired fst snd]. rewrite He1. cbn [default].
  set (els := blocks_of view model) in *.
  destruct (painted_fields els "block" (final started)) as (Hb2 & _).
  assert (∀ el, display (painted els "block" (final started)) el
                = if decide (el ∈ els) then "block" else display st el) as Hd2.
  { intros el. rewrite painted_display, Hd1. by case_decide. }
  destruct msie;
    cbn [id display body_class elements guide set_body_class set_guide set_elements];
    rewrite ?Hb2, ?Hb1; by split_and!.
Qed.

(** X23. A guide between drags (no guide element) throws a [TypeError] on
    a drag, on a drag end and on [destroy]. The first two change nothing;
    [destroy] has unsubscribed the guide by then and does not reach the
    point where its fields are cleared. *)
Theorem guide_idle_throws (st : State (Element := Element)) :
  guide st = None →
  elements st = None →
  the_WeekResize st = true →
  (∀ ev, ∃ msg, _onDrag ev st = (Throw (TypeError msg), st, [])) ∧
  (∃ msg, _onDragEnd st = (Throw (TypeError msg), st, [])) ∧
  (∃ msg, destroy st = (Throw (TypeError msg), set_handlers [] st, [])).
Proof.
  intros Hg He Hw. split; [|split].
  - intros ev. by apply guide_drag_idle.
  - destruct (guide_drag_end_idle st Hg) as [msg Heq]. exists msg. by rewrite Heq, He.
  - by apply guide_destroy_idle.
Qed.

(** X24. A drag start whose data names no model throws a [TypeError] after
    the guide element was made and started: the guide element stays in
    its field, no block is hidden, and the class of the body is as it
    was. *)
Theorem guide_start_without_model (ev : WeekResize.ScheduleData (Element := Element))
    (st : State (Element := Element)) :
  the_WeekResize st = true →
  WeekResize.model ev = None →
  let g := {| isResizeMode := true; guide_monthView := monthView st |} in
  ∃ msg, _onDragStart ev st = (Throw (TypeError msg), set_guide (Some g) st, [guide_start g ev]).
Proof. apply guide_drag_start_no_model. Qed.

(** X25. [destroy] in the middle of a drag returns normally, destroys the
    guide element, unsubscribes the guide and clears [guide] and
    [WeekResize]; the blocks hidden at the drag start stay hidden, they
    stay in [elements], and the class of the body stays as the drag start
    left it. *)
Theorem guide_destroyed_mid_drag (ev : WeekResize.ScheduleData (Element := Element))
    (st : State (Element := Element)) view model :
  the_WeekResize st = true →
  monthView st = Some view →
  WeekResize.model ev = Some model →
  let g := {| isResizeMode := true; guide_monthView := Some view |} in
  let started := final (_onDragStart ev st) in
  let r := destroy started in
  completion r = Normal tt ∧ fired r = [guide_destroy g] ∧
  handlers (final r) = [] ∧ guide (final r) = None ∧ the_WeekResize (final r) = false ∧
  elements (final r) = Some (blocks_of view model) ∧
  (∀ el, el ∈ blocks_of view model → display (final r) el = "none") ∧
  body_class (final r) = body_class started.
Proof.
  intros Hw Hv Hm g started r.
  destruct (guide_started ev st view model Hw Hv Hm)
    as (_ & _ & Hw1 & Hg1 & He1 & Hd1 & _).
  fold g in Hg1. fold started in Hw1, Hg1, He1, Hd1.
  subst r. rewrite (guide_destroy_eq started g Hw1 Hg1).
  cbn [completion final fired fst snd handlers guide the_WeekResize elements display body_class
       set_the_WeekResize set_guide set_handlers].
  split_and!; try done. intros el Hel. by rewrite Hd1, decide_True.
Qed.

End Facts.
End WeekResizeGuideSpec.

(** ** The month variant: gestures and edges *)

Module WeekResizeGestures.
Import WeekResize WeekResizeProps WeekResizeSpec WeekResizeSession WeekResizeTable.
Import WeekResizeGuideSpec.

(** The handlers up to the calls of [fire]. *)
Ltac run_to_fire :=
  unfold _onDragEnd, _updateSchedule, _onDrag, _onDragStart, getMousePosData;
  state_norm; repeat wp_step.

Section Facts.
Context {Element : Type} `{Host Element} `{MonthCore}.

(** *** The guide under [fire] *)

Lemma fire_silent name (data : option (ScheduleData (Element := Element)))
    (st : State (Element := Element)) :
  WeekResizeGuide.listening name (guide st) = [] →
  WeekResize.fire name data st = (Normal tt, st, [fired_event name data st]).
Proof.
  intros Hls. apply wp_exact. unfold WeekResize.fire.
  apply wp_bind. wp_prim. apply wp_bind, wp_gets. rewrite Hls. cbn [length walk].
  by apply wp_ret.
Qed.

Lemma fire_call name (data : option (ScheduleData (Element := Element)))
    (st : State (Element := Element)) l c g calls :
  WeekResizeGuide.listening name (guide st) = [l] →
  WeekResizeGuide.invoke l data (WeekResizeGuide.set_monthView (Some (monthView st)) (guide st))
    = (c, g, calls) →
  WeekResize.fire name data st =
    (c, set_guide g (guide_calls st ++ calls) st, [fired_event name data st]).
Proof.
  intros Hls Hcall. apply wp_exact. unfold WeekResize.fire.
  apply wp_bind. wp_prim. apply wp_bind, wp_gets. rewrite Hls. cbn [length].
  eapply wp_walk_step; [by rewrite Hls|]. apply wp_bind.
  unfold wp at 1, on_guide. rewrite Hcall. cbn [completion final fired fst snd].
  destruct c as [[]|err]; [|done]. cbn [walk]. apply wp_ret. by rewrite !app_nil_r.
Qed.

Lemma listening_attached (g : WeekResizeGuide.State (Element := Element)) :
  WeekResizeGuide.handlers g = guide_listeners →
  WeekResizeGuide.listening "WeekResizeDragstart" g = [WeekResizeGuide.cb_onDragStart] ∧
  WeekResizeGuide.listening "WeekResizeDrag" g = [WeekResizeGuide.cb_onDrag] ∧
  WeekResizeGuide.listening "WeekResizeDragend" g = [WeekResizeGuide.cb_onDragEnd].
Proof. unfold WeekResizeGuide.listening. by intros ->. Qed.

Lemma listening_detached name (g : WeekResizeGuide.State (Element := Element)) :
  WeekResizeGuide.handlers g = [] → WeekResizeGuide.listening name g = [].
Proof. unfold WeekResizeGuide.listening. by intros ->. Qed.

(** The calls that [fire] allows are enough: with more, the walk through
    the guide's listeners goes the same. *)
Lemma fire_enough name (data : option (ScheduleData (Element := Element)))
    (st : State (Element := Element)) k :
  walk (λ st, WeekResizeGuide.listening name (guide st))
    (λ l, on_guide (WeekResizeGuide.invoke l data))
    (length (WeekResizeGuide.listening name (guide st)) + k) 0 st
  = walk (λ st, WeekResizeGuide.listening name (guide st))
      (λ l, on_guide (WeekResizeGuide.invoke l data))
      (length (WeekResizeGuide.listening name (guide st))) 0 st.
Proof.
  apply (walk_enough _ _
           (λ index s, length (WeekResizeGuide.listening name (guide s)) - index)%nat); [|lia].
  intros index s l Hl. apply lookup_lt_Some in Hl.
  unfold on_guide. cbn [final fst snd guide set_guide].
  pose proof (guide_invoke_handlers l data
                (WeekResizeGuide.set_monthView (Some (monthView s)) (guide s))) as Hh.
  unfold wp in Hh. unfold WeekResizeGuide.listening in *. rewrite Hh.
  cbn [WeekResizeGuide.handlers WeekResizeGuide.set_monthView]. lia.
Qed.

Lemma set_guide_same (st : State (Element := Element)) :
  st = set_guide (guide st) (guide_calls st) st.
Proof. by destruct st. Qed.

Lemma guide_drag_eq (ev : ScheduleData (Element := Element))
    (g : WeekResizeGuide.State (Element := Element)) el :
  WeekResizeGuide.guide g = Some el →
  WeekResizeGuide._onDrag ev g = (Normal tt, g, [WeekResizeGuide.guide_update el (x ev) (y ev)]).
Proof.
  intros Hg. apply wp_exact. unfold WeekResizeGuide._onDrag.
  apply wp_bind, wp_gets. rewrite Hg. by apply wp_emit.
Qed.

(** [WeekResizeDragstart] for a known schedule: the guide gets its guide
    element. *)
Lemma wp_fire_start (d : ScheduleData (Element := Element)) m
    (st : State (Element := Element)) :
  guide_ready (guide st) → model d = Some m →
  wp (WeekResize.fire "WeekResizeDragstart" (Some d)) st (λ c st' out,
    c = Normal tt ∧ out = [fired_event "WeekResizeDragstart" (Some d) st] ∧
    ∃ g calls, st' = set_guide g calls st ∧ guide_drawn g).
Proof.
  intros [[Hh Hw] | Hh] Hm.
  - destruct (listening_attached _ Hh) as (Hls & _).
    eapply wp_eq.
    { eapply fire_call; [done|]. cbn [WeekResizeGuide.invoke].
      by apply (guide_drag_start_eq d _ (monthView st) m). }
    split; [done|]. split; [done|]. eexists _, _. split; [done|]. left.
    match goal with
    | |- context [WeekResizeGuide.painted ?els ?v ?g0] =>
        destruct (painted_fields els v g0) as (_ & Hw' & Hh' & _ & _ & Hg')
    end.
    destruct msie; cbn [id];
      unfold guide_attached;
      cbn [WeekResizeGuide.handlers WeekResizeGuide.the_WeekResize WeekResizeGuide.guide
           WeekResizeGuide.set_body_class];
      rewrite Hw', Hh', Hg'; by split_and!.
  - eapply wp_eq; [by apply fire_silent, listening_detached|].
    split; [done|]. split; [done|]. eexists _, _. split; [apply set_guide_same|by right].
Qed.

(** [WeekResizeDrag] with the guide element there. *)
Lemma wp_fire_drag (d : ScheduleData (Element := Element)) (st : State (Element := Element)) :
  guide_drawn (guide st) →
  wp (WeekResize.fire "WeekResizeDrag" (Some d)) st (λ c st' out,
    c = Normal tt ∧ out = [fired_event "WeekResizeDrag" (Some d) st] ∧
    ∃ g calls, st' = set_guide g calls st ∧ guide_drawn g).
Proof.
  intros [[[Hh Hw] [el Hg]] | Hh].
  - destruct (listening_attached _ Hh) as (_ & Hls & _).
    eapply wp_eq.
    { eapply fire_call; [done|]. cbn [WeekResizeGuide.invoke].
      by apply (guide_drag_eq d _ el). }
    split; [done|]. split; [done|]. eexists _, _. split; [done|]. left.
    unfold guide_attached. by split_and!.
  - eapply wp_eq; [by apply fire_silent, listening_detached|].
    split; [done|]. split; [done|]. eexists _, _. split; [apply set_guide_same|by right].
Qed.

(** [WeekResizeDragend] with the guide element there: it is destroyed. *)
Lemma wp_fire_end (data : option (ScheduleData (Element := Element)))
    (st : State (Element := Element)) :
  guide_drawn (guide st) →
  wp (WeekResize.fire "WeekResizeDragend" data) st (λ c st' out,
    c = Normal tt ∧ out = [fired_event "WeekResizeDragend" data st] ∧
    ∃ g calls, st' = set_guide g calls st ∧ guide_ready g).
Proof.
  intros [[[Hh Hw] [el Hg]] | Hh].
  - destruct (listening_attached _ Hh) as (_ & _ & Hls).
    eapply wp_eq.
    { eapply fire_call; [done|].
      assert (WeekResizeGuide.invoke WeekResizeGuide.cb_onDragEnd data
              = WeekResizeGuide._onDragEnd) as -> by (by destruct data).
      by apply (guide_drag_end_eq _ el). }
    split; [done|]. split; [done|]. eexists _, _. split; [done|]. left.
    match goal with
    | |- context [WeekResizeGuide.painted ?els ?v ?g0] =>
        destruct (painted_fields els v g0) as (_ & Hw' & Hh' & _)
    end.
    destruct msie; cbn [id];
      unfold guide_attached;
      cbn [WeekResizeGuide.handlers WeekResizeGuide.the_WeekResize WeekResizeGuide.guide
           WeekResizeGuide.set_body_class WeekResizeGuide.set_guide
           WeekResizeGuide.set_elements];
      rewrite Hw', Hh'; by split_and!.
  - eapply wp_eq; [by apply fire_silent, listening_detached|].
    split; [done|]. split; [done|]. eexists _, _. split; [apply set_guide_same|by right].
Qed.

(** [WeekResizeDragend] with the guide listening and no guide element:
    the guide's listener throws. *)
Lemma wp_fire_end_idle (data : option (ScheduleData (Element := Element)))
    (st : State (Element := Element)) :
  WeekResizeGuide.handlers (guide st) = guide_listeners →
  WeekResizeGuide.guide (guide st) = None →
  wp (WeekResize.fire "WeekResizeDragend" data) st (λ c st' out,
    (∃ msg, c = Throw (TypeError msg)) ∧
    out = [fired_event "WeekResizeDragend" data st] ∧
    ∃ g calls, st' = set_guide g calls st).
Proof.
  intros Hh Hg. destruct (listening_attached _ Hh) as (_ & _ & Hls).
  destruct (guide_drag_end_idle
              (WeekResizeGuide.set_monthView (Some (monthView st)) (guide st)) Hg)
    as [msg Heq].
  eapply wp_eq.
  { eapply fire_call; [done|].
    assert (WeekResizeGuide.invoke WeekResizeGuide.cb_onDragEnd data
            = WeekResizeGuide._onDragEnd) as -> by (by destruct data).
    exact Heq. }
  split; [by eexists|]. split; [done|]. by eexists _, _.
Qed.

(** *** The handlers *)

Lemma week_drag_start_rejected (data : DragEventData Element) (st : State (Element := Element)) :
  hasClass (target data) (classname "weekday-resize-handle") = false ∨
  closest (target data) (classname ".weekday-schedule-block") = None →
  _onDragStart data st = (Normal tt, st, []).
Proof.
  intros [Hn|Hn]; apply wp_exact; unfold _onDragStart; cbv zeta; rewrite ?Hn; cbn [negb].
  - by apply wp_ret.
  - destruct (negb _); by apply wp_ret.
Qed.

Lemma week_drag_start_outside (data : DragEventData Element) (st : State (Element := Element))
    block :
  hasClass (target data) (classname "weekday-resize-handle") = true →
  closest (target data) (classname ".weekday-schedule-block") = Some block →
  cellPoint (monthView st) (originEvent data) = None →
  ∃ msg,
    _onDragStart data st =
      (Throw (TypeError msg),
       set_getScheduleData (Some (monthView st)) (set_dragHandler (on week_listeners) st), []).
Proof.
  intros Hc Hb Hp. eexists. apply wp_exact. unfold _onDragStart. cbv zeta.
  rewrite Hc, Hb. cbn [negb]. run. done.
Qed.

(** A press over a cell on the handle of a block whose schedule is known,
    with the guide ready. *)
Lemma week_drag_start_pressed (data : DragEventData Element) (st : State (Element := Element))
    block p sch :
  hasClass (target data) (classname "weekday-resize-handle") = true →
  closest (target data) (classname ".weekday-schedule-block") = Some block →
  cellPoint (monthView st) (originEvent data) = Some p →
  schedules_items st !! getData block "id" = Some sch →
  guide_ready (guide st) →
  wp (_onDragStart data) st (λ c st' out,
    c = Normal tt ∧ guide_drawn (guide st') ∧
    dragHandler st' = on week_listeners (dragHandler st) ∧
    getScheduleData st' = Some (monthView st) ∧
    _cache st' = Some {| schedule := Some sch; cache_target := block;
                         start := (length (dates st) + 1)%nat; end_ := None |} ∧
    schedules_items st' = schedules_items st ∧ monthView st' = monthView st ∧
    dates st' = dates st ++ [p_date p; p_date p] ∧
    ∃ e, out = [e] ∧ ev_name e = "WeekResizeDragstart").
Proof.
  intros Hc Hb Hp Hs Hg. unfold _onDragStart. cbv zeta. rewrite Hc, Hb. cbn [negb].
  run_to_fire. rewrite Hs.
  eapply wp_mono; [|by apply (wp_fire_start _ sch)].
  intros c s out (-> & -> & g & calls & -> & Hg'). state_norm.
  split_and!; try done. by eexists.
Qed.

Lemma week_drag_cell (data : DragEventData Element) (st : State (Element := Element)) view p :
  getScheduleData st = Some view →
  cellPoint view (originEvent data) = Some p →
  guide_drawn (guide st) →
  wp (_onDrag data) st (λ c st' out,
    c = Normal tt ∧ guide_drawn (guide st') ∧
    dragHandler st' = dragHandler st ∧ getScheduleData st' = getScheduleData st ∧
    _cache st' = _cache st ∧ schedules_items st' = schedules_items st ∧
    monthView st' = monthView st ∧ dates st' = dates st ++ [p_date p] ∧
    ∃ e, out = [e] ∧ ev_name e = "WeekResizeDrag").
Proof.
  intros Hv Hp Hg. run_to_fire.
  eapply wp_mono; [|by apply wp_fire_drag].
  intros c s out (-> & -> & g & calls & -> & Hg'). state_norm.
  split_and!; try done. by eexists.
Qed.

Lemma week_drag_nothing (data : DragEventData Element) (st : State (Element := Element)) :
  getScheduleData st = None ∨
  (∃ view, getScheduleData st = Some view ∧ cellPoint view (originEvent data) = None) →
  _onDrag data st = (Normal tt, st, []).
Proof. intros [Hn | (view & Hv & Hp)]; apply wp_exact; run; done. Qed.

Lemma week_drag_end_unknown (data : DragEventData Element) (st : State (Element := Element))
    view p :
  getScheduleData st = Some view →
  cellPoint view (originEvent data) = Some p →
  _cache st = None ∨ (∃ cache, _cache st = Some cache ∧ schedule cache = None) →
  ∃ msg,
    _onDragEnd data st =
      (Throw (TypeError msg),
       set_dates (dates st ++ [p_date p]) (set_dragHandler (off week_listeners) st), []).
Proof.
  intros Hv Hp [Hc | (cache & Hc & Hs)]; eexists; apply wp_exact; run; done.
Qed.

(** A release that gets as far as [WeekResizeDragend], with the guide
    element there: the handler returns and the session is cleared. *)
Lemma week_drag_end_guided (data : DragEventData Element) (st : State (Element := Element))
    view :
  getScheduleData st = Some view →
  cellPoint view (originEvent data) = None ∨
    (∃ cache sch, _cache st = Some cache ∧ schedule cache = Some sch) →
  guide_drawn (guide st) →
  wp (_onDragEnd data) st (λ c st' out,
    c = Normal tt ∧ guide_ready (guide st') ∧
    getScheduleData st' = None ∧ _cache st' = None).
Proof.
  intros Hv [Hp | (cache & sch & Hc & Hs)] Hg; run_to_fire.
  all: eapply wp_mono; [|apply wp_fire_end; state_norm; exact Hg].
  all: intros c' s' out (-> & -> & g & calls & -> & Hg'); by run_to_fire.
Qed.

(** A release over no cell with the guide listening and no guide element:
    the handler throws from [fire]. *)
Lemma week_drag_end_idle (data : DragEventData Element) (st : State (Element := Element))
    view :
  getScheduleData st = Some view →
  cellPoint view (originEvent data) = None →
  WeekResizeGuide.handlers (guide st) = guide_listeners →
  WeekResizeGuide.guide (guide st) = None →
  wp (_onDragEnd data) st (λ c st' out,
    (∃ msg, c = Throw (TypeError msg)) ∧
    getScheduleData st' = Some view ∧ _cache st' = _cache st).
Proof.
  intros Hv Hp Hh Hg. run_to_fire.
  eapply wp_mono; [|by apply wp_fire_end_idle].
  intros c s out ([msg ->] & -> & g & calls & ->). state_norm. split; [by eexists|done].
Qed.

(** What a release over no cell fires and unsubscribes, whatever the
    guide. *)
Lemma week_drag_end_outside (data : DragEventData Element) (st : State (Element := Element))
    view :
  getScheduleData st = Some view →
  cellPoint view (originEvent data) = None →
  wp (_onDragEnd data) st (λ c st' out,
    out = [{| ev_name := "WeekResizeDragend"; ev_data := week_data None;
              ev_dates := dates st |}] ∧
    dragHandler st' = off week_listeners (dragHandler st)).
Proof. intros Hv Hp. run; done. Qed.

(** Whatever else a drag end does, it unsubscribes first. *)
Lemma week_drag_end_table (data : DragEventData Element) (st : State (Element := Element)) :
  wp (_onDragEnd data) st (λ c st' out,
    dragHandler st' = off week_listeners (dragHandler st)).
Proof. run; done. Qed.

Lemma week_drag_end_fresh (data : DragEventData Element) (st : State (Element := Element)) :
  wp (_onDragEnd data) st (λ c st' out,
    requests_satisfy update
      (λ e u, (length (dates st) ≤ bu_start u < length (ev_dates e))%nat ∧
              (length (dates st) ≤ bu_end u < length (ev_dates e))%nat ∧
              bu_start u ≠ bu_end u) out).
Proof.
  run.
  all: check_requests
         ltac:(cbn [ev_dates bu_start bu_end]; rewrite ?length_app; cbn [length]; lia).
Qed.

Lemma week_drag_keeps (data : DragEventData Element) (st : State (Element := Element)) :
  wp (_onDrag data) st (λ c st' _,
    dragHandler st' = dragHandler st ∧ getScheduleData st' = getScheduleData st).
Proof. run; done. Qed.

(** A drag start subscribes the two listeners and binds the mapper, or
    leaves both as they are. *)
Lemma week_drag_start_table (data : DragEventData Element) (st : State (Element := Element)) :
  wp (_onDragStart data) st (λ c st' _,
    (dragHandler st' = dragHandler st ∧ getScheduleData st' = getScheduleData st) ∨
    (dragHandler st' = on week_listeners (dragHandler st) ∧ is_Some (getScheduleData st'))).
Proof. run; by eauto. Qed.

(** *** Drag handler events *)

Lemma week_gesture_app (evs1 evs2 : list (DragEvent * DragEventData Element))
    (st : State (Element := Element)) :
  gesture (evs1 ++ evs2) st =
    ((gesture evs2 (gesture evs1 st).1).1,
     (gesture evs1 st).2 ++ (gesture evs2 (gesture evs1 st).1).2).
Proof.
  revert st. induction evs1 as [|[ev data] evs1 IH]; intros st; cbn [app gesture].
  - cbn [fst snd app]. by destruct (gesture evs2 st).
  - rewrite IH. cbn [fst snd]. by rewrite app_assoc.
Qed.

(** The bound on the calls goes down with every call. *)
Lemma week_invoke_bound l (data : DragEventData Element) (st : State (Element := Element))
    index ev :
  listenersOf ev (dragHandler st) !! index = Some l →
  (calls_of cb_onDragStart
     (drop (S index) (listenersOf ev (dragHandler (final (invoke l data st)))))
   < calls_of cb_onDragStart (drop index (listenersOf ev (dragHandler st))))%nat.
Proof.
  intros Hl. destruct l; cbn [invoke].
  - destruct (week_drag_start_table data st) as [[-> _] | [-> _]].
    + rewrite (drop_S _ _ _ Hl), calls_of_cons, decide_True by done. lia.
    + apply (calls_of_on cb_onDragStart ev week_listeners); [done|].
      destruct ev; vm_compute; lia.
  - destruct (week_drag_keeps data st) as [-> _].
    rewrite (drop_S _ _ _ Hl), calls_of_cons. case_decide; lia.
  - pose proof (week_drag_end_table data st) as Ht. unfold wp in Ht. rewrite Ht.
    by eapply calls_of_off.
Qed.

(** The calls that [dispatch] allows are enough: with more, the walk goes
    the same. *)
Lemma week_dispatch_enough ev (data : DragEventData Element) (st : State (Element := Element))
    k :
  dispatch ev data st =
    walk (λ st, listenersOf ev (dragHandler st)) (λ l, invoke l data)
      (calls_of cb_onDragStart (listenersOf ev (dragHandler st)) + k) 0 st.
Proof.
  rewrite (walk_enough _ _
             (λ index st, calls_of cb_onDragStart (drop index (listenersOf ev (dragHandler st))))).
  - unfold dispatch, mbind, M_bind, bind, gets. by destruct (walk _ _ _ _ st) as [[c s] out].
  - intros index s l Hl. by apply week_invoke_bound.
  - done.
Qed.

Lemma wp_week_dispatch ev (data : DragEventData Element) (st : State (Element := Element)) Q :
  (∀ fuel, wp (walk (λ st, listenersOf ev (dragHandler st)) (λ l, invoke l data)
                 (S (S fuel)) 0) st Q) →
  wp (dispatch ev data) st Q.
Proof.
  intros HQ. unfold wp. rewrite (week_dispatch_enough ev data st 2), Nat.add_comm. apply HQ.
Qed.

(** An event with one listener, which leaves at most one: one call. *)
Lemma week_dispatch_one ev (data : DragEventData Element) (st : State (Element := Element)) l :
  listenersOf ev (dragHandler st) = [l] →
  (length (listenersOf ev (dragHandler (final (invoke l data st)))) ≤ 1)%nat →
  completion (dispatch ev data st) = completion (invoke l data st) ∧
  final (dispatch ev data st) = final (invoke l data st) ∧
  fired (dispatch ev data st) = fired (invoke l data st).
Proof.
  intros Hl Hlen. rewrite (week_dispatch_enough ev data st 1), Hl, Nat.add_comm.
  cbn [Nat.add].
  rewrite (walk_one (λ st, listenersOf ev (dragHandler st)) (λ l, invoke l data) _ st l Hl Hlen).
  unfold mbind, M_bind, bind, mret, M_ret, ret.
  destruct (invoke l data st) as [[[[]|err] s] out]; cbn; by rewrite ?app_nil_r.
Qed.

Lemma week_requests_none (evs : list (Event (Payload (Element := Element)))) name :
  name ≠ "beforeUpdateSchedule" → Forall (λ e, ev_name e = name) evs → requests evs = [].
Proof.
  intros Hne. induction 1 as [|e evs He _ IH]; [done|].
  unfold requests in *. rewrite filter_cons_False; [done|]. by rewrite He.
Qed.

Lemma week_requests_app (l1 l2 : list (Event (Payload (Element := Element)))) :
  requests (l1 ++ l2) = requests l1 ++ requests l2.
Proof. apply filter_app. Qed.

(** The moves between a press and a release: one event for each that is
    over a cell. *)
Lemma week_drags view cache items h0 (moves : list (DragEventData Element))
    (st : State (Element := Element)) :
  week_dragging view cache items h0 st → guide_drawn (guide st) →
  let r := gesture ((λ d, (Drag, d)) <$> moves) st in
  week_dragging view cache items h0 r.1 ∧ guide_drawn (guide r.1) ∧
  Forall (λ e, ev_name e = "WeekResizeDrag") r.2 ∧
  length r.2 = length (filter (λ d, is_Some (cellPoint view (originEvent d))) moves).
Proof.
  revert st. induction moves as [|d moves IH]; intros st Hst Hg; cbv zeta;
    cbn [fmap list_fmap gesture fst snd].
  - split; [done|]. split; [done|]. by split; [constructor|].
  - destruct Hst as (Ht & Hv & Hc & Hi & Hp).
    destruct (week_dispatch_one Drag d st cb_onDrag) as (_ & -> & ->); [by rewrite Ht|..].
    { cbn [invoke]. destruct (week_drag_keeps d st) as [-> _]. rewrite Ht. vm_compute. lia. }
    cbn [invoke]. rewrite filter_cons.
    destruct (cellPoint view (originEvent d)) as [p|] eqn:Hcell.
    + destruct (week_drag_cell d st view p Hv Hcell Hg)
        as (_ & Hg' & Ht' & Hv' & Hc' & Hi' & _ & Hd' & e & Hout & Hn).
      edestruct (IH (final (_onDrag d st))) as (Hst' & Hg'' & Hnames & Hl); [|done|].
      { unfold week_dragging. rewrite Ht', Hv', Hc', Hi', Hd'. split_and!; try done.
        etrans; [done|]. by apply prefix_app_r. }
      split; [done|]. split; [done|]. rewrite Hout.
      split; [by constructor|].
      rewrite decide_True by done. cbn [app length]. by rewrite Hl.
    + rewrite (week_drag_nothing d st) by (right; eauto). cbn [final fired fst snd app].
      rewrite decide_False by (by intros [? ?]). by apply IH.
Qed.

(** X15. Month variant: a drag start whose target is not a resize handle,
    or is not inside a schedule block, is ignored: no event, no
    subscription, no change of any kind. *)
Theorem month_drag_start_ignored (data : DragEventData Element)
    (st : State (Element := Element)) :
  hasClass (target data) (classname "weekday-resize-handle") = false ∨
  closest (target data) (classname ".weekday-schedule-block") = None →
  _onDragStart data st = (Normal tt, st, []).
Proof. apply week_drag_start_rejected. Qed.

(** X16. A whole month drag on a freshly constructed instance, whose guide
    listens as its constructor left it (or not at all): a press on the
    handle of a block whose schedule is known, any number of moves, a
    release, press and release over cells. The events are
    [WeekResizeDragstart], one [WeekResizeDrag] per move that is over a
    cell, a change request if the released cell's date is not before the
    schedule's start, and [WeekResizeDragend]; afterwards only the drag
    start listener is subscribed and the session is cleared. The request
    asks for the end only: the end of the released cell's day, whatever
    the pressed cell, the moves and the schedule's present end are. *)
Theorem month_gesture (data1 data2 : DragEventData Element)
    (moves : list (DragEventData Element)) (st : State (Element := Element)) block sch p1 p2 :
  dragHandler st = [(DragStart, cb_onDragStart)] →
  guide_ready (guide st) →
  hasClass (target data1) (classname "weekday-resize-handle") = true →
  closest (target data1) (classname ".weekday-schedule-block") = Some block →
  schedules_items st !! getData block "id" = Some sch →
  (getStarts sch < length (dates st))%nat →
  cellPoint (monthView st) (originEvent data1) = Some p1 →
  cellPoint (monthView st) (originEvent data2) = Some p2 →
  let r := gesture ((DragStart, data1) :: ((λ d, (Drag, d)) <$> moves) ++ [(DragEnd, data2)]) st in
  let s := valueOf (dates st) (getStarts sch) in
  let over := filter (λ d, is_Some (cellPoint (monthView st) (originEvent d))) moves in
  dragHandler r.1 = [(DragStart, cb_onDragStart)] ∧
  getScheduleData r.1 = None ∧ _cache r.1 = None ∧
  ev_name <$> r.2 =
    "WeekResizeDragstart" :: replicate (length over) "WeekResizeDrag"
      ++ (if s <=? p_date p2 then ["beforeUpdateSchedule"] else []) ++ ["WeekResizeDragend"] ∧
  if s <=? p_date p2
  then ∃ e u,
    requests r.2 = [e] ∧ ev_data e = update u ∧ bu_schedule u = sch ∧ end_only u ∧
    valueOf (ev_dates e) (bu_end u) = datetime.end_ (p_date p2) ∧
    valueOf (ev_dates e) (bu_start u) = s
  else requests r.2 = [].
Proof.
  intros Htbl Hguide Hclass Hblock Hsch Hvalid Hp1 Hp2 r s over. subst r.
  destruct (week_drag_start_pressed data1 st block p1 sch Hclass Hblock Hp1 Hsch Hguide)
    as (_ & Hg1 & Ht1 & Hv1 & Hc1 & Hi1 & _ & Hd1 & e1 & Hout1 & Hn1).
  cbn [gesture].
  destruct (week_dispatch_one DragStart data1 st cb_onDragStart) as (_ & -> & ->);
    [by rewrite Htbl|..].
  { cbn [invoke]. rewrite Ht1, Htbl. vm_compute. lia. }
  cbn [invoke fst snd].
  set (cache := {| schedule := Some sch; cache_target := block;
                   start := (length (dates st) + 1)%nat; end_ := None |}) in *.
  set (st1 := final (_onDragStart data1 st)) in *.
  rewrite week_gesture_app.
  destruct (week_drags (monthView st) cache (schedules_items st)
              (dates st ++ [p_date p1; p_date p1]) moves st1)
    as ((Ht & Hv & Hc & Hi & Hp) & Hg2 & Hnames & Hlen); [|done|].
  { unfold week_dragging. rewrite Ht1, Hv1, Hc1, Hi1, Hd1, Htbl. by split_and!. }
  fold over in Hlen.
  set (rd := gesture ((λ d, (Drag, d)) <$> moves) st1) in *.
  set (st2 := rd.1) in *.
  assert (dates st `prefix_of` dates st2) as [l Hl].
  { etrans; [|done]. by apply prefix_app_r. }
  assert (getStarts sch < length (dates st2))%nat as Hvalid2.
  { rewrite Hl, length_app. lia. }
  destruct (week_drag_end_emits data2 st2 (monthView st) cache sch p2 Hv Hc eq_refl Hp2 Hvalid2)
    as (d & Hout).
  destruct (week_drag_end_guided data2 st2 (monthView st) Hv) as (_ & _ & Hv' & Hc');
    [by right; exists cache, sch|done|].
  pose proof (week_drag_end_table data2 st2) as Htbl'. unfold wp in Htbl'.
  cbn [gesture].
  destruct (week_dispatch_one DragEnd data2 st2 cb_onDragEnd) as (_ & -> & ->);
    [by rewrite Ht|..].
  { cbn [invoke]. rewrite Htbl', Ht. vm_compute. lia. }
  cbn [invoke final fired fst snd]. rewrite Htbl', Ht, app_nil_r.
  split; [done|]. split; [done|]. split; [done|].
  assert (valueOf (dates st2) (getStarts sch) = s) as Hs.
  { rewrite Hl. by apply valueOf_app_l. }
  rewrite Hs in Hout. cbv zeta in Hout.
  rewrite Hout1. cbn [app].
  rewrite !fmap_cons, !fmap_app, (names_replicate _ _ Hnames), Hlen, Hn1.
  change (requests (e1 :: rd.2 ++ ?l)) with (requests ([e1] ++ rd.2 ++ l)).
  rewrite !week_requests_app, (week_requests_none [e1] "WeekResizeDragstart" ltac:(done)),
    (week_requests_none rd.2 "WeekResizeDrag" ltac:(done) Hnames) by (by constructor).
  cbn [app].
  destruct (s <=? p_date p2).
  - destruct Hout as (e & u & -> & Hn & Hu & Hbs & Honly & Hend & Hst).
    split; [by cbn; rewrite Hn|].
    exists e, u. rewrite week_requests_drag_end by done. by repeat split.
  - rewrite Hout. by split.
Qed.

(** X17. Month variant: a press on the handle of a block with the pointer
    over no cell throws a [TypeError]. By then the drag and drag end
    listeners are subscribed and the mapper is bound; the record of the
    session is not written and nothing is fired. *)
Theorem month_press_outside_cells (data : DragEventData Element)
    (st : State (Element := Element)) block :
  hasClass (target data) (classname "weekday-resize-handle") = true →
  closest (target data) (classname ".weekday-schedule-block") = Some block →
  cellPoint (monthView st) (originEvent data) = None →
  ∃ msg,
    _onDragStart data st =
      (Throw (TypeError msg),
       set_getScheduleData (Some (monthView st)) (set_dragHandler (on week_listeners) st), []).
Proof. apply week_drag_start_outside. Qed.

(** X18. Month variant: a release with the pointer over no cell
    unsubscribes the drag and drag end listeners and fires
    [WeekResizeDragend] without data and nothing else. When the guide has
    its guide element, or does not listen, the handler returns normally
    with the session cleared, whatever the session's record holds. When the
    guide listens and has no guide element, as after a press over no cell,
    its drag end listener throws a [TypeError] inside [fire]: the handler
    ends there and the session is not cleared. *)
Theorem month_release_outside_cells (data : DragEventData Element)
    (st : State (Element := Element)) view :
  getScheduleData st = Some view →
  cellPoint view (originEvent data) = None →
  let r := _onDragEnd data st in
  fired r = [{| ev_name := "WeekResizeDragend"; ev_data := week_data None;
                ev_dates := dates st |}] ∧
  dragHandler (final r) = off week_listeners (dragHandler st) ∧
  (guide_drawn (guide st) →
     completion r = Normal tt ∧ getScheduleData (final r) = None ∧ _cache (final r) = None) ∧
  (WeekResizeGuide.handlers (guide st) = guide_listeners →
   WeekResizeGuide.guide (guide st) = None →
     (∃ msg, completion r = Throw (TypeError msg)) ∧
     getScheduleData (final r) = Some view ∧ _cache (final r) = _cache st).
Proof.
  intros Hv Hp r. subst r.
  destruct (week_drag_end_outside data st view Hv Hp) as [Hout Ht].
  split; [done|]. split; [done|]. split.
  - intros Hg.
    by destruct (week_drag_end_guided data st view Hv (or_introl Hp) Hg) as (? & _ & ? & ?).
  - intros Hh Hg. by apply (week_drag_end_idle data st view).
Qed.

(** X19. Month variant: a release over a cell when the session has no
    record, or a record without a schedule (the pressed block's model id
    was unknown), throws a [TypeError]. The listeners are unsubscribed by
    then; nothing is fired, not even [WeekResizeDragend], and the session
    is not cleared. *)
Theorem month_release_unknown_schedule (data : DragEventData Element)
    (st : State (Element := Element)) view p :
  getScheduleData st = Some view →
  cellPoint view (originEvent data) = Some p →
  _cache st = None ∨ (∃ cache, _cache st = Some cache ∧ schedule cache = None) →
  ∃ msg,
    _onDragEnd data st =
      (Throw (TypeError msg),
       set_dates (dates st ++ [p_date p]) (set_dragHandler (off week_listeners) st), []).
Proof. apply week_drag_end_unknown. Qed.

(** X20. Month variant: both dates of a change request are objects the
    handler made, distinct from each other; neither existed before the
    call, so neither is a date object of a schedule. *)
Theorem month_request_dates (data : DragEventData Element) (st : State (Element := Element))
    e u :
  e ∈ fired (_onDragEnd data st) →
  ev_data e = update u →
  (length (dates st) ≤ bu_start u < length (ev_dates e))%nat ∧
  (length (dates st) ≤ bu_end u < length (ev_dates e))%nat ∧
  bu_start u ≠ bu_end u.
Proof. intros He Hu. destruct (week_drag_end_fresh data st) as [Hr _]. by apply Hr. Qed.

(** *** The states between drag handler events *)

Lemma week_table_listeners k (st : State (Element := Element)) ev :
  dragHandler st = (DragStart, cb_onDragStart) :: concat (replicate k week_listeners) →
  listenersOf ev (dragHandler st) =
    match ev with
    | DragStart => [cb_onDragStart]
    | Drag => replicate k cb_onDrag
    | DragEnd => replicate k cb_onDragEnd
    | Click => []
    end.
Proof.
  intros ->.
  change ((DragStart, cb_onDragStart) :: concat (replicate k week_listeners))
    with ([(DragStart, cb_onDragStart)] ++ concat (replicate k week_listeners)).
  rewrite listenersOf_app.
  assert (listenersOf DragStart (concat (replicate k week_listeners)) = [] ∧
          listenersOf Drag (concat (replicate k week_listeners)) = replicate k cb_onDrag ∧
          listenersOf DragEnd (concat (replicate k week_listeners)) = replicate k cb_onDragEnd ∧
          listenersOf Click (concat (replicate k week_listeners)) = [])
    as (H1 & H2 & H3 & H4).
  { induction k as [|k (IH1 & IH2 & IH3 & IH4)]; [done|].
    cbn [replicate concat]. rewrite !listenersOf_app, IH1, IH2, IH3, IH4. done. }
  by destruct ev; rewrite ?H1, ?H2, ?H3, ?H4.
Qed.

Lemma week_off_all k :
  off week_listeners ((DragStart, cb_onDragStart) :: concat (replicate k week_listeners))
    = [(DragStart, cb_onDragStart)].
Proof.
  unfold off. rewrite filter_cons_True by (apply (bool_decide_unpack _); vm_compute; exact I).
  f_equal. apply off_all. intros x (l & Hl & Hx)%elem_of_concat.
  by apply elem_of_replicate in Hl as [-> _].
Qed.

Lemma week_dispatch_click (data : DragEventData Element) (st : State (Element := Element)) :
  week_consistent st → dispatch Click data st = (Normal tt, st, []).
Proof.
  intros (k & Htbl & _). apply wp_exact, wp_week_dispatch. intros fuel.
  apply wp_walk_end; [|done]. by rewrite (week_table_listeners k st Click).
Qed.

Lemma week_dispatch_consistent ev (data : DragEventData Element)
    (st : State (Element := Element)) :
  week_consistent st →
  wp (dispatch ev data) st (λ c st' _,
    week_consistent st' ∧ (ev = DragEnd → dragHandler st' = [(DragStart, cb_onDragStart)])).
Proof.
  intros (k & Htbl & Hses). apply wp_week_dispatch. intros fuel.
  pose proof (week_table_listeners k st) as Hls.
  destruct ev.
  - (* drag start *)
    eapply wp_walk_step; [by rewrite (Hls DragStart)|]. apply wp_bind. cbn [invoke].
    eapply wp_mono; [|apply week_drag_start_table].
    intros c s1 out1 Hcases. cbv beta in Hcases.
    assert (∃ k1, dragHandler s1
                  = (DragStart, cb_onDragStart) :: concat (replicate k1 week_listeners) ∧
                  (k1 ≠ 0%nat → is_Some (getScheduleData s1))) as (k1 & Htbl1 & Hses1).
    { destruct Hcases as [[Ht Hv] | [Ht Hv]].
      - exists k. by rewrite Ht, Hv.
      - exists (S k). split; [|done]. rewrite Ht, Htbl. unfold on.
        by rewrite <- concat_replicate_end. }
    clear Hcases. destruct c as [[]|err]; [|by split; [exists k1|]].
    apply wp_walk_end; [by rewrite (week_table_listeners k1 s1 DragStart)|].
    by split; [exists k1|].
  - (* drag *)
    eapply wp_mono;
      [|apply (wp_walk_inv _ _ (λ s, dragHandler s = dragHandler st)
                 (λ s c s' _, dragHandler s' = dragHandler s ∧
                              getScheduleData s' = getScheduleData s))].
    + intros c s' out' (Ht & Hv). split; [|done]. exists k. by rewrite Ht, Hv.
    + by intros s.
    + intros s s1 c s2 _ _ [Ht1 Hv1] [Ht2 Hv2]. split; congruence.
    + intros l s index Hs Hl.
      assert (l = cb_onDrag) as ->.
      { rewrite Hs, (Hls Drag Htbl) in Hl. by apply lookup_replicate in Hl as [-> _]. }
      eapply wp_mono; [|apply week_drag_keeps].
      intros c s' out' [Ht Hv]. split; [done|]. intros _. congruence.
    + done.
  - (* drag end *)
    destruct k as [|k].
    { apply wp_walk_end; [by rewrite (Hls DragEnd)|]. split; [by exists 0%nat|done]. }
    eapply wp_walk_step; [by rewrite (Hls DragEnd)|]. apply wp_bind. cbn [invoke].
    eapply wp_mono; [|apply week_drag_end_table].
    intros c s1 out1 Ht1. cbv beta in Ht1. rewrite Htbl, week_off_all in Ht1.
    destruct c as [[]|err]; [|by split; [exists 0%nat|]].
    apply wp_walk_end; [by rewrite (week_table_listeners 0 s1 DragEnd)|].
    by split; [exists 0%nat|].
  - (* click *)
    apply wp_walk_end; [by rewrite (Hls Click)|]. split; [by exists k|done].
Qed.

Lemma week_gesture_consistent (evs : list (DragEvent * DragEventData Element))
    (st : State (Element := Element)) :
  week_consistent st → week_consistent (gesture evs st).1.
Proof.
  revert st. induction evs as [|[ev data] evs IH]; intros st Hst; cbn [gesture fst snd]; [done|].
  destruct (week_dispatch_consistent ev data st Hst) as (Hst' & _). by apply IH.
Qed.

Lemma week_init_consistent items view clock h :
  week_consistent (init (Element := Element) items view clock h).
Proof. exists 0%nat. by split. Qed.

(** X21. Month variant, after any sequence of drag handler events on a
    freshly constructed instance: the table holds the drag start listener
    and drag and drag end listeners only; whenever one of these is
    subscribed the mapper is bound; a drag end event leaves the drag start
    listener alone in the table, even when a listener throws; and a click
    is not listened to: it changes nothing and fires nothing, so a drag
    started stays started. *)
Theorem month_subscriptions items view clock h
    (evs : list (DragEvent * DragEventData Element)) data :
  let st := (gesture evs (init (Element := Element) items view clock h)).1 in
  (∀ entry, entry ∈ dragHandler st →
     entry = (DragStart, cb_onDragStart) ∨ entry ∈ week_listeners) ∧
  (∀ entry, entry ∈ dragHandler st → entry ≠ (DragStart, cb_onDragStart) →
     is_Some (getScheduleData st)) ∧
  dragHandler (final (dispatch DragEnd data st)) = [(DragStart, cb_onDragStart)] ∧
  dispatch Click data st = (Normal tt, st, []).
Proof.
  intros st.
  pose proof (week_gesture_consistent evs _ (week_init_consistent items view clock h)) as Hst.
  fold st in Hst.
  destruct (week_dispatch_consistent DragEnd data st Hst) as (_ & Hend).
  pose proof (week_dispatch_click data st Hst) as Hclick.
  destruct Hst as (k & Htbl & Hses).
  split; [|split; [|split; [by apply Hend | by apply Hclick]]].
  - intros entry. rewrite Htbl. intros [->|(l & Hl & Hx)%elem_of_concat]%elem_of_cons;
      [by left|right]. by apply elem_of_replicate in Hl as [-> _].
  - intros entry. rewrite Htbl. intros [->|Hin]%elem_of_cons Hne; [done|].
    apply Hses. intros ->. by apply elem_of_nil in Hin.
Qed.

End Facts.
End WeekResizeGestures.

(** ** The gestures of the sample calendar *)

Module Scenarios.
Import Sample Fixtures.

(** X1 at work: a press on a time grid without columns. *)
Lemma drag_start_ignored_witness :
  TimeResize._onDragStart (pointer 0 600) no_columns = (Normal tt, no_columns, []).
Proof.
  apply TimeResizeGestures.drag_start_ignored. right; right; right; left. reflexivity.
Defined.

(** X2 at work: the lower handle of 09:00-10:00 pressed at 10:00, moved
    twice, released at 10:45. *)
Lemma bottom_gesture_witness :
  let r := TimeResize.gesture
             [(DragStart, pointer 0 600); (Drag, pointer 0 620); (Drag, pointer 0 640);
              (DragEnd, pointer 0 645)] (grid (at_ 9 0) (at_ 10 0)) in
  TimeResize.dragHandler r.1 = [(DragStart, TimeResize.cb_onDragStart)] ∧
  ev_name <$> r.2 =
    ["timeResizeDragstart"; "timeResizeDrag"; "timeResizeDrag"; "beforeUpdateSchedule";
     "timeResizeDragend"] ∧
  ∃ e u, TimeResizeProps.requests r.2 = [e] ∧ ev_data e = TimeResize.update u ∧
    valueOf (ev_dates e) (bu_end u) = at_ 10 45.
Proof.
  destruct (TimeResizeGestures.bottom_gesture (pointer 0 600) (pointer 0 645)
              [pointer 0 620; pointer 0 640] (grid (at_ 9 0) (at_ 10 0)) column 7%nat meeting)
    as (Ht & _ & _ & Hn & e & u & Hr & Hu & _ & _ & _ & He);
    [reflexivity | reflexivity | reflexivity | reflexivity | reflexivity
    | split; vm_compute; lia |].
  split; [exact Ht|]. split; [exact Hn|]. exists e, u.
  split; [exact Hr|]. split; [exact Hu|]. rewrite He. by vm_compute.
Defined.

(** X3 at work: the upper handle of 09:00-10:00 pressed at 09:20, moved
    once, released 20 minutes further down. *)
Lemma top_gesture_witness :
  let r := TimeResize.gesture
             [(DragStart, pointer 0 560); (Drag, pointer 0 570); (DragEnd, pointer 0 580)]
             (grid (at_ 9 0) (at_ 10 0)) in
  TimeResize.dragHandler r.1 = [(DragStart, TimeResize.cb_onDragStart)] ∧
  ev_name <$> r.2 =
    ["timeResizeDragstart"; "timeResizeDragTop"; "beforeUpdateSchedule"; "timeResizeDragend"] ∧
  ∃ e u, TimeResizeProps.requests r.2 = [e] ∧ ev_data e = TimeResize.update u ∧
    valueOf (ev_dates e) (bu_start u) = at_ 9 20.
Proof.
  destruct (TimeResizeGestures.top_gesture (pointer 0 560) (pointer 0 580)
              [pointer 0 570] (grid (at_ 9 0) (at_ 10 0)) column 7%nat meeting)
    as (Ht & _ & _ & Hn & e & u & Hr & Hu & _ & _ & _ & Hs);
    [reflexivity | reflexivity | reflexivity | reflexivity | reflexivity
    | split; vm_compute; lia |].
  split; [exact Ht|]. split; [exact Hn|]. exists e, u.
  split; [exact Hr|]. split; [exact Hu|]. rewrite Hs. by vm_compute.
Defined.

(** X4 at work: dragged 20 hours down, the end of 10:00 is the last second
    of the day. *)
Lemma end_drag_closed_form_witness :
  ∃ e u,
    TimeResizeProps.requests
      (fired (TimeResize._onDragEnd (pointer 0 1800) (pressed_bottom (at_ 9 0) (at_ 10 0)))) = [e] ∧
    ev_data e = TimeResize.update u ∧
    valueOf (ev_dates e) (bu_end u) = datetime.end_ day0.
Proof.
  edestruct (TimeResizeGestures.end_drag_closed_form (pointer 0 1800)
               (pressed_bottom (at_ 9 0) (at_ 10 0)) column)
    as (e & u & Hr & Hu & _ & He);
    [reflexivity | reflexivity | reflexivity | split; vm_compute; lia | vm_compute; lia
    | by vm_compute |].
  exists e, u. split; [exact Hr|]. split; [exact Hu|]. rewrite He. by vm_compute.
Defined.

(** X5 at work: dragged far up, the start of 09:00 is the start of the
    day. *)
Lemma start_drag_closed_form_witness :
  ∃ e u,
    TimeResizeProps.requests
      (fired (TimeResize._onDragEndTop (pointer 0 (-900)) (pressed_top (at_ 9 0) (at_ 10 0))))
      = [e] ∧
    ev_data e = TimeResize.update u ∧
    valueOf (ev_dates e) (bu_start u) = day0.
Proof.
  edestruct (TimeResizeGestures.start_drag_closed_form (pointer 0 (-900))
               (pressed_top (at_ 9 0) (at_ 10 0)) column)
    as (e & u & Hr & Hu & _ & Hs);
    [reflexivity | reflexivity | reflexivity | split; vm_compute; lia | vm_compute; lia |].
  exists e, u. split; [exact Hr|]. split; [exact Hu|]. rewrite Hs. by vm_compute.
Defined.

(** X6 at work: released at 10:05 and at 10:45. *)
Lemma end_drag_monotone_witness :
  ∃ e u e' u',
    TimeResizeProps.requests
      (fired (TimeResize._onDragEnd (pointer 0 605) (pressed_bottom (at_ 9 0) (at_ 10 0)))) = [e] ∧
    ev_data e = TimeResize.update u ∧
    TimeResizeProps.requests
      (fired (TimeResize._onDragEnd (pointer 0 645) (pressed_bottom (at_ 9 0) (at_ 10 0)))) = [e'] ∧
    ev_data e' = TimeResize.update u' ∧
    valueOf (ev_dates e) (bu_end u) ≤ valueOf (ev_dates e') (bu_end u').
Proof.
  eapply (TimeResizeGestures.end_drag_monotone (pointer 0 605) (pointer 0 645)
            (pressed_bottom (at_ 9 0) (at_ 10 0)) column).
  - reflexivity.
  - reflexivity.
  - reflexivity.
  - split; vm_compute; lia.
  - vm_compute; lia.
  - by vm_compute.
Defined.

(** X7 at work: released at 09:00 and at 09:10. *)
Lemma start_drag_monotone_witness :
  ∃ e u e' u',
    TimeResizeProps.requests
      (fired (TimeResize._onDragEndTop (pointer 0 540) (pressed_top (at_ 9 0) (at_ 10 0)))) = [e] ∧
    ev_data e = TimeResize.update u ∧
    TimeResizeProps.requests
      (fired (TimeResize._onDragEndTop (pointer 0 550) (pressed_top (at_ 9 0) (at_ 10 0)))) = [e'] ∧
    ev_data e' = TimeResize.update u' ∧
    valueOf (ev_dates e) (bu_start u) ≤ valueOf (ev_dates e') (bu_start u').
Proof.
  eapply (TimeResizeGestures.start_drag_monotone (pointer 0 540) (pointer 0 550)
            (pressed_top (at_ 9 0) (at_ 10 0)) column).
  - reflexivity.
  - reflexivity.
  - reflexivity.
  - split; vm_compute; lia.
  - vm_compute; lia.
  - by vm_compute.
Defined.

(** X8 at work: released at the pixel of 10:45, the event shows 11:15 as
    its nearest grid time and 10:45 as its time. *)
Lemma drag_end_event_dates_witness :
  ∃ e d,
    last (fired (TimeResize._onDragEnd (pointer 0 645) (pressed_bottom (at_ 9 0) (at_ 10 0))))
      = Some e ∧
    ev_data e = TimeResize.schedule_data d ∧
    valueOf (ev_dates e) (TimeResize.nearestGridTimeY d) = at_ 11 15 ∧
    valueOf (ev_dates e) (TimeResize.timeY d) = at_ 10 45.
Proof.
  edestruct (TimeResizeGestures.drag_end_event_dates (pointer 0 645)
               (pressed_bottom (at_ 9 0) (at_ 10 0)) column)
    as (e & d & t & Hl & _ & Hd & _ & _ & _ & Hn & _ & _ & Ht & _);
    [reflexivity | reflexivity | left; reflexivity |].
  exists e, d. split; [exact Hl|]. split; [exact Hd|].
  split; [rewrite Hn | rewrite Ht]; by vm_compute.
Defined.

(** X9 at work: the request of a bottom drag on the sample schedule. *)
Lemma time_request_dates_witness :
  let st := pressed_bottom (at_ 9 0) (at_ 10 0) in
  let r := TimeResize._onDragEnd (pointer 0 645) st in
  bu_start (first_request r) = getStarts (bu_schedule (first_request r)) ∧
  (length (dates st) ≤ bu_end (first_request r) < length (ev_dates (first_event r)))%nat.
Proof.
  intros st r.
  apply (TimeResizeGestures.time_request_dates (pointer 0 645) st (first_event r)
           (first_request r)).
  - reflexivity.
  - vm_compute. constructor.
Defined.

(** X10 at work: a freshly constructed instance has no session. *)
Lemma handlers_without_session_witness :
  let st := grid (at_ 9 0) (at_ 10 0) in
  TimeResize._onDrag (pointer 0 600) None None st = (Normal tt, st, []) ∧
  TimeResize._onDragTop (pointer 0 600) None None st = (Normal tt, st, []) ∧
  TimeResize._onDragEnd (pointer 0 600) st
    = (Normal tt, TimeResize.set_dragHandler (off TimeResizeProps.bottom_listeners) st, []) ∧
  TimeResize._onDragEndTop (pointer 0 600) st
    = (Normal tt, TimeResize.set_dragHandler (off TimeResizeProps.top_listeners) st, []).
Proof.
  apply (TimeResizeGestures.handlers_without_session (pointer 0 600) (grid (at_ 9 0) (at_ 10 0))).
  left. reflexivity.
Defined.

(** Presses for both edges and one release: the drag end listener of the
    lower edge unsubscribes its set and the click listener, the walk then
    finds no second listener, and the drag and drag end listeners of the
    upper edge stay subscribed, without a session. A second release
    restores the table. *)
Example release_skips_a_listener :
  let st := (TimeResize.gesture
               [(DragStart, pointer 0 600); (DragStart, pointer 0 560);
                (DragEnd, pointer 0 645)] (grid (at_ 9 0) (at_ 10 0))).1 in
  TimeResize.dragHandler st =
    [(DragStart, TimeResize.cb_onDragStart); (Drag, TimeResize.cb_onDragTop);
     (DragEnd, TimeResize.cb_onDragEndTop)] ∧
  TimeResize._getScheduleDataFunc st = None ∧ TimeResize._dragStart st = None ∧
  TimeResize.dragHandler (final (TimeResize.dispatch DragEnd (pointer 0 645) st))
    = [(DragStart, TimeResize.cb_onDragStart)].
Proof. split_and!; by vm_compute. Qed.

(** X15 at work: a press on a page without resize handles. *)
Lemma month_drag_start_ignored_witness :
  WeekResize._onDragStart (H := bare) (pointer 3 0) (weeks (at_ 9 0) (at_ 10 0))
    = (Normal tt, weeks (at_ 9 0) (at_ 10 0), []).
Proof.
  apply (WeekResizeGestures.month_drag_start_ignored (H := bare)). left. reflexivity.
Defined.

(** X16 at work: pressed over day 3, moved over day 4, released over day 5. *)
Lemma month_gesture_witness :
  let r := WeekResize.gesture
             [(DragStart, pointer 3 0); (Drag, pointer 4 0); (DragEnd, pointer 5 0)]
             (weeks (at_ 9 0) (at_ 10 0)) in
  WeekResize.dragHandler r.1 = [(DragStart, WeekResize.cb_onDragStart)] ∧
  ev_name <$> r.2 =
    ["WeekResizeDragstart"; "WeekResizeDrag"; "beforeUpdateSchedule"; "WeekResizeDragend"] ∧
  ∃ e u, WeekResizeProps.requests r.2 = [e] ∧ ev_data e = WeekResize.update u ∧
    valueOf (ev_dates e) (bu_end u) = datetime.end_ (day0 + 5 * 86400000).
Proof.
  destruct (WeekResizeGestures.month_gesture (pointer 3 0) (pointer 5 0) [pointer 4 0]
              (weeks (at_ 9 0) (at_ 10 0)) 7%nat meeting
              {| WeekResize.p_x := 3; WeekResize.p_y := 0;
                 WeekResize.p_date := day0 + 3 * 86400000 |}
              {| WeekResize.p_x := 5; WeekResize.p_y := 0;
                 WeekResize.p_date := day0 + 5 * 86400000 |})
    as (Ht & _ & _ & Hn & Hreq);
    [reflexivity | left; split; reflexivity | reflexivity | reflexivity | reflexivity
    | vm_compute; lia | reflexivity | reflexivity |].
  split; [exact Ht|]. split; [exact Hn|].
  destruct Hreq as (e & u & Hr & Hu & _ & _ & He & _).
  exists e, u. split; [exact Hr|]. split; [exact Hu|]. exact He.
Defined.

(** X17 at work: a press with the pointer outside of the weeks. *)
Lemma month_press_outside_cells_witness :
  let st := weeks (at_ 9 0) (at_ 10 0) in
  ∃ msg,
    WeekResize._onDragStart (H0 := nowhere) (pointer 3 0) st =
      (Throw (TypeError msg),
       WeekResize.set_getScheduleData (Some (WeekResize.monthView st))
         (WeekResize.set_dragHandler (on WeekResizeSession.week_listeners) st), []).
Proof.
  apply (WeekResizeGestures.month_press_outside_cells (H0 := nowhere) (pointer 3 0)
           (weeks (at_ 9 0) (at_ 10 0)) 7%nat).
  - reflexivity.
  - reflexivity.
  - reflexivity.
Defined.

(** X18 at work: pressed over day 3 and released outside of the weeks, the
    handler returns and the session is cleared; pressed and released
    outside of the weeks, the guide has no guide element and the handler
    throws with the mapper still bound. *)
Lemma month_release_outside_cells_witness :
  let st := pressed_week (at_ 9 0) (at_ 10 0) in
  let r := WeekResize._onDragEnd (H0 := nowhere) (pointer 5 0) st in
  let st' := final (WeekResize.dispatch (H0 := nowhere) DragStart (pointer 3 0)
                      (weeks (at_ 9 0) (at_ 10 0))) in
  let r' := WeekResize._onDragEnd (H0 := nowhere) (pointer 5 0) st' in
  (ev_name <$> fired r = ["WeekResizeDragend"] ∧ completion r = Normal tt ∧
   WeekResize.getScheduleData (final r) = None) ∧
  (ev_name <$> fired r' = ["WeekResizeDragend"] ∧
   (∃ msg, completion r' = Throw (TypeError msg)) ∧
   WeekResize.getScheduleData (final r') = Some month_view ∧
   WeekResize.dragHandler (final r') = [(DragStart, WeekResize.cb_onDragStart)]).
Proof.
  intros st r st' r'. subst r r'. split.
  - destruct (WeekResizeGestures.month_release_outside_cells (H0 := nowhere) (pointer 5 0)
                st month_view) as (Hf & _ & Hn & _); [reflexivity | reflexivity |].
    destruct Hn as (Hc & Hv & _).
    { left. split; [split; reflexivity|]. by eexists. }
    split; [by rewrite Hf|]. split; [exact Hc | exact Hv].
  - destruct (WeekResizeGestures.month_release_outside_cells (H0 := nowhere) (pointer 5 0)
                st' month_view) as (Hf & Ht & _ & Hi); [reflexivity | reflexivity |].
    destruct Hi as (Hc & Hv & _); [reflexivity | reflexivity |].
    split; [by rewrite Hf|]. split; [exact Hc|]. split; [exact Hv|].
    rewrite Ht. by vm_compute.
Defined.

(** X19 at work: the block pressed names a model the collection does not
    hold. *)
Lemma month_release_unknown_schedule_witness :
  let st := final (WeekResize.dispatch DragStart (pointer 3 0) empty_weeks) in
  ∃ msg,
    WeekResize._onDragEnd (pointer 5 0) st =
      (Throw (TypeError msg),
       set_dates (dates st ++ [day0 + 5 * 86400000])
         (WeekResize.set_dragHandler (off WeekResizeSession.week_listeners) st), []).
Proof.
  apply (WeekResizeGestures.month_release_unknown_schedule (pointer 5 0)
           (final (WeekResize.dispatch DragStart (pointer 3 0) empty_weeks)) month_view
           {| WeekResize.p_x := 5; WeekResize.p_y := 0;
              WeekResize.p_date := day0 + 5 * 86400000 |}).
  - reflexivity.
  - reflexivity.
  - right. eexists. split; reflexivity.
Defined.

(** X20 at work: the request of a month drag on the sample schedule. *)
Lemma month_request_dates_witness :
  let st := pressed_week (at_ 9 0) (at_ 10 0) in
  let r := WeekResize._onDragEnd (pointer 5 0) st in
  (length (dates st) ≤ bu_start (week_first_request r) < length (ev_dates (week_first_event r)))%nat ∧
  (length (dates st) ≤ bu_end (week_first_request r) < length (ev_dates (week_first_event r)))%nat ∧
  bu_start (week_first_request r) ≠ bu_end (week_first_request r).
Proof.
  intros st r.
  apply (WeekResizeGestures.month_request_dates (pointer 5 0) st (week_first_event r)
           (week_first_request r)).
  - vm_compute. constructor.
  - by vm_compute.
Defined.

(** X22 at work: blocks 1 and 2 are hidden, then shown; element 3 is not
    touched. *)
Lemma guide_hides_then_shows_witness :
  let started := WeekResizeGuide._onDragStart press_event guide_idle in
  let ended := WeekResizeGuide._onDragEnd (final started) in
  WeekResizeGuide.display (final started) 1%nat = "none" ∧
  WeekResizeGuide.display (final ended) 1%nat = "block" ∧
  WeekResizeGuide.display (final ended) 3%nat = "" ∧
  WeekResizeGuide.elements (final ended) = None ∧
  WeekResizeGuide.guide (final ended) = None.
Proof.
  destruct (WeekResizeGuideSpec.guide_hides_then_shows press_event guide_idle month_view meeting)
    as (_ & _ & _ & _ & _ & Hd1 & Hd2 & He & Hg & _);
    [reflexivity | reflexivity | reflexivity |].
  split; [by rewrite Hd1|]. split; [by rewrite Hd2|]. split; [by rewrite Hd2|].
  split; [exact He | exact Hg].
Defined.

(** X23 at work: the guide as constructed. *)
Lemma guide_idle_throws_witness :
  (∀ ev, ∃ msg, WeekResizeGuide._onDrag ev guide_idle = (Throw (TypeError msg), guide_idle, [])) ∧
  (∃ msg, WeekResizeGuide._onDragEnd guide_idle = (Throw (TypeError msg), guide_idle, [])) ∧
  (∃ msg, WeekResizeGuide.destroy guide_idle
          = (Throw (TypeError msg), WeekResizeGuide.set_handlers [] guide_idle, [])).
Proof.
  apply (WeekResizeGuideSpec.guide_idle_throws guide_idle).
  - reflexivity.
  - reflexivity.
  - reflexivity.
Defined.

(** X24 at work: the drag start of a block whose model is unknown. *)
Lemma guide_start_without_model_witness :
  let g := {| WeekResizeGuide.isResizeMode := true;
              WeekResizeGuide.guide_monthView := Some month_view |} in
  ∃ msg,
    WeekResizeGuide._onDragStart press_event_unknown guide_idle =
      (Throw (TypeError msg), WeekResizeGuide.set_guide (Some g) guide_idle,
       [WeekResizeGuide.guide_start g press_event_unknown]).
Proof.
  apply (WeekResizeGuideSpec.guide_start_without_model press_event_unknown guide_idle).
  - reflexivity.
  - reflexivity.
Defined.

(** X25 at work: the guide destroyed while blocks 1 and 2 are hidden. *)
Lemma guide_destroyed_mid_drag_witness :
  let started := final (WeekResizeGuide._onDragStart press_event guide_idle) in
  let r := WeekResizeGuide.destroy started in
  completion r = Normal tt ∧
  WeekResizeGuide.handlers (final r) = [] ∧
  WeekResizeGuide.display (final r) 1%nat = "none" ∧
  WeekResizeGuide.display (final r) 2%nat = "none" ∧
  WeekResizeGuide.body_class (final r) = "resizing-x".
Proof.
  destruct (WeekResizeGuideSpec.guide_destroyed_mid_drag press_event guide_idle month_view meeting)
    as (Hc & _ & Hh & _ & _ & _ & Hd & Hb);
    [reflexivity | reflexivity | reflexivity |].
  split; [exact Hc|]. split; [exact Hh|].
  split; [apply Hd; by vm_compute; constructor|].
  split; [apply Hd; by do 2 constructor|]. by rewrite Hb.
Defined.

End Scenarios.
